(** * PingPong Web Chat: a shallow embedding of [backend/db.py] and
    [backend/main.py], and the properties of the relay proved over it.

    Layout: the Python helpers the code relies on ([str.strip],
    [os.path.basename], slicing), then the SQLite store of [db.py] as
    explicit state passing, then the HTTP and WebSocket handlers of
    [main.py] over a world made of the store, the registry of live
    connections and the trace of effects; the lemmas and theorems follow
    the definitions. *)

From Stdlib Require Import ZArith String Ascii Lia OrderedTypeEx.
From stdpp Require Import base list sorting strings gmap.

Local Open Scope string_scope.

(** ** Python values used by the code *)

Module Py.

(** [str.isspace] on one code point, as CPython's [Py_UNICODE_ISSPACE]
    has it: TAB..CR, FS..US, SPACE, NEL, NBSP, U+1680, U+2000..U+200A,
    U+2028, U+2029, U+202F, U+205F and U+3000. *)
Definition isspace_code_point (n : N) : bool :=
  ((9 <=? n) && (n <=? 13) || (28 <=? n) && (n <=? 32)
   || (n =? 133) || (n =? 160) || (n =? 5760)
   || (8192 <=? n) && (n <=? 8202)
   || (n =? 8232) || (n =? 8233) || (n =? 8239) || (n =? 8287) || (n =? 12288))%N.


Definition isspace (c : ascii) : bool := isspace_code_point (N_of_ascii c).

(** [s.lstrip()] *)
Fixpoint lstrip (s : string) : string :=
  match s with
  | EmptyString => EmptyString
  | String c s' => if isspace c then lstrip s' else s
  end.

(** [s.rstrip()] *)
Fixpoint rstrip (s : string) : string :=
  match s with
  | EmptyString => EmptyString
  | String c s' =>
      match rstrip s' with
      | EmptyString => if isspace c then EmptyString else String c EmptyString
      | r => String c r
      end
  end.

(** [s.strip()]: whitespace removed at both ends. *)
Definition strip (s : string) : string := lstrip (rstrip s).

(** Truthiness of a [str]: [not s] holds exactly for the empty string. *)
Definition truthy (s : string) : bool :=
  match s with EmptyString => false | _ => true end.

(** [p.rfind(c)], counting from index [i] of the first character;
    [-1] when [c] does not occur. *)
Fixpoint rfind_from (i : Z) (c : ascii) (p : string) : Z :=
  match p with
  | EmptyString => (-1)%Z
  | String a p' =>
      let r := rfind_from (i + 1) c p' in
      if (0 <=? r)%Z then r else if Ascii.eqb a c then i else (-1)%Z
  end.

Definition rfind (c : ascii) (p : string) : Z := rfind_from 0 c p.

(** [c in p] *)
Fixpoint occurs (c : ascii) (p : string) : bool :=
  match p with
  | EmptyString => false
  | String a p' => Ascii.eqb a c || occurs c p'
  end.

(** [s[i:]] for [0 <= i]. *)
Definition slice_from (i : Z) (s : string) : string :=
  substring (Z.to_nat i) (String.length s - Z.to_nat i) s.

(** [s[-n:]] for [0 < n]: the last [n] characters, all of [s] when it is
    shorter. *)
Definition slice_last (n : nat) (s : string) : string :=
  substring (String.length s - n) n s.

(** [os.path.basename] (posixpath): [i = p.rfind('/') + 1; return p[i:]]. *)
Definition basename (p : string) : string :=
  slice_from (rfind "/"%char p + 1) p.

End Py.

(** ** Exceptions *)

(** The exceptions the two modules raise or let through.  [ValueError]
    carries its message, [HTTPException] its status code and detail.
    [OverflowError] is what the sqlite3 binding raises when a Python
    [int] bound to a [?] does not fit SQLite's signed 64-bit INTEGER. *)
Inductive exn : Type :=
  | ValueError (msg : string)
  | HTTPException (status_code : Z) (detail : string)
  | IntegrityError
  | OperationalError
  | TypeError
  | AttributeError
  | OverflowError
  | WebSocketDisconnect.

(** ** State and exceptions *)

(** A computation over a state [S] that returns a value or raises; the
    state reached is kept in both cases (a commit before a raise stays
    committed). *)
Definition M (S A : Type) : Type := S -> S * (exn + A).

Definition ret {S A} (a : A) : M S A := fun s => (s, inr a).

Definition raise {S A} (e : exn) : M S A := fun s => (s, inl e).

Definition bind {S A B} (c : M S A) (k : A -> M S B) : M S B :=
  fun s =>
    match c s with
    | (s', inl e) => (s', inl e)
    | (s', inr a) => k a s'
    end.

(** An expression that reads and writes no state. *)
Definition pure {S A} (r : exn + A) : M S A := fun s => (s, r).

Definition gets {S A} (f : S -> A) : M S A := fun s => (s, inr (f s)).

Definition modify {S} (f : S -> S) : M S unit := fun s => (f s, inr tt).

Notation "'let*' x ':=' c 'in' k" := (bind c (fun x => k))
  (at level 10, x name, c at level 100, k at level 200).
Notation "c ';;' k" := (bind c (fun _ => k))
  (at level 100, k at level 200, right associativity).

(** ** The SQLite store of [db.py] *)

Module Db.

(** [status TEXT CHECK (status IN ('pending', 'accepted', 'rejected'))] *)
Inductive status : Type := pending | accepted | rejected.

(** [kind TEXT CHECK (kind IN ('text', 'file'))] *)
Inductive kind : Type := text | file.

#[export] Instance status_eq_dec : EqDecision status.
Proof. solve_decision. Defined.

#[export] Instance kind_eq_dec : EqDecision kind.
Proof. solve_decision. Defined.

Definition status_eqb (a b : status) : bool :=
  match a, b with
  | pending, pending | accepted, accepted | rejected, rejected => true
  | _, _ => false
  end.

(** Rows of the four tables.  INTEGER columns are [Z]; the callers' ints
    are taken in the 64-bit range the sqlite3 binding accepts.
    [created_at] and [responded_at] are the TEXT that CURRENT_TIMESTAMP
    yields. *)
Record user : Type := mkUser {
  u_id : Z;
  u_username : string;
  u_password_hash : string
}.

Record session : Type := mkSession {
  s_token : string;
  s_user_id : Z;
  s_created_at : string
}.

Record friend_request : Type := mkFriendRequest {
  fr_id : Z;
  fr_from_user_id : Z;
  fr_to_user_id : Z;
  fr_status : status;
  fr_created_at : string;
  fr_responded_at : option string
}.

Record message : Type := mkMessage {
  m_id : Z;
  m_from_user_id : Z;
  m_to_user_id : Z;
  m_kind : kind;
  m_text : string;
  m_url : option string;
  m_created_at : string
}.

#[export] Instance message_eq_dec : EqDecision message.
Proof. solve_decision. Defined.

(** The database file: each table is the list of its rows in insertion
    order. *)
Record DB : Type := mkDB {
  users : list user;
  sessions : list session;
  friend_requests : list friend_request;
  messages : list message
}.

(** [init_db] on a fresh file: the four tables exist and are empty. *)
Definition init_db : DB := mkDB [] [] [] [].

(** INTEGER PRIMARY KEY AUTOINCREMENT: one more than the largest id ever
    given; no row is ever deleted, so that is the largest id present. *)
Definition next_id (ids : list Z) : Z := (1 + foldr Z.max 0 ids)%Z.

Definition with_users (d : DB) (l : list user) : DB :=
  mkDB l (sessions d) (friend_requests d) (messages d).
Definition with_sessions (d : DB) (l : list session) : DB :=
  mkDB (users d) l (friend_requests d) (messages d).
Definition with_friend_requests (d : DB) (l : list friend_request) : DB :=
  mkDB (users d) (sessions d) l (messages d).
Definition with_messages (d : DB) (l : list message) : DB :=
  mkDB (users d) (sessions d) (friend_requests d) l.

(** [SELECT ... FROM users WHERE id = ?] ([id] is the primary key). *)
Definition user_by_id (d : DB) (id : Z) : option user :=
  find (fun u => (u_id u =? id)%Z) (users d).

(** [get_user_by_username]: TEXT equality is exact (BINARY collation). *)
Definition get_user_by_username (d : DB) (username : string) : option user :=
  find (fun u => String.eqb (u_username u) username) (users d).

(** [create_user]: the UNIQUE constraint on [username] raises
    IntegrityError, turned into ValueError.  [hash_password] is SHA-256
    from hashlib, taken as a function. *)
Definition create_user (hash_password : string -> string)
    (username password : string) : M DB user :=
  let* d := gets id in
  match get_user_by_username d username with
  | Some _ => raise (ValueError "Username already taken")
  | None =>
      let user_id := next_id (map u_id (users d)) in
      let row := mkUser user_id username (hash_password password) in
      modify (fun d => with_users d (users d ++ [row])) ;;
      let* d' := gets id in
      match user_by_id d' user_id with
      | Some u => ret u
      | None => raise TypeError
      end
  end.

(** [create_session]: [token] is the hex of [os.urandom(24)]; the token
    is the primary key of the table. *)
Definition create_session (now token : string) (user_id : Z) : M DB string :=
  let* d := gets id in
  if existsb (fun s => String.eqb (s_token s) token) (sessions d)
  then raise IntegrityError
  else
    modify (fun d => with_sessions d (sessions d ++ [mkSession token user_id now])) ;;
    ret token.

(** [get_user_by_token]: sessions joined with users on the token. *)
Definition get_user_by_token (d : DB) (token : string) : option user :=
  match find (fun s => String.eqb (s_token s) token) (sessions d) with
  | Some s => user_by_id d (s_user_id s)
  | None => None
  end.

(** *** Friend requests *)

(** The row the request functions return: the request joined with the
    names of its two users. *)
Record request_row : Type := mkRequestRow {
  rr_id : Z;
  rr_status : status;
  rr_from_username : string;
  rr_to_username : string
}.

(** [WHERE (from_user_id = a AND to_user_id = b)
        OR (from_user_id = b AND to_user_id = a)] *)
Definition between (a b : Z) (r : friend_request) : bool :=
  ((fr_from_user_id r =? a) && (fr_to_user_id r =? b)
   || (fr_from_user_id r =? b) && (fr_to_user_id r =? a))%Z.

(** The three branches taken on an existing row. *)
Definition existing_request_error (st : status) : exn :=
  match st with
  | accepted => ValueError "You are already friends"
  | pending => ValueError "A pending friend request already exists"
  | rejected => ValueError "A friend request already exists"
  end.

(** [SELECT ... FROM friend_requests WHERE id = ?] ([id] is the primary
    key). *)
Definition request_by_id (d : DB) (request_id : Z) : option friend_request :=
  find (fun r => (fr_id r =? request_id)%Z) (friend_requests d).

(** [SELECT fr.id, fr.status, u_from.username, u_to.username ...
     WHERE fr.id = ?], then [dict(row)]: TypeError on no row. *)
Definition select_request_row (d : DB) (request_id : Z) : option request_row :=
  match request_by_id d request_id with
  | None => None
  | Some r =>
      match user_by_id d (fr_from_user_id r), user_by_id d (fr_to_user_id r) with
      | Some u_from, Some u_to =>
          Some (mkRequestRow (fr_id r) (fr_status r) (u_username u_from) (u_username u_to))
      | _, _ => None
      end
  end.

Definition fetch_request_row (request_id : Z) : M DB request_row :=
  let* d := gets id in
  match select_request_row d request_id with
  | Some row => ret row
  | None => raise TypeError
  end.

(** A Python [int] is unbounded; the sqlite3 binding accepts one as a
    parameter only within signed 64 bits and raises [OverflowError]
    otherwise, before the statement runs.  The check is written out
    where the handlers pass on an integer that the client chose: the
    request id of [respond_to_friend_request] and the limit of
    [get_conversation] (with the two user ids bound in the same
    statement).  The other integer parameters are user ids that the
    handlers read from the store. *)
Definition fits_int64 (z : Z) : bool :=
  ((- 2 ^ 63 <=? z) && (z <? 2 ^ 63))%Z.

(** [create_friend_request]; [now] is CURRENT_TIMESTAMP at the insert. *)
Definition create_friend_request (now : string) (from_user_id : Z)
    (to_username : string) : M DB request_row :=
  let* d := gets id in
  match get_user_by_username d to_username with
  | None => raise (ValueError "Target user does not exist")
  | Some target =>
      let to_user_id := u_id target in
      if (to_user_id =? from_user_id)%Z
      then raise (ValueError "Cannot add yourself as a friend")
      else
        match find (between from_user_id to_user_id) (friend_requests d) with
        | Some row => raise (existing_request_error (fr_status row))
        | None =>
            (* INSERT, under UNIQUE (from_user_id, to_user_id) *)
            if existsb (fun r => (fr_from_user_id r =? from_user_id)
                                 && (fr_to_user_id r =? to_user_id))%Z
                 (friend_requests d)
            then raise IntegrityError
            else
              let request_id := next_id (map fr_id (friend_requests d)) in
              let row := mkFriendRequest request_id from_user_id to_user_id
                           pending now None in
              modify (fun d => with_friend_requests d (friend_requests d ++ [row])) ;;
              fetch_request_row request_id
        end
  end.

(** The two halves of [create_friend_request].  The function opens no
    transaction around them: the lookups read the store as it is when
    they run, and the INSERT, which commits by itself, sees the store as
    it is by then. *)

(** Up to the SELECT in either direction: the id of the target, or the
    ValueError raised. *)
Definition create_friend_request_lookup (d : DB) (from_user_id : Z)
    (to_username : string) : exn + Z :=
  match get_user_by_username d to_username with
  | None => inl (ValueError "Target user does not exist")
  | Some target =>
      let to_user_id := u_id target in
      if (to_user_id =? from_user_id)%Z
      then inl (ValueError "Cannot add yourself as a friend")
      else
        match find (between from_user_id to_user_id) (friend_requests d) with
        | Some row => inl (existing_request_error (fr_status row))
        | None => inr to_user_id
        end
  end.

(** From the INSERT on, under UNIQUE (from_user_id, to_user_id). *)
Definition create_friend_request_write (now : string) (from_user_id to_user_id : Z)
    : M DB request_row :=
  let* d := gets id in
  if existsb (fun r => (fr_from_user_id r =? from_user_id)
                       && (fr_to_user_id r =? to_user_id))%Z
       (friend_requests d)
  then raise IntegrityError
  else
    let request_id := next_id (map fr_id (friend_requests d)) in
    let row := mkFriendRequest request_id from_user_id to_user_id
                 pending now None in
    modify (fun d => with_friend_requests d (friend_requests d ++ [row])) ;;
    fetch_request_row request_id.

(** Two calls in two worker threads whose lookups both run before either
    INSERT ([send_friend_request] is a plain [def], which FastAPI runs
    in a thread pool). *)
Definition create_friend_request_crossing
    (now1 : string) (from1 : Z) (to1 : string)
    (now2 : string) (from2 : Z) (to2 : string)
    : M DB (request_row * request_row) :=
  let* d := gets id in
  let* id1 := pure (create_friend_request_lookup d from1 to1) in
  let* id2 := pure (create_friend_request_lookup d from2 to2) in
  let* row1 := create_friend_request_write now1 from1 id1 in
  let* row2 := create_friend_request_write now2 from2 id2 in
  ret (row1, row2).

(** The row an UPDATE of [status] and [responded_at] leaves. *)
Definition responded (now : string) (st : status) (r : friend_request) : friend_request :=
  mkFriendRequest (fr_id r) (fr_from_user_id r) (fr_to_user_id r) st
    (fr_created_at r) (Some now).

(** [UPDATE friend_requests SET status = ?, responded_at =
     CURRENT_TIMESTAMP WHERE id = ?] *)
Definition update_status (now : string) (st : status) (request_id : Z)
    (rs : list friend_request) : list friend_request :=
  map (fun r => if (fr_id r =? request_id)%Z then responded now st r else r) rs.

(** ["accepted" if accept else "rejected"] *)
Definition new_status (accept : bool) : status :=
  if accept then accepted else rejected.

(** [respond_to_friend_request] *)
Definition respond_to_friend_request (now : string) (request_id to_user_id : Z)
    (accept : bool) : M DB request_row :=
  let* d := gets id in
  (* [cur.execute("SELECT ... WHERE id = ?", (request_id,))] *)
  if negb (fits_int64 request_id) then raise OverflowError
  else
  match request_by_id d request_id with
  | None => raise (ValueError "Friend request not found")
  | Some row =>
      if negb (fr_to_user_id row =? to_user_id)%Z
      then raise (ValueError "You are not allowed to respond to this request")
      else if negb (status_eqb (fr_status row) pending)
      then raise (ValueError "Friend request is not pending")
      else
        modify (fun d => with_friend_requests d
                           (update_status now (new_status accept) request_id
                              (friend_requests d))) ;;
        fetch_request_row request_id
  end.

(** The two halves of [respond_to_friend_request]: the SELECT with the
    three tests on its row, and the UPDATE, whose WHERE clause names the
    id only, with the final SELECT.  No transaction spans them. *)
Definition respond_to_friend_request_check (d : DB) (request_id to_user_id : Z)
    : exn + unit :=
  if negb (fits_int64 request_id) then inl OverflowError
  else
  match request_by_id d request_id with
  | None => inl (ValueError "Friend request not found")
  | Some row =>
      if negb (fr_to_user_id row =? to_user_id)%Z
      then inl (ValueError "You are not allowed to respond to this request")
      else if negb (status_eqb (fr_status row) pending)
      then inl (ValueError "Friend request is not pending")
      else inr tt
  end.

Definition respond_to_friend_request_write (now : string) (request_id : Z)
    (accept : bool) : M DB request_row :=
  modify (fun d => with_friend_requests d
                     (update_status now (new_status accept) request_id
                        (friend_requests d))) ;;
  fetch_request_row request_id.

(** Two answers to one request in two worker threads whose tests both
    run before either UPDATE. *)
Definition respond_to_friend_request_crossing
    (now1 : string) (accept1 : bool) (now2 : string) (accept2 : bool)
    (request_id to_user_id : Z) : M DB (request_row * request_row) :=
  let* d := gets id in
  let* _ := pure (respond_to_friend_request_check d request_id to_user_id) in
  let* _ := pure (respond_to_friend_request_check d request_id to_user_id) in
  let* row1 := respond_to_friend_request_write now1 request_id accept1 in
  let* row2 := respond_to_friend_request_write now2 request_id accept2 in
  ret (row1, row2).

(** [are_friends]: an accepted request in either direction. *)
Definition are_friends (d : DB) (user_id1 user_id2 : Z) : bool :=
  existsb (fun r => status_eqb (fr_status r) accepted && between user_id1 user_id2 r)
    (friend_requests d).

(** *** Messages *)

(** The row [save_message] returns. *)
Record message_row : Type := mkMessageRow {
  mr_id : Z;
  mr_from_username : string;
  mr_to_username : string;
  mr_kind : kind;
  mr_text : string;
  mr_url : option string;
  mr_created_at : string
}.

(** The inner join of a message with the names of its two users. *)
Definition join_users (d : DB) (m : message) : option message_row :=
  match user_by_id d (m_from_user_id m), user_by_id d (m_to_user_id m) with
  | Some u_from, Some u_to =>
      Some (mkMessageRow (m_id m) (u_username u_from) (u_username u_to)
              (m_kind m) (m_text m) (m_url m) (m_created_at m))
  | _, _ => None
  end.

(** [save_message].  [store_ok] tells whether the storage engine carries
    out the INSERT; when it does not, sqlite3 raises and nothing is
    written. *)
Definition save_message (store_ok : bool) (now : string)
    (from_user_id to_user_id : Z) (k : kind) (txt : string)
    (url : option string) : M DB message_row :=
  if negb store_ok then raise OperationalError
  else
    let* d := gets id in
    let msg_id := next_id (map m_id (messages d)) in
    let m := mkMessage msg_id from_user_id to_user_id k txt url now in
    modify (fun d => with_messages d (messages d ++ [m])) ;;
    let* d' := gets id in
    match find (fun m => (m_id m =? msg_id)%Z) (messages d') with
    | None => raise TypeError
    | Some m' =>
        match join_users d' m' with
        | Some row => ret row
        | None => raise TypeError
        end
    end.

(** [WHERE (m.from_user_id = a AND m.to_user_id = b)
        OR (m.from_user_id = b AND m.to_user_id = a)] *)
Definition exchanged (a b : Z) (m : message) : bool :=
  ((m_from_user_id m =? a) && (m_to_user_id m =? b)
   || (m_from_user_id m =? b) && (m_to_user_id m =? a))%Z.

(** [ORDER BY m.created_at ASC, m.id ASC]: TEXT compares byte by byte. *)
Definition order_key_le (m1 m2 : message) : Prop :=
  match String.compare (m_created_at m1) (m_created_at m2) with
  | Lt => True
  | Eq => (m_id m1 <= m_id m2)%Z
  | Gt => False
  end.

#[export] Instance order_key_le_dec m1 m2 : Decision (order_key_le m1 m2).
Proof.
  unfold order_key_le.
  destruct (String.compare (m_created_at m1) (m_created_at m2)); apply _.
Defined.

(** [LIMIT ?] on a bound 64-bit value: a negative limit is no limit in
    SQLite. *)
Definition sql_limit {A} (limit : Z) (rows : list A) : list A :=
  if (limit <? 0)%Z then rows else take (Z.to_nat limit) rows.

(** The rows of the join that satisfy the WHERE clause. *)
Definition conversation_rows (d : DB) (user1_id user2_id : Z) : list message :=
  filter (fun m => exchanged user1_id user2_id m = true
                   /\ is_Some (join_users d m)) (messages d).

(** The messages the SELECT of [get_conversation] yields once its
    parameters are bound, in the order of the result. *)
Definition get_conversation_msgs (d : DB) (user1_id user2_id limit : Z) : list message :=
  sql_limit limit (merge_sort order_key_le (conversation_rows d user1_id user2_id)).

(** The six columns of the SELECT of [get_conversation]. *)
Record conversation_row : Type := mkConversationRow {
  cr_from_username : string;
  cr_to_username : string;
  cr_kind : kind;
  cr_text : string;
  cr_url : option string;
  cr_created_at : string
}.

Definition select_columns (d : DB) (m : message) : option conversation_row :=
  match join_users d m with
  | Some r => Some (mkConversationRow (mr_from_username r) (mr_to_username r)
                      (mr_kind r) (mr_text r) (mr_url r) (mr_created_at r))
  | None => None
  end.

(** [get_conversation]: the statement binds
    [(user1_id, user2_id, user2_id, user1_id, limit)]. *)
Definition get_conversation (d : DB) (user1_id user2_id limit : Z)
    : exn + list conversation_row :=
  if fits_int64 user1_id && fits_int64 user2_id && fits_int64 limit
  then inr (omap (select_columns d) (get_conversation_msgs d user1_id user2_id limit))
  else inl OverflowError.

(** *** Friend summary *)

(** The rows of the three queries of [get_friend_summary]. *)
Record friend_item : Type := mkFriendItem {
  fi_id : Z;
  fi_username : string
}.

Record incoming_item : Type := mkIncomingItem {
  in_request_id : Z;
  in_from_username : string
}.

Record outgoing_item : Type := mkOutgoingItem {
  out_request_id : Z;
  out_to_username : string;
  out_status : status
}.

Record friend_summary : Type := mkFriendSummary {
  friends : list friend_item;
  incoming_requests : list incoming_item;
  outgoing_requests : list outgoing_item
}.

(** [CASE WHEN fr.from_user_id = ? THEN fr.to_user_id
          ELSE fr.from_user_id END] *)
Definition other_party (user_id : Z) (r : friend_request) : Z :=
  if (fr_from_user_id r =? user_id)%Z then fr_to_user_id r else fr_from_user_id r.

(** The row of the friends query that the request [r] gives, if any. *)
Definition friend_row (d : DB) (user_id : Z) (r : friend_request) : option friend_item :=
  if ((fr_from_user_id r =? user_id)%Z || (fr_to_user_id r =? user_id)%Z)
     && status_eqb (fr_status r) accepted
  then match user_by_id d (other_party user_id r) with
       | Some u => Some (mkFriendItem (u_id u) (u_username u))
       | None => None
       end
  else None.

(** [WHERE fr.to_user_id = ? AND fr.status = 'pending'], joined with the
    sender. *)
Definition incoming_row (d : DB) (user_id : Z) (r : friend_request) : option incoming_item :=
  if (fr_to_user_id r =? user_id)%Z && status_eqb (fr_status r) pending
  then match user_by_id d (fr_from_user_id r) with
       | Some u_from => Some (mkIncomingItem (fr_id r) (u_username u_from))
       | None => None
       end
  else None.

(** [WHERE fr.from_user_id = ? AND fr.status = 'pending'], joined with
    the target. *)
Definition outgoing_row (d : DB) (user_id : Z) (r : friend_request) : option outgoing_item :=
  if (fr_from_user_id r =? user_id)%Z && status_eqb (fr_status r) pending
  then match user_by_id d (fr_to_user_id r) with
       | Some u_to => Some (mkOutgoingItem (fr_id r) (u_username u_to) (fr_status r))
       | None => None
       end
  else None.

(** [get_friend_summary].  None of the three queries has an ORDER BY,
    so SQLite is free to return the rows of each in the order of the
    index it scans; the lists here hold the rows in the order of the
    requests table, and only which rows they hold is to be read from
    them, not their order. *)
Definition get_friend_summary (d : DB) (user_id : Z) : friend_summary :=
  mkFriendSummary
    (omap (friend_row d user_id) (friend_requests d))
    (omap (incoming_row d user_id) (friend_requests d))
    (omap (outgoing_row d user_id) (friend_requests d)).

End Db.

(** ** The handlers of [main.py] *)

Module Main.

(** A live WebSocket is known by the identity of its object. *)
Definition conn : Type := nat.

(** The frames the server sends:
    [{"type": "system", "message": ...}],
    [{"type": "chat", "from": ..., "text": ...}] and
    [{"type": "file", "from": ..., "filename": ..., "url": ...}]. *)
Inductive frame : Type :=
  | SystemFrame (message : string)
  | ChatFrame (from text : string)
  | FileFrame (from filename url : string).

(** The effects of a handler, in the order they happen: the handshake,
    a close with its code, a frame sent on a connection, a row added to
    the messages table. *)
Inductive event : Type :=
  | Accepted (ws : conn)
  | Closed (ws : conn) (code : Z)
  | Sent (ws : conn) (f : frame)
  | Appended (m : Db.message).

(** The process: the database file, the module-level dict
    [active_connections], and the effects so far. *)
Record World : Type := mkWorld {
  db : Db.DB;
  active_connections : gmap string conn;
  trace : list event
}.

Definition with_db (w : World) (d : Db.DB) : World :=
  mkWorld d (active_connections w) (trace w).
Definition with_active_connections (w : World) (ac : gmap string conn) : World :=
  mkWorld (db w) ac (trace w).
Definition log (e : event) : M World unit :=
  modify (fun w => mkWorld (db w) (active_connections w) (trace w ++ [e])).

(** A call into [db.py]: the store changes, and the rows the call added
    to the messages table are recorded in the trace at that point. *)
Definition call_db {A} (c : M Db.DB A) : M World A :=
  fun w =>
    let '(d', r) := c (db w) in
    let added := drop (length (Db.messages (db w))) (Db.messages d') in
    (mkWorld d' (active_connections w) (trace w ++ map Appended added), r).

(** What the clock and the storage engine do during one request. *)
Record Env : Type := mkEnv {
  now : string;
  store_ok : bool
}.

(** [MeResponse] *)
Record MeResponse : Type := mkMe {
  me_id : Z;
  me_username : string
}.

(** [get_current_user] *)
Definition get_current_user (token : string) : M World MeResponse :=
  let* d := gets db in
  match Db.get_user_by_token d token with
  | None => raise (HTTPException 401 "Invalid or expired token")
  | Some user => ret (mkMe (Db.u_id user) (Db.u_username user))
  end.

(** *** The registry of live connections *)

(** [active_connections[username] = websocket] *)
Definition register_connection (username : string) (websocket : conn)
    (ac : gmap string conn) : gmap string conn :=
  <[username := websocket]> ac.

(** [if active_connections.get(username) is websocket:
        active_connections.pop(username, None)] *)
Definition unregister_connection (username : string) (websocket : conn)
    (ac : gmap string conn) : gmap string conn :=
  if decide (ac !! username = Some websocket) then delete username ac else ac.

(** [active_connections.get(username)] *)
Definition lookup_connection (username : string) (ac : gmap string conn) : option conn :=
  ac !! username.

(** *** Inbound frames *)

(** What [receive_json] yields.  Numbers are integers here; a float
    differs from an int in nothing the handler looks at. *)
#[local] Unset Elimination Schemes.
Inductive json : Type :=
  | JNull
  | JBool (b : bool)
  | JInt (n : Z)
  | JStr (s : string)
  | JArray (items : list json)
  | JObject (fields : list (string * json)).
#[local] Set Elimination Schemes.

(** Truthiness, as [x or ""] tests it. *)
Definition json_truthy (j : json) : bool :=
  match j with
  | JNull => false
  | JBool b => b
  | JInt n => negb (n =? 0)%Z
  | JStr s => Py.truthy s
  | JArray items => match items with [] => false | _ => true end
  | JObject fields => match fields with [] => false | _ => true end
  end.

(** [data.get(key)]: only a dict has [get]; a missing key gives None. *)
Definition dict_get (data : json) (key : string) : exn + json :=
  match data with
  | JObject fields =>
      match find (fun kv => String.eqb (fst kv) key) fields with
      | Some kv => inr (snd kv)
      | None => inr JNull
      end
  | _ => inl AttributeError
  end.

(** [x != "chat"] *)
Definition json_ne_str (x : json) (s : string) : bool :=
  match x with
  | JStr s' => negb (String.eqb s' s)
  | _ => true
  end.

(** [(x or "").strip()]: only a str has [strip]. *)
Definition or_empty_strip (x : json) : exn + string :=
  if json_truthy x then
    match x with
    | JStr s => inr (Py.strip s)
    | _ => inl AttributeError
    end
  else inr (Py.strip "").

(** *** The WebSocket endpoint *)

(** [ws.send_json(payload)] *)
Definition send_json (ws : conn) (payload : frame) : M World unit :=
  log (Sent ws payload).

(** [_send_system] *)
Definition _send_system (ws : conn) (message : string) : M World unit :=
  send_json ws (SystemFrame message).

(** One turn of the [while True] loop of [chat_ws], on the frame [data]
    that [receive_json] returned.  Returning is [continue] or the end of
    the body: the loop goes on; an exception leaves the loop. *)
Definition chat_ws_frame (env : Env) (me : MeResponse) (websocket : conn)
    (data : json) : M World unit :=
  let username := me_username me in
  let* msg_type := pure (dict_get data "type") in
  if json_ne_str msg_type "chat" then
    _send_system websocket "Unsupported message type."
  else
    let* to_raw := pure (dict_get data "to") in
    let* to_username := pure (or_empty_strip to_raw) in
    let* text_raw := pure (dict_get data "text") in
    let* text := pure (or_empty_strip text_raw) in
    if negb (Py.truthy to_username) || negb (Py.truthy text) then
      _send_system websocket "Both 'to' and 'text' fields are required."
    else
      let* d := gets db in
      match Db.get_user_by_username d to_username with
      | None =>
          _send_system websocket ("User '" ++ to_username ++ "' does not exist.")
      | Some target =>
          let* d := gets db in
          if negb (Db.are_friends d (me_id me) (Db.u_id target)) then
            _send_system websocket ("You are not friends with '" ++ to_username ++ "'.")
          else
            let* ac := gets active_connections in
            match lookup_connection to_username ac with
            | None =>
                _send_system websocket
                  ("User '" ++ to_username ++ "' is currently offline.") ;;
                (* Still store the message even if offline *)
                call_db (Db.save_message (store_ok env) (now env)
                           (me_id me) (Db.u_id target) Db.text text None) ;;
                ret tt
            | Some target_ws =>
                (* Store message in DB *)
                call_db (Db.save_message (store_ok env) (now env)
                           (me_id me) (Db.u_id target) Db.text text None) ;;
                let msg_payload := ChatFrame username text in
                send_json target_ws msg_payload ;;
                send_json websocket msg_payload
            end
      end.

(** What another handler does while this one waits at an [await]: a
    connection registers (line 346 of its own [chat_ws]), a connection
    unregisters (lines 397-398), or a call into [db.py] leaves the store
    [d]. *)
Inductive other : Type :=
  | Registers (username : string) (websocket : conn)
  | Unregisters (username : string) (websocket : conn)
  | Stores (d : Db.DB).

Definition other_step (o : other) (w : World) : World :=
  match o with
  | Registers username websocket =>
      with_active_connections w
        (register_connection username websocket (active_connections w))
  | Unregisters username websocket =>
      with_active_connections w
        (unregister_connection username websocket (active_connections w))
  | Stores d => with_db w d
  end.

(** What happens to a connection while it is open, in the order in
    which it happens: the client's frames, each with the clock and the
    storage engine of its turn, and the steps of other handlers that run
    in between.  A turn reads the registry once, with no [await] between
    [receive_json] and that read, so a step of another handler falls
    before or after a turn. *)
Inductive arrival : Type :=
  | Receives (env : Env) (data : json)
  | Meanwhile (o : other).

(** The loop over what arrives; when it is exhausted the client is gone
    and [receive_json] raises WebSocketDisconnect. *)
Fixpoint chat_ws_loop (me : MeResponse) (websocket : conn)
    (inbound : list arrival) : M World unit :=
  match inbound with
  | [] => raise WebSocketDisconnect
  | Receives env data :: rest =>
      chat_ws_frame env me websocket data ;;
      chat_ws_loop me websocket rest
  | Meanwhile o :: rest =>
      modify (other_step o) ;;
      chat_ws_loop me websocket rest
  end.


(** A client's frames with nothing happening in between. *)
Definition frames (inbound : list (Env * json)) : list arrival :=
  map (fun turn => Receives (fst turn) (snd turn)) inbound.

(** [try: body  except WebSocketDisconnect: pass  finally: cleanup] *)
Definition try_except_disconnect_finally {A} (body : M World A)
    (cleanup : M World unit) : M World unit :=
  fun w =>
    match body w with
    | (w', inr _) => cleanup w'
    | (w', inl WebSocketDisconnect) => cleanup w'
    | (w', inl e) =>
        match cleanup w' with
        | (w'', inr _) => (w'', inl e)
        | (w'', inl e') => (w'', inl e')
        end
    end.

(** [chat_ws]: [token] is [websocket.query_params.get("token")] and
    [inbound] is what arrives while the connection is open, the steps of
    other handlers included. *)
Definition chat_ws (websocket : conn) (token : option string)
    (inbound : list arrival) : M World unit :=
  log (Accepted websocket) ;;
  match token with
  | None => log (Closed websocket 4401)
  | Some token =>
      if negb (Py.truthy token) then log (Closed websocket 4401)
      else
        fun w =>
          match get_current_user token w with
          | (w', inl (HTTPException _ _)) => log (Closed websocket 4401) w'
          | (w', inl e) => (w', inl e)
          | (w', inr me) =>
              let username := me_username me in
              (modify (fun w => with_active_connections w
                         (register_connection username websocket (active_connections w))) ;;
               _send_system websocket ("Connected as " ++ username) ;;
               try_except_disconnect_finally
                 (chat_ws_loop me websocket inbound)
                 (modify (fun w => with_active_connections w
                            (unregister_connection username websocket
                               (active_connections w))))) w'
          end
  end.

(** *** History *)

(** [MessageItem] *)
Record MessageItem : Type := mkMessageItem {
  mi_from_username : string;
  mi_to_username : string;
  mi_kind : Db.kind;
  mi_text : string;
  mi_url : option string;
  mi_created_at : string
}.

(** [get_history] *)
Definition get_history (token friend_username : string) (limit : Z)
    : M World (list MessageItem) :=
  let* me := get_current_user token in
  let* d := gets db in
  match Db.get_user_by_username d (Py.strip friend_username) with
  | None => raise (HTTPException 400 "Friend not found")
  | Some friend =>
      if negb (Db.are_friends d (me_id me) (Db.u_id friend)) then
        raise (HTTPException 400 "You are not friends with this user")
      else
        let* rows := pure (Db.get_conversation d (me_id me) (Db.u_id friend) limit) in
        ret (map (fun row =>
                    mkMessageItem (Db.cr_from_username row) (Db.cr_to_username row)
                      (Db.cr_kind row) (Db.cr_text row) (Db.cr_url row)
                      (Db.cr_created_at row)) rows)
  end.

(** *** File upload *)

(** [file.filename or "file.bin"] *)
Definition or_file_bin (filename : option string) : string :=
  match filename with
  | Some f => if Py.truthy f then f else "file.bin"
  | None => "file.bin"
  end.

(** [original_name]: the name kept for an upload whose client-side name
    is [filename] ([file.filename], possibly None). *)
Definition original_name (filename : option string) : string :=
  let original_name := Py.basename (or_file_bin filename) in
  if (100 <? String.length original_name)%nat
  then Py.slice_last 100 original_name
  else original_name.

(** [upload_file].  [uuid_hex] is [uuid.uuid4().hex]; [write_error] is
    the text of the OSError that writing the bytes under [UPLOAD_DIR]
    raises, None when the write succeeds. *)
Definition upload_file (env : Env) (uuid_hex : string) (write_error : option string)
    (token to_username : string) (filename : option string) : M World frame :=
  let* me := get_current_user token in
  let* d := gets db in
  match Db.get_user_by_username d (Py.strip to_username) with
  | None => raise (HTTPException 400 "Target user does not exist")
  | Some target =>
      if negb (Db.are_friends d (me_id me) (Db.u_id target)) then
        raise (HTTPException 400 "You are not friends with this user")
      else
        let original_name := original_name filename in
        let unique_name := uuid_hex ++ "_" ++ original_name in
        match write_error with
        | Some e => raise (HTTPException 500 ("Failed to save file: " ++ e))
        | None =>
            let url_path := "/files/" ++ unique_name in
            (* Save in DB *)
            call_db (Db.save_message (store_ok env) (now env) (me_id me)
                       (Db.u_id target) Db.file original_name (Some url_path)) ;;
            let ws_payload := FileFrame (me_username me) original_name url_path in
            (* Notify recipient if online *)
            let* ac := gets active_connections in
            match lookup_connection (Db.u_username target) ac with
            | Some target_ws => send_json target_ws ws_payload
            | None => ret tt
            end ;;
            (* Also echo to sender if they have WS open *)
            let* ac := gets active_connections in
            match lookup_connection (me_username me) ac with
            | Some sender_ws => send_json sender_ws ws_payload
            | None => ret tt
            end ;;
            ret ws_payload
        end
  end.

(** *** Accounts and friends over HTTP *)

(** [AuthResponse] *)
Record AuthResponse : Type := mkAuth {
  auth_token : string;
  auth_username : string
}.

(** [try: c  except ValueError as e: raise HTTPException(400, detail(e))] *)
Definition except_ValueError {A} (c : M World A) (detail : string -> string)
    : M World A :=
  fun w =>
    match c w with
    | (w', inl (ValueError msg)) => (w', inl (HTTPException 400 (detail msg)))
    | out => out
    end.

(** [register]; [sha] is [db.hash_password]. *)
Definition register (sha : string -> string) (username password : string)
    : M World MeResponse :=
  if negb (Py.truthy username) || negb (Py.truthy password) then
    raise (HTTPException 400 "Username and password are required")
  else
    let* user := except_ValueError
                   (call_db (Db.create_user sha (Py.strip username) password))
                   (fun _ => "Username already taken") in
    ret (mkMe (Db.u_id user) (Db.u_username user)).

(** [login]; [token] is the hex of [os.urandom(24)] that
    [create_session] draws. *)
Definition login (sha : string -> string) (env : Env) (token : string)
    (username password : string) : M World AuthResponse :=
  let* d := gets db in
  match Db.get_user_by_username d (Py.strip username) with
  | None => raise (HTTPException 401 "Invalid username or password")
  | Some user =>
      if negb (String.eqb (sha password) (Db.u_password_hash user)) then
        raise (HTTPException 401 "Invalid username or password")
      else
        let* token := call_db (Db.create_session (now env) token (Db.u_id user)) in
        ret (mkAuth token (Db.u_username user))
  end.

(** [me] *)
Definition me (token : string) : M World MeResponse :=
  get_current_user token.

(** [send_friend_request] *)
Definition send_friend_request (env : Env) (token to_username : string)
    : M World Db.request_row :=
  let* me := get_current_user token in
  except_ValueError
    (call_db (Db.create_friend_request (now env) (me_id me) (Py.strip to_username)))
    (fun msg => msg).

(** [respond_friend_request] *)
Definition respond_friend_request (env : Env) (token : string) (request_id : Z)
    (accept : bool) : M World Db.request_row :=
  let* me := get_current_user token in
  except_ValueError
    (call_db (Db.respond_to_friend_request (now env) request_id (me_id me) accept))
    (fun msg => msg).

(** [list_friends] *)
Definition list_friends (token : string) : M World Db.friend_summary :=
  let* me := get_current_user token in
  let* d := gets db in
  ret (Db.get_friend_summary d (me_id me)).

End Main.

(** ** A run of the system *)

(** Three users register and log in; alice asks bob, who accepts; alice
    then writes to bob three times.  Each store is obtained from the
    previous one by the operations of [db.py]. *)
Module Scenario.
Import Db Main.

Definition sha (password : string) : string := "sha256:" ++ password.

Definition step {A} (c : M DB A) (d : DB) : DB := fst (c d).

Definition db_users : DB := Eval vm_compute in
  step (create_session "2024-05-01 09:00:02" "tok-carol" 3)
    (step (create_session "2024-05-01 09:00:01" "tok-bob" 2)
       (step (create_session "2024-05-01 09:00:00" "tok-alice" 1)
          (step (create_user sha "carol" "pw3")
             (step (create_user sha "bob" "pw2")
                (step (create_user sha "alice" "pw1") init_db))))).

Definition db_pending : DB := Eval vm_compute in
  step (create_friend_request "2024-05-01 09:01:00" 1 "bob") db_users.

Definition db_accepted : DB := Eval vm_compute in
  step (respond_to_friend_request "2024-05-01 09:02:00" 1 2 true) db_pending.

Definition db_rejected : DB := Eval vm_compute in
  step (respond_to_friend_request "2024-05-01 09:02:00" 1 2 false) db_pending.

Definition db_chat : DB := Eval vm_compute in
  step (save_message true "2024-05-01 09:05:00" 1 2 text "three" None)
    (step (save_message true "2024-05-01 09:04:00" 2 1 text "two" None)
       (step (save_message true "2024-05-01 09:03:00" 1 2 text "one" None)
          db_accepted)).

Definition alice : MeResponse := mkMe 1 "alice".
Definition ws_alice : conn := 10.
Definition ws_bob : conn := 20.

Definition env_ok : Env := mkEnv "2024-05-01 09:10:00" true.
Definition env_store_down : Env := mkEnv "2024-05-01 09:10:00" false.

(** alice is connected, bob is not. *)
Definition world_bob_offline : World :=
  mkWorld db_accepted (register_connection "alice" ws_alice ∅) [].

(** alice and bob are both connected. *)
Definition world_both_online : World :=
  mkWorld db_accepted
    (register_connection "bob" ws_bob (register_connection "alice" ws_alice ∅)) [].

Definition chat_frame (to_ txt : string) : json :=
  JObject [("type", JStr "chat"); ("to", JStr to_); ("text", JStr txt)].

End Scenario.

(** ** Reachable stores *)

Module Reach.
Import Db.

(** The stores the functions of [db.py] can produce from a fresh file
    when every call ends before the next one starts.  A call that raises
    still leaves the store it reached.  Calls that overlap are not part
    of this relation; [create_friend_request_crossing] is one such
    run. *)
Inductive reachable : DB -> Prop :=
  | reach_init : reachable init_db
  | reach_create_user d sha username password :
      reachable d -> reachable (fst (create_user sha username password d))
  | reach_create_session d now token user_id :
      reachable d -> reachable (fst (create_session now token user_id d))
  | reach_create_friend_request d now from_user_id to_username :
      reachable d ->
      reachable (fst (create_friend_request now from_user_id to_username d))
  | reach_respond d now request_id to_user_id accept :
      reachable d ->
      reachable (fst (respond_to_friend_request now request_id to_user_id accept d))
  | reach_save_message d store_ok now from_user_id to_user_id k txt url :
      reachable d ->
      reachable (fst (save_message store_ok now from_user_id to_user_id k txt url d)).

(** Two requests are about the same unordered pair of users. *)
Definition same_pair (r1 r2 : friend_request) : bool :=
  between (fr_from_user_id r1) (fr_to_user_id r1) r2.

(** At most one request per unordered pair: two rows of the table about
    the same pair are the same row. *)
Definition pair_unique (rs : list friend_request) : Prop :=
  forall i j r1 r2,
    rs !! i = Some r1 -> rs !! j = Some r2 -> same_pair r1 r2 = true -> i = j.

(** One call of a function of [db.py] that writes: the store before and
    the store after, whatever the call returns. *)
Inductive db_step : DB -> DB -> Prop :=
  | step_create_user d sha username password :
      db_step d (fst (create_user sha username password d))
  | step_create_session d now token user_id :
      db_step d (fst (create_session now token user_id d))
  | step_create_friend_request d now from_user_id to_username :
      db_step d (fst (create_friend_request now from_user_id to_username d))
  | step_respond d now request_id to_user_id accept :
      db_step d (fst (respond_to_friend_request now request_id to_user_id accept d))
  | step_save_message d store_ok now from_user_id to_user_id k txt url :
      db_step d (fst (save_message store_ok now from_user_id to_user_id k txt url d)).

(** The invariants of the three keyed tables. *)
Definition keys_unique (d : DB) : Prop :=
  NoDup (map u_id (users d)) /\ NoDup (map u_username (users d))
  /\ NoDup (map fr_id (friend_requests d)) /\ NoDup (map m_id (messages d))
  /\ NoDup (map s_token (sessions d)).

(** What every request row satisfies: two different users, and a
    responded time exactly when the request is no longer pending. *)
Definition request_well_formed (r : friend_request) : Prop :=
  fr_from_user_id r <> fr_to_user_id r
  /\ (fr_status r = pending <-> fr_responded_at r = None).

(** Rows of the messages table never carry an earlier time than the
    rows before them: the clock behind CURRENT_TIMESTAMP did not go
    back. *)
Definition clock_monotone (d : DB) : Prop :=
  StronglySorted
    (fun m1 m2 => String.compare (m_created_at m1) (m_created_at m2) <> Gt)
    (messages d).

(** The same request, possibly answered since. *)
Definition same_request (r r' : friend_request) : Prop :=
  fr_id r' = fr_id r /\ fr_from_user_id r' = fr_from_user_id r
  /\ fr_to_user_id r' = fr_to_user_id r /\ fr_created_at r' = fr_created_at r.

End Reach.

(** ** Reading the relay *)

Module Relay.
Import Db Main.

(** The frame [data] is a [chat] frame whose [to] and [text], once
    trimmed, are [to_username] and [txt]. *)
Definition chat_fields (data : json) (to_username txt : string) : Prop :=
  exists ty to_raw text_raw,
    dict_get data "type" = inr ty /\ json_ne_str ty "chat" = false
    /\ dict_get data "to" = inr to_raw /\ or_empty_strip to_raw = inr to_username
    /\ dict_get data "text" = inr text_raw /\ or_empty_strip text_raw = inr txt.



(** The world after one system notice on [ws]: nothing else moves. *)
Definition with_notice (w : World) (ws : conn) (msg : string) : World :=
  mkWorld (db w) (active_connections w) (trace w ++ [Sent ws (SystemFrame msg)]).

(** The row the relay inserts for a text from [me] to [target]. *)
Definition new_text_message (d : DB) (env : Env) (me : MeResponse)
    (target : user) (txt : string) : message :=
  mkMessage (next_id (map m_id (messages d))) (me_id me) (u_id target)
    Db.text txt None (now env).

(** The frame-level rejections and the notice each one is answered with:
    a type other than [chat], an empty [to] or [text], a recipient name
    that no user has, a recipient who is not a friend. *)
Inductive frame_rejected (w : World) (me : MeResponse) (data : json) : string -> Prop :=
  | rejected_type ty :
      dict_get data "type" = inr ty -> json_ne_str ty "chat" = true ->
      frame_rejected w me data "Unsupported message type."
  | rejected_empty to_username txt :
      chat_fields data to_username txt ->
      to_username = "" \/ txt = "" ->
      frame_rejected w me data "Both 'to' and 'text' fields are required."
  | rejected_unknown to_username txt :
      chat_fields data to_username txt ->
      to_username <> "" -> txt <> "" ->
      get_user_by_username (db w) to_username = None ->
      frame_rejected w me data ("User '" ++ to_username ++ "' does not exist.")
  | rejected_not_friends to_username txt target :
      chat_fields data to_username txt ->
      to_username <> "" -> txt <> "" ->
      get_user_by_username (db w) to_username = Some target ->
      are_friends (db w) (me_id me) (u_id target) = false ->
      frame_rejected w me data ("You are not friends with '" ++ to_username ++ "'.").

(** What is known of a row that a turn of the loop handled on [w] adds. *)
Definition relayed_text (w : World) (me : MeResponse) (m : message) : Prop :=
  m_kind m = Db.text
  /\ m_from_user_id m = me_id me
  /\ m_text m <> ""
  /\ Py.strip (m_text m) = m_text m
  /\ exists to_username target,
       to_username <> "" /\ Py.strip to_username = to_username
       /\ get_user_by_username (db w) to_username = Some target
       /\ m_to_user_id m = u_id target
       /\ are_friends (db w) (me_id me) (u_id target) = true.

(** The history item of the message [m] between the users [u1] and
    [u2]: each end is named after the one of the two whose id it is. *)
Definition attributed (u1 u2 : user) (m : message) : MessageItem :=
  let name_of id := if (id =? u_id u1)%Z then u_username u1 else u_username u2 in
  mkMessageItem (name_of (m_from_user_id m)) (name_of (m_to_user_id m))
    (m_kind m) (m_text m) (m_url m) (m_created_at m).


(** What one turn of the loop of the user [me], connected on [ws] and
    handling [data] on [w], may do: send a system notice to [ws]; send a
    chat frame in the name of [me], carrying the trimmed text of the
    frame, to [ws] or to the connection registered for the trimmed
    recipient name, that name being a friend's; store a text from [me].
    It closes or accepts nothing and sends no file frame. *)
Definition turn_may (w : World) (me : MeResponse) (ws : conn) (data : json)
    (e : event) : Prop :=
  match e with
  | Sent c (SystemFrame _) => c = ws
  | Sent c (ChatFrame from txt) =>
      from = me_username me
      /\ exists to_username target,
           chat_fields data to_username txt
           /\ get_user_by_username (db w) to_username = Some target
           /\ are_friends (db w) (me_id me) (u_id target) = true
           /\ (c = ws \/ lookup_connection to_username (active_connections w) = Some c)
  | Sent _ (FileFrame _ _ _) => False
  | Appended m => m_from_user_id m = me_id me /\ m_kind m = Db.text
  | Accepted _ => False
  | Closed _ _ => False
  end.

(** The answer of [get_current_user] to a token no session holds. *)
Definition refused {A} : exn + A :=
  inl (HTTPException 401 "Invalid or expired token").

End Relay.

(** ** Tactics *)

(** Runs a computation one layer further: the monad's operations are
    unfolded and the result simplified. *)
Ltac run :=
  unfold bind, ret, raise, gets, modify, pure, Db.fetch_request_row in *; simpl in *.

(** Unfolds the body of the loop along the equations in the context. *)
Ltac frame_path :=
  unfold Main.chat_ws_frame, Main._send_system, Main.send_json, Main.log; run;
  repeat match goal with
         | H : _ = _ |- _ => rewrite H; run
         end.

(** * Properties *)

Import Db Main Reach Relay.
Local Open Scope list_scope.

(** ** Strings *)

Section strip_facts.

Lemma lstrip_head_not_space s c t :
  Py.lstrip s = String c t -> Py.isspace c = false.
Proof.
  induction s as [|a s IH]; simpl; [discriminate|].
  destruct (Py.isspace a) eqn:Ha; [exact IH|].
  intros [= <- _]. exact Ha.
Qed.

Lemma lstrip_idem s : Py.lstrip (Py.lstrip s) = Py.lstrip s.
Proof.
  destruct (Py.lstrip s) as [|c t] eqn:E; [reflexivity|].
  simpl. by rewrite (lstrip_head_not_space _ _ _ E).
Qed.

(** A string that [rstrip] leaves alone keeps that property when
    characters are removed at its front. *)
Lemma rstrip_fixed_lstrip t :
  Py.rstrip t = t -> Py.rstrip (Py.lstrip t) = Py.lstrip t.
Proof.
  induction t as [|c t IH]; [reflexivity|].
  intros H. simpl. destruct (Py.isspace c) eqn:Hc; [|exact H].
  apply IH. simpl in H. rewrite Hc in H.
  destruct (Py.rstrip t) as [|a r]; [discriminate|]. by injection H.
Qed.

Lemma rstrip_idem s : Py.rstrip (Py.rstrip s) = Py.rstrip s.
Proof.
  induction s as [|c s IH]; [reflexivity|].
  simpl. destruct (Py.rstrip s) as [|a r] eqn:E.
  - destruct (Py.isspace c) eqn:Hc; [reflexivity|]. simpl. by rewrite Hc.
  - change (Py.rstrip (String c (String a r)) = String c (String a r)).
    cbn [Py.rstrip]. cbn [Py.rstrip] in IH. by rewrite IH.
Qed.







Lemma strip_lstrip_fixed s : Py.lstrip (Py.strip s) = Py.strip s.
Proof. apply lstrip_idem. Qed.

Lemma strip_rstrip_fixed s : Py.rstrip (Py.strip s) = Py.strip s.
Proof. apply rstrip_fixed_lstrip, rstrip_idem. Qed.

Lemma strip_idem s : Py.strip (Py.strip s) = Py.strip s.
Proof.
  unfold Py.strip at 1. by rewrite strip_rstrip_fixed, strip_lstrip_fixed.
Qed.


End strip_facts.

(** ** Slices and file names *)

Section slice_facts.

Lemma length_append (s1 s2 : string) :
  String.length (s1 ++ s2)%string = String.length s1 + String.length s2.
Proof. induction s1 as [|c s1 IH]; simpl; [done | by rewrite IH]. Qed.

Lemma substring_length_le s : forall n m, String.length (substring n m s) <= m.
Proof.
  induction s as [|c s IH]; intros [|n] [|m]; simpl; try lia.
  - specialize (IH 0 m). lia.
  - apply (IH n 0).
  - apply (IH n (S m)).
Qed.

Lemma substring_all s : forall m, String.length s <= m -> substring 0 m s = s.
Proof.
  induction s as [|c s IH]; intros [|m] H; simpl in *; try reflexivity; try lia.
  rewrite IH; [reflexivity | lia].
Qed.

Lemma substring_split s : forall k m, k <= String.length s ->
  exists pre rest, s = (pre ++ rest)%string /\ String.length pre = k
                   /\ substring k m s = substring 0 m rest.
Proof.
  induction s as [|c s IH]; intros k m Hk.
  - simpl in Hk. assert (k = 0) as -> by lia. exists "", "". by destruct m.
  - destruct k as [|k].
    + exists "", (String c s). done.
    + simpl in Hk. destruct (IH k m ltac:(lia)) as (pre & rest & -> & Hlen & Hsub).
      exists (String c pre), rest. simpl. split_and!; [done | lia | done].
Qed.

(** [s[-n:]] is the suffix of length [n] of a string of at least [n]
    characters. *)
Lemma slice_last_suffix n s : n <= String.length s ->
  exists pre, s = (pre ++ Py.slice_last n s)%string /\ String.length (Py.slice_last n s) = n.
Proof.
  intros Hn. unfold Py.slice_last.
  destruct (substring_split s (String.length s - n) n ltac:(lia))
    as (pre & rest & Hs & Hlen & Hsub).
  assert (String.length rest = n) as Hrest.
  { apply (f_equal String.length) in Hs. rewrite length_append in Hs. lia. }
  rewrite Hsub, substring_all by lia. eauto.
Qed.

Lemma rfind_from_none c p : forall i, (0 <= i)%Z ->
  Py.occurs c p = false -> Py.rfind_from i c p = (-1)%Z.
Proof.
  induction p as [|a p IH]; intros i Hi; simpl; [done|].
  intros [Ha Hp]%orb_false_iff. rewrite IH by (done || lia). simpl. by rewrite Ha.
Qed.

(** [rfind] gives the index of the last occurrence. *)
Lemma rfind_from_last c p : forall i, (0 <= i)%Z ->
  Py.occurs c p = true ->
  exists pre rest, p = (pre ++ String c rest)%string
                   /\ Py.rfind_from i c p = (i + Z.of_nat (String.length pre))%Z
                   /\ Py.occurs c rest = false.
Proof.
  induction p as [|a p IH]; intros i Hi; simpl; [done|].
  intros Hocc. destruct (Py.occurs c p) eqn:Hp.
  - destruct (IH (i + 1)%Z ltac:(lia) eq_refl) as (pre & rest & -> & Hr & Hrest).
    exists (String a pre), rest. rewrite Hr. simpl.
    destruct (0 <=? _)%Z eqn:E; [|apply Z.leb_gt in E; lia].
    split_and!; [done | lia | done].
  - rewrite orb_false_r in Hocc. apply Ascii.eqb_eq in Hocc as ->.
    exists ""%string, p. rewrite rfind_from_none by (done || lia). simpl.
    rewrite Ascii.eqb_refl. split_and!; [done | lia | done].
Qed.

Lemma append_cons (pre : string) (c : ascii) (rest : string) :
  (pre ++ String c rest)%string = ((pre ++ String c "") ++ rest)%string.
Proof.
  induction pre as [|a pre IH]; [done|].
  change (String a (pre ++ String c rest) = String a ((pre ++ String c "") ++ rest))%string.
  by rewrite IH.
Qed.

Lemma substring_skip pre : forall m s,
  substring (String.length pre) m (pre ++ s) = substring 0 m s.
Proof. induction pre as [|c pre IH]; intros m s; simpl; [done | apply IH]. Qed.

(** [basename]: the path itself when it has no slash, and otherwise
    what follows its last slash. *)
Lemma basename_spec p :
  (Py.occurs "/" p = false /\ Py.basename p = p)
  \/ (exists dir, p = (dir ++ String "/" (Py.basename p))%string)
      /\ Py.occurs "/" (Py.basename p) = false.
Proof.
  unfold Py.basename, Py.rfind, Py.slice_from.
  destruct (Py.occurs "/" p) eqn:Hocc.
  - right.
    destruct (rfind_from_last "/" p 0 ltac:(lia) Hocc) as (pre & rest & -> & -> & Hrest).
    replace (Z.to_nat (0 + Z.of_nat (String.length pre) + 1))
      with (String.length (pre ++ "/")) by (rewrite length_append; simpl; lia).
    rewrite (append_cons pre "/" rest).
    rewrite substring_skip, substring_all
      by (rewrite !length_append; simpl; lia).
    split; [|done]. exists pre. symmetry. apply append_cons.
  - left. split; [done|]. rewrite rfind_from_none by (done || lia). simpl.
    apply substring_all. lia.
Qed.

Lemma original_name_length filename : String.length (original_name filename) <= 100.
Proof.
  unfold original_name.
  match goal with |- context [Py.basename ?g] => generalize (Py.basename g) end.
  intros b. destruct (100 <? String.length b)%nat eqn:E.
  - apply substring_length_le.
  - apply Nat.ltb_ge in E. exact E.
Qed.

Lemma original_name_default filename :
  filename = None \/ filename = Some "" -> original_name filename = "file.bin".
Proof. intros [-> | ->]; reflexivity. Qed.

End slice_facts.

(** ** The registry *)

Section registry_facts.
Implicit Types (ac : gmap string conn) (n : string) (c : conn).

Lemma register_lookup ac n c :
  lookup_connection n (register_connection n c ac) = Some c.
Proof. apply lookup_insert_eq. Qed.

Lemma register_other ac n n' c :
  n <> n' -> lookup_connection n' (register_connection n c ac) = lookup_connection n' ac.
Proof. intros. by apply lookup_insert_ne. Qed.

Lemma register_twice ac n c1 c2 :
  register_connection n c2 (register_connection n c1 ac) = register_connection n c2 ac.
Proof. apply insert_insert_eq. Qed.

Lemma unregister_current ac n c :
  lookup_connection n ac = Some c ->
  lookup_connection n (unregister_connection n c ac) = None.
Proof.
  unfold unregister_connection, lookup_connection. intros H.
  rewrite decide_True by done. apply lookup_delete_eq.
Qed.

Lemma unregister_stale ac n c c' :
  lookup_connection n ac = Some c' -> c <> c' -> unregister_connection n c ac = ac.
Proof.
  unfold unregister_connection, lookup_connection. intros H Hne.
  rewrite decide_False; [done | congruence].
Qed.

Lemma unregister_absent ac n c :
  lookup_connection n ac = None -> unregister_connection n c ac = ac.
Proof.
  unfold unregister_connection, lookup_connection. intros H.
  rewrite decide_False; [done | congruence].
Qed.

Lemma unregister_twice ac n c :
  unregister_connection n c (unregister_connection n c ac) = unregister_connection n c ac.
Proof.
  unfold unregister_connection.
  destruct (decide (ac !! n = Some c)) as [H|H].
  - rewrite decide_False; [done|]. by rewrite lookup_delete_eq.
  - by rewrite decide_False.
Qed.

End registry_facts.

(** ** The store *)

Section request_facts.
Implicit Types (d : DB) (r : friend_request) (a b : Z).

Lemma between_sym a b r : between a b r = between b a r.
Proof. unfold between. apply orb_comm. Qed.

Lemma between_spec a b r :
  between a b r = true <->
  (fr_from_user_id r = a /\ fr_to_user_id r = b)
  \/ (fr_from_user_id r = b /\ fr_to_user_id r = a).
Proof. unfold between. rewrite orb_true_iff, !andb_true_iff, !Z.eqb_eq. tauto. Qed.

Lemma status_eqb_spec (s1 s2 : status) : status_eqb s1 s2 = true <-> s1 = s2.
Proof. destruct s1, s2; simpl; split; congruence. Qed.

Lemma are_friends_spec d a b :
  are_friends d a b = true <->
  exists r, In r (friend_requests d) /\ fr_status r = accepted
            /\ ((fr_from_user_id r = a /\ fr_to_user_id r = b)
                \/ (fr_from_user_id r = b /\ fr_to_user_id r = a)).
Proof.
  unfold are_friends. rewrite existsb_exists.
  split; intros (r & Hin & H); exists r; split; try done.
  - apply andb_true_iff in H as [H1 H2].
    by rewrite <- status_eqb_spec, <- between_spec.
  - apply andb_true_iff. by rewrite status_eqb_spec, between_spec.
Qed.

Lemma are_friends_sym d a b : are_friends d a b = are_friends d b a.
Proof.
  unfold are_friends. induction (friend_requests d) as [|r rs IH]; [done|].
  simpl. by rewrite IH, (between_sym a b).
Qed.

Lemma are_friends_not_accepted d a b :
  (forall r, In r (friend_requests d) -> between a b r = true ->
             fr_status r = pending \/ fr_status r = rejected) ->
  are_friends d a b = false.
Proof.
  intros H. apply not_true_is_false. intros (r & Hin & Hst & Hdir)%are_friends_spec.
  destruct (H r Hin) as [E|E]; [by apply between_spec | |]; congruence.
Qed.

(** Ids given by AUTOINCREMENT are fresh. *)
Lemma next_id_gt (ids : list Z) x : In x ids -> (x < next_id ids)%Z.
Proof.
  unfold next_id. induction ids as [|y ids IH]; simpl; [done|].
  intros [-> | H]; [lia | specialize (IH H); lia].
Qed.

Lemma find_app_fresh {A} (f : A -> bool) (l : list A) (x : A) :
  (forall y, In y l -> f y = false) -> f x = true -> find f (l ++ [x]) = Some x.
Proof.
  induction l as [|y l IH]; simpl; intros Hl Hx; [by rewrite Hx|].
  rewrite (Hl y) by auto. apply IH; auto.
Qed.

(** The rows [update_status] leaves: same length, same users per index. *)
Lemma update_status_find now st rid rs r :
  find (fun r => (fr_id r =? rid)%Z) rs = Some r ->
  find (fun r => (fr_id r =? rid)%Z) (update_status now st rid rs)
  = Some (responded now st r).
Proof.
  induction rs as [|x rs IH]; simpl; [done|].
  destruct (fr_id x =? rid)%Z eqn:E; simpl.
  - intros [= ->]. by rewrite E.
  - rewrite E. exact IH.
Qed.

Lemma find_id_eq rid rs r :
  find (fun r => (fr_id r =? rid)%Z) rs = Some r -> fr_id r = rid.
Proof. intros [_ H]%find_some. by apply Z.eqb_eq. Qed.

End request_facts.

Section respond_facts.
Implicit Types (d : DB) (r : friend_request).

Lemma respond_overflow now rid uid acc d :
  fits_int64 rid = false ->
  respond_to_friend_request now rid uid acc d = (d, inl OverflowError).
Proof. intros H. unfold respond_to_friend_request. run. by rewrite H. Qed.

Lemma respond_not_found now rid uid acc d :
  fits_int64 rid = true ->
  request_by_id d rid = None ->
  respond_to_friend_request now rid uid acc d
  = (d, inl (ValueError "Friend request not found")).
Proof. intros Hfit H. unfold respond_to_friend_request. run. by rewrite Hfit, H. Qed.

Lemma respond_forbidden now rid uid acc d r :
  fits_int64 rid = true ->
  request_by_id d rid = Some r -> fr_to_user_id r <> uid ->
  respond_to_friend_request now rid uid acc d
  = (d, inl (ValueError "You are not allowed to respond to this request")).
Proof.
  intros Hfit H Hne. unfold respond_to_friend_request. run. rewrite Hfit, H.
  apply Z.eqb_neq in Hne. by rewrite Hne.
Qed.

Lemma respond_not_pending now rid uid acc d r :
  fits_int64 rid = true ->
  request_by_id d rid = Some r -> fr_to_user_id r = uid -> fr_status r <> pending ->
  respond_to_friend_request now rid uid acc d
  = (d, inl (ValueError "Friend request is not pending")).
Proof.
  intros Hfit H Hto Hst. unfold respond_to_friend_request. run. rewrite Hfit, H.
  apply Z.eqb_eq in Hto. rewrite Hto. simpl.
  destruct (fr_status r); simpl; congruence.
Qed.

Lemma respond_pending now rid uid acc d r :
  fits_int64 rid = true ->
  request_by_id d rid = Some r -> fr_to_user_id r = uid -> fr_status r = pending ->
  let d' := with_friend_requests d
              (update_status now (new_status acc) rid (friend_requests d)) in
  request_by_id d' rid = Some (responded now (new_status acc) r)
  /\ respond_to_friend_request now rid uid acc d
     = (d', match select_request_row d' rid with
            | Some row => inr row
            | None => inl TypeError
            end).
Proof.
  intros Hfit H Hto Hst d'. split.
  - by apply update_status_find.
  - unfold respond_to_friend_request. run. rewrite Hfit, H.
    apply Z.eqb_eq in Hto. rewrite Hto, Hst. simpl.
    run. fold d'. by destruct (select_request_row d' rid).
Qed.

(** Whatever [respond_to_friend_request] returns, it took one of the
    paths above. *)
Lemma respond_success_inv now rid uid acc d d' row :
  respond_to_friend_request now rid uid acc d = (d', inr row) ->
  exists r, fits_int64 rid = true
            /\ request_by_id d rid = Some r /\ fr_to_user_id r = uid
            /\ fr_status r = pending
            /\ d' = with_friend_requests d
                      (update_status now (new_status acc) rid (friend_requests d))
            /\ select_request_row d' rid = Some row.
Proof.
  intros H. destruct (fits_int64 rid) eqn:Hfit.
  2: { rewrite respond_overflow in H by done. congruence. }
  destruct (request_by_id d rid) as [r|] eqn:Hr.
  2: { rewrite respond_not_found in H by done. congruence. }
  destruct (decide (fr_to_user_id r = uid)) as [Hto|Hto].
  2: { rewrite (respond_forbidden _ _ _ _ _ r) in H by done. congruence. }
  destruct (decide (fr_status r = pending)) as [Hst|Hst].
  2: { rewrite (respond_not_pending _ _ _ _ _ r) in H by done. congruence. }
  destruct (respond_pending now rid uid acc d r Hfit Hr Hto Hst) as [_ E].
  rewrite E in H. exists r.
  destruct (select_request_row _ rid) eqn:Hsel; [|congruence].
  injection H as <- <-. done.
Qed.

(** The UPDATE touches the row of that id and no other. *)
Lemma update_status_others now st rid rs r :
  In r (update_status now st rid rs) -> fr_id r <> rid -> In r rs.
Proof.
  unfold update_status. rewrite in_map_iff. intros (x & Hx & Hin) Hne.
  destruct (fr_id x =? rid)%Z eqn:E.
  - subst r. simpl in Hne. apply Z.eqb_eq in E. congruence.
  - by subst.
Qed.

End respond_facts.

Section respond_claims.

(** C4 (as the code has it).  For a request id that fits SQLite's
    signed 64-bit INTEGER, [respond_to_friend_request] raises "Friend
    request not found" when no request has the id, "You are not allowed
    to respond to this request" when the responder is not the request's
    target, whatever the request's status, and "Friend request is not
    pending" when the target answers a request that is no longer
    pending; a pending request answered by its target, with both users
    present, succeeds.  An id outside that range makes the binding raise
    OverflowError.  Every failure leaves the store as it is.  When the
    call succeeds the request was pending and addressed to the
    responder; it now has status accepted when [accept] is true and
    rejected when [accept] is false, carries the responded time, keeps
    its sender, target and creation time, and every other request is as
    before; every later call on the same id, run after this one, fails
    and leaves the store as it is: with "Friend request is not pending"
    when made by the target, and with "You are not allowed to respond to
    this request" when made by anyone else. *)
Theorem respond_transition_once (d : DB) (now : string) (rid responder : Z)
    (accept : bool) :
  (fits_int64 rid = false ->
   respond_to_friend_request now rid responder accept d = (d, inl OverflowError))
  /\ (fits_int64 rid = true -> request_by_id d rid = None ->
      respond_to_friend_request now rid responder accept d
      = (d, inl (ValueError "Friend request not found")))
  /\ (forall r, fits_int64 rid = true ->
      request_by_id d rid = Some r -> fr_to_user_id r <> responder ->
      respond_to_friend_request now rid responder accept d
      = (d, inl (ValueError "You are not allowed to respond to this request")))
  /\ (forall r, fits_int64 rid = true ->
      request_by_id d rid = Some r -> fr_to_user_id r = responder ->
      fr_status r <> pending ->
      respond_to_friend_request now rid responder accept d
      = (d, inl (ValueError "Friend request is not pending")))
  /\ (forall r, fits_int64 rid = true ->
      request_by_id d rid = Some r -> fr_to_user_id r = responder ->
      fr_status r = pending ->
      is_Some (user_by_id d (fr_from_user_id r)) ->
      is_Some (user_by_id d (fr_to_user_id r)) ->
      exists d' row, respond_to_friend_request now rid responder accept d = (d', inr row))
  /\ (forall d' row,
      respond_to_friend_request now rid responder accept d = (d', inr row) ->
      (exists r r', request_by_id d rid = Some r
                  /\ fr_status r = pending
                  /\ fr_to_user_id r = responder
                  /\ request_by_id d' rid = Some r'
                  /\ fr_status r' = (if accept then accepted else rejected)
                  /\ fr_responded_at r' = Some now
                  /\ fr_from_user_id r' = fr_from_user_id r
                  /\ fr_to_user_id r' = fr_to_user_id r
                  /\ fr_created_at r' = fr_created_at r
                  /\ rr_id row = rid
                  /\ rr_status row = (if accept then accepted else rejected))
      /\ (forall x, fr_id x <> rid ->
            (In x (friend_requests d') <-> In x (friend_requests d)))
      /\ users d' = users d /\ sessions d' = sessions d /\ messages d' = messages d
      /\ forall now' responder' accept',
           respond_to_friend_request now' rid responder' accept' d'
           = (d', inl (ValueError
                         (if (responder' =? responder)%Z
                          then "Friend request is not pending"
                          else "You are not allowed to respond to this request")))).
Proof.
  split_and!.
  - apply respond_overflow.
  - apply respond_not_found.
  - intros r. apply respond_forbidden.
  - intros r. apply respond_not_pending.
  - intros r Hfit Hr Hto Hst [uf Huf] [ut Hut].
    destruct (respond_pending now rid responder accept d r Hfit Hr Hto Hst) as [Hr' ->].
    unfold select_request_row. rewrite Hr'. simpl.
    change (user_by_id (with_friend_requests d ?l)) with (user_by_id d).
    rewrite Huf, Hut. eauto.
  - intros d' row (r & Hfit & Hr & Hto & Hst & -> & Hsel)%respond_success_inv.
    pose proof (update_status_find now (new_status accept) rid _ r Hr) as Hr'.
    set (d' := with_friend_requests d _) in *.
    assert (new_status accept = if accept then accepted else rejected) as Hnew
      by by destruct accept.
    split_and!; try done.
    + exists r, (responded now (new_status accept) r).
      unfold select_request_row in Hsel. unfold request_by_id in Hsel at 1.
      simpl in Hsel. rewrite Hr' in Hsel. simpl in Hsel.
      pose proof (find_id_eq _ _ _ Hr) as Hid.
      split_and!; try done;
        repeat case_match; try congruence; by injection Hsel as <-.
    + intros x Hx. simpl. split.
      * intros Hin. by apply (update_status_others now (new_status accept) rid).
      * intros Hin. unfold update_status. apply in_map_iff. exists x.
        apply Z.eqb_neq in Hx. by rewrite Hx.
    + intros now' responder' accept'.
      destruct (responder' =? responder)%Z eqn:E.
      * apply Z.eqb_eq in E as ->.
        apply (respond_not_pending _ _ _ _ _ (responded now (new_status accept) r));
          [done | done | done |]. by destruct accept.
      * apply Z.eqb_neq in E.
        apply (respond_forbidden _ _ _ _ _ (responded now (new_status accept) r));
          [done | done |]. simpl. congruence.
Qed.

(** [respond_to_friend_request] is its tests followed by its UPDATE. *)
Lemma respond_to_friend_request_halves now rid uid acc d :
  respond_to_friend_request now rid uid acc d
  = match respond_to_friend_request_check d rid uid with
    | inl e => (d, inl e)
    | inr _ => respond_to_friend_request_write now rid acc d
    end.
Proof.
  unfold respond_to_friend_request, respond_to_friend_request_check,
    respond_to_friend_request_write. run.
  destruct (fits_int64 rid); [|done]. simpl.
  destruct (request_by_id d rid) as [r|]; [|done].
  destruct (negb (fr_to_user_id r =? uid)%Z); [done|].
  by destruct (negb (status_eqb (fr_status r) pending)).
Qed.

(** X25.  The refusal of a second answer holds of calls run one after
    another only.  bob accepts and rejects alice's request at the same time, in
    two worker threads, and both tests run before either UPDATE: both
    calls return, the first with the request accepted and the second
    with it rejected, and the request, written twice, is left
    rejected. *)
Theorem respond_crossing_writes_twice :
  let run := respond_to_friend_request_crossing
               "2024-05-01 09:02:00" true "2024-05-01 09:02:01" false 1 2
               Scenario.db_pending in
  snd run = inr (mkRequestRow 1 accepted "alice" "bob",
                 mkRequestRow 1 rejected "alice" "bob")
  /\ friend_requests (fst run)
     = [mkFriendRequest 1 1 2 rejected "2024-05-01 09:01:00"
          (Some "2024-05-01 09:02:01")].
Proof. split; reflexivity. Qed.

(** C4 as stated does not hold: after a successful answer, a further
    call by someone who is not the target does not fail with "Friend
    request is not pending". *)
Lemma respond_again_by_stranger_not_invalid_state :
  ~ (forall d now rid responder accept d' row,
       respond_to_friend_request now rid responder accept d = (d', inr row) ->
       forall now' responder' accept',
         snd (respond_to_friend_request now' rid responder' accept' d')
         = inl (ValueError "Friend request is not pending")).
Proof.
  intros H.
  specialize (H Scenario.db_pending "2024-05-01 09:02:00" 1%Z 2%Z true
                Scenario.db_accepted
                (mkRequestRow 1 accepted "alice" "bob") eq_refl
                "2024-05-01 09:03:00" 3%Z true).
  vm_compute in H. discriminate H.
Qed.

End respond_claims.

Section create_request_facts.
Implicit Types (d : DB) (r : friend_request).

Lemma create_friend_request_existing now a bname d b r0 :
  get_user_by_username d bname = Some b -> u_id b <> a ->
  find (between a (u_id b)) (friend_requests d) = Some r0 ->
  create_friend_request now a bname d
  = (d, inl (existing_request_error (fr_status r0))).
Proof.
  intros Hb Hne Hfind. unfold create_friend_request. run. rewrite Hb.
  apply Z.eqb_neq in Hne. rewrite Hne, Hfind. done.
Qed.

Lemma find_is_Some {A} (f : A -> bool) (l : list A) x :
  In x l -> f x = true -> exists y, find f l = Some y.
Proof.
  intros Hin Hf. destruct (find f l) as [y|] eqn:E; [eauto|].
  by rewrite (find_none _ _ E x Hin) in Hf.
Qed.

(** What a call leaves in the table: nothing new, or one pending row for
    a pair that had none. *)
Lemma create_friend_request_table now a bname d :
  friend_requests (fst (create_friend_request now a bname d)) = friend_requests d
  \/ exists b,
       find (between a (u_id b)) (friend_requests d) = None
       /\ friend_requests (fst (create_friend_request now a bname d))
          = (friend_requests d
             ++ [mkFriendRequest (next_id (map fr_id (friend_requests d))) a (u_id b)
                   pending now None])%list.
Proof.
  unfold create_friend_request. run.
  destruct (get_user_by_username d bname) as [b|]; [|by left].
  destruct (u_id b =? a)%Z; [by left|].
  destruct (find (between a (u_id b)) (friend_requests d)) eqn:Hfind; [by left|].
  destruct (existsb _ _); [by left|].
  right. exists b. split; [done|]. run.
  by destruct (select_request_row _ _).
Qed.

Lemma same_pair_between a b r1 r2 :
  between a b r1 = true -> between a b r2 = true -> same_pair r1 r2 = true.
Proof.
  unfold same_pair. rewrite !between_spec. intuition congruence.
Qed.

Lemma same_pair_sym r1 r2 : same_pair r1 r2 = same_pair r2 r1.
Proof.
  unfold same_pair. apply eq_true_iff_eq. rewrite !between_spec.
  intuition congruence.
Qed.

Lemma pair_unique_snoc rs r :
  pair_unique rs ->
  find (between (fr_from_user_id r) (fr_to_user_id r)) rs = None ->
  pair_unique (rs ++ [r]).
Proof.
  intros Huniq Hnone i j r1 r2 Hi Hj Hsame.
  assert (forall k x y, rs !! k = Some x -> (rs ++ [r]) !! length rs = Some y ->
                        same_pair x y = true -> False) as Hfresh.
  { intros k x y Hk Hy Hxy. rewrite list_lookup_middle in Hy by done.
    injection Hy as <-.
    apply list_elem_of_lookup_2, list_elem_of_In in Hk.
    pose proof (find_none _ _ Hnone x Hk) as Hf.
    rewrite same_pair_sym in Hxy. unfold same_pair in Hxy. congruence. }
  destruct (decide (i < length rs)) as [Hil|Hil];
    destruct (decide (j < length rs)) as [Hjl|Hjl].
  - rewrite lookup_app_l in Hi, Hj by done. eauto.
  - assert (j = length rs) as ->.
    { apply lookup_lt_Some in Hj. rewrite length_app in Hj. simpl in Hj. lia. }
    rewrite lookup_app_l in Hi by done. destruct (Hfresh i r1 r2); done.
  - assert (i = length rs) as ->.
    { apply lookup_lt_Some in Hi. rewrite length_app in Hi. simpl in Hi. lia. }
    rewrite lookup_app_l in Hj by done. rewrite same_pair_sym in Hsame.
    destruct (Hfresh j r2 r1); done.
  - apply lookup_lt_Some in Hi, Hj. rewrite length_app in Hi, Hj.
    simpl in Hi, Hj. lia.
Qed.

Lemma pair_unique_update_status now st rid rs :
  pair_unique rs -> pair_unique (update_status now st rid rs).
Proof.
  intros Huniq i j r1 r2 Hi Hj Hsame. unfold update_status in Hi, Hj.
  rewrite list_lookup_fmap in Hi, Hj.
  destruct (rs !! i) as [x|] eqn:Hx; [|done].
  destruct (rs !! j) as [y|] eqn:Hy; [|done].
  simpl in Hi, Hj. injection Hi as <-. injection Hj as <-.
  apply (Huniq i j x y Hx Hy).
  unfold same_pair, between in *.
  by destruct (fr_id x =? rid)%Z, (fr_id y =? rid)%Z.
Qed.

Lemma respond_table now rid uid acc d :
  friend_requests (fst (respond_to_friend_request now rid uid acc d)) = friend_requests d
  \/ friend_requests (fst (respond_to_friend_request now rid uid acc d))
     = update_status now (new_status acc) rid (friend_requests d).
Proof.
  unfold respond_to_friend_request. run.
  destruct (fits_int64 rid); [|by left]. simpl.
  destruct (request_by_id d rid) as [r|]; [|by left].
  destruct (negb _); [by left|]. destruct (negb _); [by left|].
  right. run. by destruct (select_request_row _ _).
Qed.

Lemma create_user_table sha username password d :
  friend_requests (fst (create_user sha username password d)) = friend_requests d.
Proof.
  unfold create_user. run. destruct (get_user_by_username d username); [done|].
  run. by destruct (user_by_id _ _).
Qed.

Lemma create_session_table now token uid d :
  friend_requests (fst (create_session now token uid d)) = friend_requests d.
Proof. unfold create_session. run. by destruct (existsb _ _). Qed.

Lemma save_message_table ok now a b k txt url d :
  friend_requests (fst (save_message ok now a b k txt url d)) = friend_requests d.
Proof.
  unfold save_message. destruct ok; [|done]. run.
  repeat case_match; done.
Qed.

Lemma reachable_pair_unique d : reachable d -> pair_unique (friend_requests d).
Proof.
  induction 1 as [|d sha u p _ IH|d now tok uid _ IH|d now a name _ IH
                  |d now rid uid acc _ IH|d ok now a b k txt url _ IH].
  - intros i j r1 r2 Hi. simpl in Hi. by rewrite lookup_nil in Hi.
  - by rewrite create_user_table.
  - by rewrite create_session_table.
  - destruct (create_friend_request_table now a name d) as [-> | (b & Hnone & ->)];
      [done|]. by apply pair_unique_snoc.
  - destruct (respond_table now rid uid acc d) as [-> | ->]; [done|].
    by apply pair_unique_update_status.
  - by rewrite save_message_table.
Qed.

End create_request_facts.

Section request_claims.

(** The part of C3 that holds of calls run one after another.  When the
    target name resolves to a user other than the caller and the table
    already holds a request between the two, in either direction,
    [create_friend_request] leaves the store as it was and raises "You
    are already friends" when that request is accepted, "A pending
    friend request already exists" when it is pending and "A friend
    request already exists" when it is rejected; on a reachable store
    that request is the one given.  Every store reached by calls that
    run one after another holds at most one request per unordered pair
    of users. *)
Lemma create_friend_request_already_related
    (d : DB) (now : string) (a : Z) (bname : string) (b : user)
    (r : friend_request) :
  get_user_by_username d bname = Some b ->
  u_id b <> a ->
  In r (friend_requests d) ->
  between a (u_id b) r = true ->
  (exists r0, In r0 (friend_requests d)
              /\ between a (u_id b) r0 = true
              /\ create_friend_request now a bname d
                 = (d, inl (ValueError
                              match fr_status r0 with
                              | accepted => "You are already friends"
                              | pending => "A pending friend request already exists"
                              | rejected => "A friend request already exists"
                              end))
              /\ (reachable d -> r0 = r))
  /\ (forall s, reachable s -> pair_unique (friend_requests s)).
Proof.
  intros Hb Hne Hin Hbetween. split; [|apply reachable_pair_unique].
  destruct (find_is_Some _ _ _ Hin Hbetween) as [r0 Hfind].
  pose proof (find_some _ _ Hfind) as [Hin0 Hb0].
  exists r0. split_and!; try done.
  - rewrite (create_friend_request_existing _ _ _ _ b r0) by done.
    by destruct (fr_status r0).
  - intros Hreach%reachable_pair_unique.
    apply list_elem_of_In, list_elem_of_lookup in Hin0 as [i Hi].
    apply list_elem_of_In, list_elem_of_lookup in Hin as [j Hj].
    assert (i = j) as -> by eauto using same_pair_between.
    congruence.
Qed.

Lemma scenario_pending_reachable : reachable Scenario.db_pending.
Proof.
  exact (reach_create_friend_request _ "2024-05-01 09:01:00" 1 "bob"
          (reach_create_session _ "2024-05-01 09:00:02" "tok-carol" 3
            (reach_create_session _ "2024-05-01 09:00:01" "tok-bob" 2
              (reach_create_session _ "2024-05-01 09:00:00" "tok-alice" 1
                (reach_create_user _ Scenario.sha "carol" "pw3"
                  (reach_create_user _ Scenario.sha "bob" "pw2"
                    (reach_create_user _ Scenario.sha "alice" "pw1" reach_init))))))).
Qed.

(** The three refusals, one per status of the request already there,
    asked by bob about alice's request to him. *)
Lemma create_friend_request_already_related_examples :
  create_friend_request "2024-05-01 09:06:00" 2 "alice" Scenario.db_pending
  = (Scenario.db_pending, inl (ValueError "A pending friend request already exists"))
  /\ create_friend_request "2024-05-01 09:06:00" 2 "alice" Scenario.db_accepted
     = (Scenario.db_accepted, inl (ValueError "You are already friends"))
  /\ create_friend_request "2024-05-01 09:06:00" 2 "alice" Scenario.db_rejected
     = (Scenario.db_rejected, inl (ValueError "A friend request already exists"))
  /\ create_friend_request "2024-05-01 09:06:00" 1 "bob" Scenario.db_rejected
     = (Scenario.db_rejected, inl (ValueError "A friend request already exists")).
Proof.
  pose (alice := mkUser 1 "alice" "sha256:pw1").
  pose (stamp := Some "2024-05-01 09:02:00").
  assert (forall d st at_,
            get_user_by_username d "alice" = Some alice ->
            friend_requests d = [mkFriendRequest 1 1 2 st "2024-05-01 09:01:00" at_] ->
            exists r0, In r0 (friend_requests d)
                       /\ create_friend_request "2024-05-01 09:06:00" 2 "alice" d
                          = (d, inl (ValueError
                                       match fr_status r0 with
                                       | accepted => "You are already friends"
                                       | pending => "A pending friend request already exists"
                                       | rejected => "A friend request already exists"
                                       end))) as Hcall.
  { intros d st at_ Hu Hrs.
    destruct (create_friend_request_already_related d "2024-05-01 09:06:00" 2 "alice"
                alice (mkFriendRequest 1 1 2 st "2024-05-01 09:01:00" at_) Hu)
      as [(r0 & Hin & _ & Hcall & _) _]; [discriminate | rewrite Hrs; by left | done |].
    by exists r0. }
  split_and!.
  - destruct (Hcall Scenario.db_pending pending None eq_refl eq_refl)
      as (r0 & [<- | []] & H). exact H.
  - destruct (Hcall Scenario.db_accepted accepted stamp eq_refl eq_refl)
      as (r0 & [<- | []] & H). exact H.
  - destruct (Hcall Scenario.db_rejected rejected stamp eq_refl eq_refl)
      as (r0 & [<- | []] & H). exact H.
  - reflexivity.
Qed.

(** [create_friend_request] is its lookups followed by its INSERT. *)
Lemma create_friend_request_halves now a bname d :
  create_friend_request now a bname d
  = match create_friend_request_lookup d a bname with
    | inl e => (d, inl e)
    | inr to_user_id => create_friend_request_write now a to_user_id d
    end.
Proof.
  unfold create_friend_request, create_friend_request_lookup,
    create_friend_request_write. run.
  destruct (get_user_by_username d bname) as [b|]; [|done].
  destruct (u_id b =? a)%Z; [done|].
  by destruct (find (between a (u_id b)) (friend_requests d)).
Qed.

(** C3, at an input where the code departs from it.  alice and bob have
    no request between them.  alice asks bob and bob asks alice at the
    same time, in two worker threads, and both lookups run before either
    INSERT.  Neither lookup finds a request, and the UNIQUE constraint,
    which is on the ordered pair, lets both rows in: both calls return a
    pending request and the table holds two requests for the one pair of
    users.  Run one after the other, the second call is refused and one
    row is left. *)
Theorem create_friend_request_crossing_two_rows :
  let run := create_friend_request_crossing
               "2024-05-01 09:01:00" 1 "bob" "2024-05-01 09:01:00" 2 "alice"
               Scenario.db_users in
  friend_requests Scenario.db_users = []
  /\ snd run = inr (mkRequestRow 1 pending "alice" "bob",
                    mkRequestRow 2 pending "bob" "alice")
  /\ friend_requests (fst run)
     = [mkFriendRequest 1 1 2 pending "2024-05-01 09:01:00" None;
        mkFriendRequest 2 2 1 pending "2024-05-01 09:01:00" None]
  /\ ~ pair_unique (friend_requests (fst run))
  /\ create_friend_request "2024-05-01 09:01:00" 2 "alice"
       (fst (create_friend_request "2024-05-01 09:01:00" 1 "bob" Scenario.db_users))
     = (Scenario.db_pending,
        inl (ValueError "A pending friend request already exists")).
Proof.
  split_and!; try reflexivity.
  intros Huniq.
  specialize (Huniq 0 1
                (mkFriendRequest 1 1 2 pending "2024-05-01 09:01:00" None)
                (mkFriendRequest 2 2 1 pending "2024-05-01 09:01:00" None)
                eq_refl eq_refl eq_refl).
  discriminate Huniq.
Qed.

(** C5.  [are_friends d a b] is true exactly when the table holds an
    accepted request between [a] and [b], whichever of the two sent it;
    it gives the same answer for [(b, a)]; it is false when every request
    between them is pending or rejected; and it is true, in both orders,
    in the store left by a successful acceptance of a request from [a]
    to [b]. *)
Theorem are_friends_iff_accepted (d : DB) (a b : Z) :
  (are_friends d a b = true <->
   exists r, In r (friend_requests d) /\ fr_status r = accepted
             /\ ((fr_from_user_id r = a /\ fr_to_user_id r = b)
                 \/ (fr_from_user_id r = b /\ fr_to_user_id r = a)))
  /\ are_friends d a b = are_friends d b a
  /\ ((forall r, In r (friend_requests d) -> between a b r = true ->
                 fr_status r = pending \/ fr_status r = rejected) ->
      are_friends d a b = false)
  /\ (forall now rid r d' row,
        request_by_id d rid = Some r ->
        fr_from_user_id r = a -> fr_to_user_id r = b ->
        respond_to_friend_request now rid b true d = (d', inr row) ->
        are_friends d' a b = true /\ are_friends d' b a = true).
Proof.
  split_and!.
  - apply are_friends_spec.
  - apply are_friends_sym.
  - apply are_friends_not_accepted.
  - intros now rid r d' row Hr Hfrom Hto
      (r' & _ & Hr' & _ & _ & -> & _)%respond_success_inv.
    assert (r' = r) as -> by congruence.
    pose proof (update_status_find now (new_status true) rid _ r Hr) as Hfind.
    apply find_some in Hfind as [Hin _].
    rewrite (are_friends_sym _ b a). split; apply are_friends_spec;
      exists (responded now accepted r); simpl; auto.
Qed.

Lemma are_friends_iff_accepted_witness :
  are_friends Scenario.db_pending 1 2 = false
  /\ are_friends Scenario.db_accepted 1 2 = true
  /\ are_friends Scenario.db_accepted 2 1 = true.
Proof.
  destruct (are_friends_iff_accepted Scenario.db_pending 1 2)
    as (_ & _ & Hbefore & Hafter).
  split.
  - apply Hbefore. intros r [<- | []] _. by left.
  - apply (Hafter "2024-05-01 09:02:00" 1%Z
             (mkFriendRequest 1 1 2 pending "2024-05-01 09:01:00" None)
             Scenario.db_accepted (mkRequestRow 1 accepted "alice" "bob"));
      reflexivity.
Defined.

Lemma respond_transition_once_witness :
  respond_to_friend_request "2024-05-01 09:02:00" (2 ^ 63) 2 true Scenario.db_pending
  = (Scenario.db_pending, inl OverflowError)
  /\ respond_to_friend_request "2024-05-01 09:02:00" 7 2 true Scenario.db_pending
     = (Scenario.db_pending, inl (ValueError "Friend request not found"))
  /\ respond_to_friend_request "2024-05-01 09:02:00" 1 3 true Scenario.db_pending
     = (Scenario.db_pending,
        inl (ValueError "You are not allowed to respond to this request"))
  /\ respond_to_friend_request "2024-05-01 09:03:00" 1 2 true Scenario.db_rejected
     = (Scenario.db_rejected, inl (ValueError "Friend request is not pending"))
  /\ (exists d' row,
        respond_to_friend_request "2024-05-01 09:02:00" 1 2 false Scenario.db_pending
        = (d', inr row))
  /\ (exists r', request_by_id Scenario.db_accepted 1 = Some r'
                 /\ fr_status r' = accepted
                 /\ fr_responded_at r' = Some "2024-05-01 09:02:00")
  /\ (exists r', request_by_id Scenario.db_rejected 1 = Some r'
                 /\ fr_status r' = rejected
                 /\ fr_responded_at r' = Some "2024-05-01 09:02:00")
  /\ respond_to_friend_request "2024-05-01 09:03:00" 1 2 false Scenario.db_accepted
     = (Scenario.db_accepted, inl (ValueError "Friend request is not pending"))
  /\ respond_to_friend_request "2024-05-01 09:03:00" 1 2 true Scenario.db_rejected
     = (Scenario.db_rejected, inl (ValueError "Friend request is not pending"))
  /\ respond_to_friend_request "2024-05-01 09:03:00" 1 3 true Scenario.db_accepted
     = (Scenario.db_accepted,
        inl (ValueError "You are not allowed to respond to this request")).
Proof.
  pose (r := mkFriendRequest 1 1 2 pending "2024-05-01 09:01:00" None).
  pose (r_no := mkFriendRequest 1 1 2 rejected "2024-05-01 09:01:00"
                  (Some "2024-05-01 09:02:00")).
  destruct (respond_transition_once Scenario.db_pending "2024-05-01 09:02:00"
              (2 ^ 63) 2 true) as (Hbig & _).
  destruct (respond_transition_once Scenario.db_pending "2024-05-01 09:02:00" 7 2 true)
    as (_ & Hnone & _).
  destruct (respond_transition_once Scenario.db_pending "2024-05-01 09:02:00" 1 3 true)
    as (_ & _ & Hother & _).
  destruct (respond_transition_once Scenario.db_rejected "2024-05-01 09:03:00" 1 2 true)
    as (_ & _ & _ & Hstale & _).
  destruct (respond_transition_once Scenario.db_pending "2024-05-01 09:02:00" 1 2 true)
    as (_ & _ & _ & _ & _ & Hyes).
  destruct (respond_transition_once Scenario.db_pending "2024-05-01 09:02:00" 1 2 false)
    as (_ & _ & _ & _ & Hruns & Hno).
  destruct (Hyes Scenario.db_accepted (mkRequestRow 1 accepted "alice" "bob") eq_refl)
    as ((_ & r1 & _ & _ & _ & Hr1 & Hs1 & Ht1 & _) & _ & _ & _ & _ & Hagain1).
  destruct (Hno Scenario.db_rejected (mkRequestRow 1 rejected "alice" "bob") eq_refl)
    as ((_ & r2 & _ & _ & _ & Hr2 & Hs2 & Ht2 & _) & _ & _ & _ & _ & Hagain2).
  split_and!.
  - apply Hbig. reflexivity.
  - apply Hnone; reflexivity.
  - apply (Hother r); [reflexivity | reflexivity | discriminate].
  - apply (Hstale r_no); [reflexivity | reflexivity | reflexivity | discriminate].
  - apply (Hruns r); try reflexivity; eexists; reflexivity.
  - exists r1. by split_and!.
  - exists r2. by split_and!.
  - apply (Hagain1 _ 2%Z false).
  - apply (Hagain2 _ 2%Z true).
  - apply (Hagain1 _ 3%Z true).
Defined.

End request_claims.

(** ** Conversations *)

Section conversation_facts.
Implicit Types (d : DB) (m : message).

#[local] Instance order_key_le_total : Total order_key_le.
Proof.
  intros x y. unfold order_key_le.
  rewrite (String.compare_antisym (m_created_at x) (m_created_at y)).
  destruct (String.compare (m_created_at y) (m_created_at x)); simpl; auto; lia.
Qed.

#[local] Instance order_key_le_trans : Transitive order_key_le.
Proof.
  intros x y z. unfold order_key_le.
  destruct (String.compare (m_created_at x) (m_created_at y)) eqn:Exy;
    destruct (String.compare (m_created_at y) (m_created_at z)) eqn:Eyz;
    try done.
  - apply String_as_OT.cmp_eq in Exy, Eyz. rewrite Exy, Eyz.
    assert (String.compare (m_created_at z) (m_created_at z) = Eq) as ->
      by by apply String_as_OT.cmp_eq.
    lia.
  - apply String_as_OT.cmp_eq in Exy. by rewrite Exy, Eyz.
  - apply String_as_OT.cmp_eq in Eyz. by rewrite <- Eyz, Exy.
  - apply String_as_OT.cmp_lt in Exy, Eyz.
    pose proof (String_as_OT.lt_trans _ _ _ Exy Eyz) as Hxz.
    apply String_as_OT.cmp_lt in Hxz. unfold String_as_OT.cmp in Hxz.
    by rewrite Hxz.
Qed.

Lemma sql_limit_length {A} (limit : Z) (rows : list A) :
  (0 <= limit)%Z -> length (sql_limit limit rows) <= Z.to_nat limit.
Proof.
  intros H. unfold sql_limit. destruct (limit <? 0)%Z eqn:E; [lia|].
  rewrite length_take. lia.
Qed.

Lemma sql_limit_prefix {A} (limit : Z) (rows : list A) :
  exists rest, rows = sql_limit limit rows ++ rest.
Proof.
  unfold sql_limit. destruct (limit <? 0)%Z.
  - exists []. by rewrite app_nil_r.
  - exists (drop (Z.to_nat limit) rows). by rewrite take_drop.
Qed.

(** The result holds at most [limit] messages, for a limit that is not
    negative. *)
Lemma get_conversation_msgs_length d a b limit :
  (0 <= limit)%Z -> length (get_conversation_msgs d a b limit) <= Z.to_nat limit.
Proof. apply sql_limit_length. Qed.

(** Only messages of the table that the two users exchanged. *)
Lemma get_conversation_msgs_exchanged d a b limit m :
  In m (get_conversation_msgs d a b limit) ->
  In m (messages d) /\ exchanged a b m = true /\ is_Some (join_users d m).
Proof.
  unfold get_conversation_msgs. intros Hin.
  destruct (sql_limit_prefix limit
              (merge_sort order_key_le (conversation_rows d a b))) as [rest Hrest].
  assert (m ∈ merge_sort order_key_le (conversation_rows d a b)) as Hm.
  { rewrite Hrest. apply elem_of_app. left. by apply list_elem_of_In. }
  rewrite merge_sort_Permutation in Hm. unfold conversation_rows in Hm.
  apply list_elem_of_filter in Hm as [[H1 H2] H3].
  by rewrite <- list_elem_of_In.
Qed.

(** In the order of the result: creation time ascending, then id. *)
Lemma get_conversation_msgs_sorted d a b limit :
  StronglySorted order_key_le (get_conversation_msgs d a b limit).
Proof.
  unfold get_conversation_msgs.
  destruct (sql_limit_prefix limit
              (merge_sort order_key_le (conversation_rows d a b))) as [rest Hrest].
  pose proof (StronglySorted_merge_sort order_key_le (conversation_rows d a b)) as Hs.
  rewrite Hrest in Hs. by apply StronglySorted_app_1_l in Hs.
Qed.

(** A selected message that the limit leaves out comes after every
    message of the result: the result is the oldest part of the
    conversation. *)
Lemma get_conversation_msgs_oldest d a b limit m m' :
  In m (get_conversation_msgs d a b limit) ->
  In m' (conversation_rows d a b) ->
  ~ In m' (get_conversation_msgs d a b limit) ->
  order_key_le m m'.
Proof.
  unfold get_conversation_msgs. intros Hm Hm' Hout.
  destruct (sql_limit_prefix limit
              (merge_sort order_key_le (conversation_rows d a b))) as [rest Hrest].
  pose proof (StronglySorted_merge_sort order_key_le (conversation_rows d a b)) as Hs.
  rewrite Hrest in Hs.
  apply (StronglySorted_app_1_elem_of _ _ _ _ _ Hs); [by apply list_elem_of_In|].
  apply list_elem_of_In in Hm'. rewrite <- merge_sort_Permutation, Hrest in Hm'.
  apply elem_of_app in Hm' as [Hm'|Hm']; [|done].
  by apply list_elem_of_In in Hm'.
Qed.

(** Every selected message gives one row of the result. *)
Lemma get_conversation_bound d a b limit :
  fits_int64 a = true -> fits_int64 b = true -> fits_int64 limit = true ->
  get_conversation d a b limit
  = inr (omap (select_columns d) (get_conversation_msgs d a b limit)).
Proof. intros Ha Hb Hl. unfold get_conversation. by rewrite Ha, Hb, Hl. Qed.

Lemma get_conversation_overflow d a b limit :
  fits_int64 a && fits_int64 b && fits_int64 limit = false ->
  get_conversation d a b limit = inl OverflowError.
Proof. intros H. unfold get_conversation. by rewrite H. Qed.

Lemma get_conversation_inv d a b limit rows :
  get_conversation d a b limit = inr rows ->
  (fits_int64 a = true /\ fits_int64 b = true /\ fits_int64 limit = true)
  /\ rows = omap (select_columns d) (get_conversation_msgs d a b limit).
Proof.
  unfold get_conversation.
  destruct (fits_int64 a), (fits_int64 b), (fits_int64 limit); simpl;
    intros [= <-]; done.
Qed.

Lemma get_conversation_length d a b limit rows :
  get_conversation d a b limit = inr rows ->
  length rows = length (get_conversation_msgs d a b limit).
Proof.
  intros [_ ->]%get_conversation_inv.
  pose proof (fun m => get_conversation_msgs_exchanged d a b limit m) as H.
  induction (get_conversation_msgs d a b limit) as [|m ms IH]; [done|].
  simpl. destruct (H m ltac:(by left)) as (_ & _ & [row Hrow]).
  unfold select_columns at 1. rewrite Hrow. simpl. f_equal.
  apply IH. intros m' Hm'. apply H. by right.
Qed.

End conversation_facts.

Section history_claims.

(** C1, at an input where the code departs from it.  alice and bob are
    friends and have exchanged "one", "two" and "three", in that order;
    asked for the history with limit 2, [get_history] answers with "one"
    and "two": the two oldest messages, not the two most recent. *)
Theorem get_history_limit_keeps_oldest :
  snd (get_history "tok-alice" "bob" 2 (mkWorld Scenario.db_chat ∅ []))
  = inr [mkMessageItem "alice" "bob" text "one" None "2024-05-01 09:03:00";
         mkMessageItem "bob" "alice" text "two" None "2024-05-01 09:04:00"]
  /\ map m_text (conversation_rows Scenario.db_chat 1 2) = ["one"; "two"; "three"].
Proof. split; vm_compute; reflexivity. Qed.

End history_claims.

(** ** The relay *)

Section save_facts.
Implicit Types (d : DB) (w : World).

Lemma save_message_down now a b k txt url d :
  save_message false now a b k txt url d = (d, inl OperationalError).
Proof. reflexivity. Qed.

Lemma user_by_id_with_messages d l id : user_by_id (with_messages d l) id = user_by_id d id.
Proof. reflexivity. Qed.

Lemma save_message_ok now a b k txt url d ua ub :
  user_by_id d a = Some ua -> user_by_id d b = Some ub ->
  let m := mkMessage (next_id (map m_id (messages d))) a b k txt url now in
  save_message true now a b k txt url d
  = (with_messages d (messages d ++ [m]),
     inr (mkMessageRow (m_id m) (u_username ua) (u_username ub) k txt url now)).
Proof.
  intros Ha Hb m. unfold save_message. run. fold m.
  rewrite (find_app_fresh _ _ m).
  - unfold join_users. rewrite !user_by_id_with_messages. simpl. by rewrite Ha, Hb.
  - intros y Hy. apply Z.eqb_neq.
    pose proof (next_id_gt (map m_id (messages d)) (m_id y) (in_map _ _ _ Hy)). lia.
  - simpl. apply Z.eqb_refl.
Qed.

Lemma call_db_save_down now a b k txt url w :
  call_db (save_message false now a b k txt url) w
  = (mkWorld (db w) (active_connections w) (trace w), inl OperationalError).
Proof.
  unfold call_db. rewrite save_message_down.
  by rewrite drop_all, app_nil_r.
Qed.

Lemma call_db_save_ok now a b k txt url w ua ub :
  user_by_id (db w) a = Some ua -> user_by_id (db w) b = Some ub ->
  let m := mkMessage (next_id (map m_id (messages (db w)))) a b k txt url now in
  call_db (save_message true now a b k txt url) w
  = (mkWorld (with_messages (db w) (messages (db w) ++ [m]))
       (active_connections w) (trace w ++ [Appended m]),
     inr (mkMessageRow (m_id m) (u_username ua) (u_username ub) k txt url now)).
Proof.
  intros Ha Hb m. unfold call_db.
  rewrite (save_message_ok _ _ _ _ _ _ _ ua ub) by done. fold m. simpl.
  by rewrite drop_app_length.
Qed.

(** A name that resolves belongs to a user the table holds under its id. *)
Lemma get_user_by_username_some d name u :
  get_user_by_username d name = Some u ->
  u_username u = name /\ is_Some (user_by_id d (u_id u)).
Proof.
  intros H. apply find_some in H as [Hin Hname].
  split; [by apply String.eqb_eq|].
  destruct (find_is_Some (fun x => (u_id x =? u_id u)%Z) _ u Hin (Z.eqb_refl _))
    as [y Hy]. by exists y.
Qed.

End save_facts.

Section frame_paths.
Implicit Types (w : World) (me : MeResponse) (ws : conn) (data : json).

Lemma frame_unsupported env me ws data w ty :
  dict_get data "type" = inr ty -> json_ne_str ty "chat" = true ->
  chat_ws_frame env me ws data w
  = (with_notice w ws "Unsupported message type.", inr tt).
Proof. intros H1 H2. by frame_path. Qed.

Lemma frame_empty_field env me ws data w to_username txt :
  chat_fields data to_username txt -> to_username = "" \/ txt = "" ->
  chat_ws_frame env me ws data w
  = (with_notice w ws "Both 'to' and 'text' fields are required.", inr tt).
Proof.
  intros (ty & to_raw & text_raw & H1 & H2 & H3 & H4 & H5 & H6) Hempty.
  assert (negb (Py.truthy to_username) || negb (Py.truthy txt) = true) as H7.
  { destruct Hempty as [-> | ->]; [done|]. apply orb_true_r. }
  by frame_path.
Qed.

Lemma both_truthy to_username txt :
  to_username <> "" -> txt <> "" ->
  negb (Py.truthy to_username) || negb (Py.truthy txt) = false.
Proof. by destruct to_username, txt. Qed.

Lemma frame_unknown_user env me ws data w to_username txt :
  chat_fields data to_username txt -> to_username <> "" -> txt <> "" ->
  get_user_by_username (db w) to_username = None ->
  chat_ws_frame env me ws data w
  = (with_notice w ws ("User '" ++ to_username ++ "' does not exist.")%string, inr tt).
Proof.
  intros (ty & to_raw & text_raw & H1 & H2 & H3 & H4 & H5 & H6) Hto Htxt H8.
  pose proof (both_truthy _ _ Hto Htxt) as H7. clear Hto Htxt.
  by frame_path.
Qed.

Lemma frame_not_friends env me ws data w to_username txt target :
  chat_fields data to_username txt -> to_username <> "" -> txt <> "" ->
  get_user_by_username (db w) to_username = Some target ->
  are_friends (db w) (me_id me) (u_id target) = false ->
  chat_ws_frame env me ws data w
  = (with_notice w ws ("You are not friends with '" ++ to_username ++ "'.")%string,
     inr tt).
Proof.
  intros (ty & to_raw & text_raw & H1 & H2 & H3 & H4 & H5 & H6) Hto Htxt H8 H9.
  pose proof (both_truthy _ _ Hto Htxt) as H7. clear Hto Htxt.
  by frame_path.
Qed.

(** The path of an accepted frame, up to the two ways it ends. *)
Lemma frame_accepted env me ws data w to_username txt target :
  chat_fields data to_username txt -> to_username <> "" -> txt <> "" ->
  get_user_by_username (db w) to_username = Some target ->
  are_friends (db w) (me_id me) (u_id target) = true ->
  chat_ws_frame env me ws data w
  = match lookup_connection to_username (active_connections w) with
    | None =>
        (_send_system ws ("User '" ++ to_username ++ "' is currently offline.")%string ;;
         call_db (save_message (store_ok env) (now env) (me_id me) (u_id target)
                    Db.text txt None) ;;
         ret tt) w
    | Some target_ws =>
        (call_db (save_message (store_ok env) (now env) (me_id me) (u_id target)
                    Db.text txt None) ;;
         send_json target_ws (ChatFrame (me_username me) txt) ;;
         send_json ws (ChatFrame (me_username me) txt)) w
    end.
Proof.
  intros (ty & to_raw & text_raw & H1 & H2 & H3 & H4 & H5 & H6) Hto Htxt H8 H9.
  pose proof (both_truthy _ _ Hto Htxt) as H7. clear Hto Htxt.
  unfold chat_ws_frame. run. rewrite H1. run. rewrite H2, H3. run.
  rewrite H4. run. rewrite H5. run. rewrite H6. run. rewrite H7, H8. run.
  rewrite H9. simpl.
  by destruct (lookup_connection to_username (active_connections w)).
Qed.

Lemma frame_offline env me ws data w to_username txt target :
  chat_fields data to_username txt -> to_username <> "" -> txt <> "" ->
  get_user_by_username (db w) to_username = Some target ->
  are_friends (db w) (me_id me) (u_id target) = true ->
  lookup_connection to_username (active_connections w) = None ->
  is_Some (user_by_id (db w) (me_id me)) ->
  let notice := Sent ws (SystemFrame
                  ("User '" ++ to_username ++ "' is currently offline.")%string) in
  let m := new_text_message (db w) env me target txt in
  chat_ws_frame env me ws data w
  = if store_ok env
    then (mkWorld (with_messages (db w) (messages (db w) ++ [m]))
            (active_connections w) (trace w ++ [notice; Appended m]), inr tt)
    else (mkWorld (db w) (active_connections w) (trace w ++ [notice]),
          inl OperationalError).
Proof.
  intros Hf Hto Htxt Htarget Hfriends Hoff [ua Hua] notice m.
  rewrite (frame_accepted _ _ _ _ _ _ _ _ Hf Hto Htxt Htarget Hfriends), Hoff.
  destruct (get_user_by_username_some _ _ _ Htarget) as [_ [ub Hub]].
  unfold _send_system, send_json, log. run.
  destruct (store_ok env) eqn:Hok.
  - rewrite (call_db_save_ok _ _ _ _ _ _ _ ua ub) by done. simpl.
    by rewrite <- app_assoc.
  - by rewrite call_db_save_down.
Qed.

Lemma frame_online env me ws data w to_username txt target target_ws :
  chat_fields data to_username txt -> to_username <> "" -> txt <> "" ->
  get_user_by_username (db w) to_username = Some target ->
  are_friends (db w) (me_id me) (u_id target) = true ->
  lookup_connection to_username (active_connections w) = Some target_ws ->
  is_Some (user_by_id (db w) (me_id me)) ->
  let payload := ChatFrame (me_username me) txt in
  let m := new_text_message (db w) env me target txt in
  chat_ws_frame env me ws data w
  = if store_ok env
    then (mkWorld (with_messages (db w) (messages (db w) ++ [m]))
            (active_connections w)
            (trace w ++ [Appended m; Sent target_ws payload; Sent ws payload]),
          inr tt)
    else (w, inl OperationalError).
Proof.
  intros Hf Hto Htxt Htarget Hfriends Hon [ua Hua] payload m.
  rewrite (frame_accepted _ _ _ _ _ _ _ _ Hf Hto Htxt Htarget Hfriends), Hon.
  destruct (get_user_by_username_some _ _ _ Htarget) as [_ [ub Hub]].
  unfold send_json, log. run.
  destruct (store_ok env) eqn:Hok.
  - rewrite (call_db_save_ok _ _ _ _ _ _ _ ua ub) by done. simpl.
    by rewrite <- !app_assoc.
  - rewrite call_db_save_down. by destruct w.
Qed.

(** A frame that is not a JSON object, or whose [to] or [text] is a
    value other than a string that counts as true, is not answered: the
    handler raises and the loop ends. *)
Lemma frame_not_object env me ws data w :
  dict_get data "type" = inl AttributeError ->
  chat_ws_frame env me ws data w = (w, inl AttributeError).
Proof. intros H. by frame_path. Qed.

End frame_paths.

Section frame_effects.
Implicit Types (w : World) (me : MeResponse) (ws : conn) (data : json).

(** What [save_message] does to the tables, whether or not it returns. *)
Lemma save_message_tables ok now a b k txt url d :
  let d' := fst (save_message ok now a b k txt url d) in
  users d' = users d /\ friend_requests d' = friend_requests d
  /\ messages d' = if ok
                   then messages d
                        ++ [mkMessage (next_id (map m_id (messages d))) a b k txt url now]
                   else messages d.
Proof.
  unfold save_message. destruct ok; [|done]. run.
  repeat case_match; done.
Qed.

(** One turn of the loop leaves users, requests and the registry alone,
    and either leaves the messages alone or appends the text of an
    accepted frame. *)
Lemma frame_effect env me ws data w :
  let w' := fst (chat_ws_frame env me ws data w) in
  users (db w') = users (db w)
  /\ friend_requests (db w') = friend_requests (db w)
  /\ active_connections w' = active_connections w
  /\ (messages (db w') = messages (db w)
      \/ exists to_username txt target,
           chat_fields data to_username txt
           /\ to_username <> "" /\ txt <> ""
           /\ get_user_by_username (db w) to_username = Some target
           /\ are_friends (db w) (me_id me) (u_id target) = true
           /\ messages (db w')
              = messages (db w) ++ [new_text_message (db w) env me target txt]).
Proof.
  destruct (dict_get data "type") as [e|ty] eqn:H1.
  { unfold chat_ws_frame. run. rewrite H1. simpl. auto. }
  destruct (json_ne_str ty "chat") eqn:H2.
  { rewrite (frame_unsupported _ _ _ _ _ ty) by done. simpl. auto. }
  destruct (dict_get data "to") as [e|to_raw] eqn:H3.
  { unfold chat_ws_frame. run. rewrite H1. run. rewrite H2, H3. simpl. auto. }
  destruct (or_empty_strip to_raw) as [e|to_username] eqn:H4.
  { unfold chat_ws_frame. run. rewrite H1. run. rewrite H2, H3. run.
    rewrite H4. simpl. auto. }
  destruct (dict_get data "text") as [e|text_raw] eqn:H5.
  { unfold chat_ws_frame. run. rewrite H1. run. rewrite H2, H3. run.
    rewrite H4. run. rewrite H5. simpl. auto. }
  destruct (or_empty_strip text_raw) as [e|txt] eqn:H6.
  { unfold chat_ws_frame. run. rewrite H1. run. rewrite H2, H3. run.
    rewrite H4. run. rewrite H5. run. rewrite H6. simpl. auto. }
  assert (chat_fields data to_username txt) as Hf.
  { by exists ty, to_raw, text_raw. }
  destruct (decide (to_username = "")) as [Hto|Hto].
  { rewrite (frame_empty_field _ _ _ _ _ _ _ Hf) by auto. simpl. auto. }
  destruct (decide (txt = "")) as [Htxt|Htxt].
  { rewrite (frame_empty_field _ _ _ _ _ _ _ Hf) by auto. simpl. auto. }
  destruct (get_user_by_username (db w) to_username) as [target|] eqn:Htarget.
  2: { rewrite (frame_unknown_user _ _ _ _ _ _ _ Hf) by done. simpl. auto. }
  destruct (are_friends (db w) (me_id me) (u_id target)) eqn:Hfriends.
  2: { rewrite (frame_not_friends _ _ _ _ _ _ _ _ Hf) by done. simpl. auto. }
  rewrite (frame_accepted _ _ _ _ _ _ _ _ Hf Hto Htxt Htarget Hfriends).
  pose proof (save_message_tables (store_ok env) (now env) (me_id me) (u_id target)
                Db.text txt None (db w)) as (Hu & Hr & Hm).
  assert (forall ac tr,
            let w1 := fst (call_db (save_message (store_ok env) (now env) (me_id me)
                                      (u_id target) Db.text txt None)
                             (mkWorld (db w) ac tr)) in
            db w1 = fst (save_message (store_ok env) (now env) (me_id me)
                           (u_id target) Db.text txt None (db w))
            /\ active_connections w1 = ac) as Hcall.
  { intros ac tr. unfold call_db. simpl. by destruct (save_message _ _ _ _ _ _ _ _). }
  destruct (lookup_connection to_username (active_connections w)) as [target_ws|].
  - unfold send_json, log. run.
    destruct (Hcall (active_connections w) (trace w)) as [Hdb Hac].
    destruct w as [d ac tr]. simpl in *.
    destruct (call_db _ _) as [w1 [e|row]]; simpl in *; rewrite Hdb;
      (split_and!; [done | done | done |]);
      (destruct (store_ok env); [right; exists to_username, txt, target; done | by left]).
  - unfold _send_system, send_json, log. run.
    destruct (Hcall (active_connections w)
                (trace w ++ [Sent ws (SystemFrame
                   ("User '" ++ to_username ++ "' is currently offline.")%string)]))
      as [Hdb Hac].
    destruct (call_db _ _) as [w1 [e|row]]; simpl in *; rewrite Hdb;
      (split_and!; [done | done | done |]);
      (destruct (store_ok env); [right; exists to_username, txt, target; done | by left]).
Qed.

End frame_effects.

Section relay_claims.
Implicit Types (w : World) (me : MeResponse) (ws : conn) (data : json).

Lemma or_empty_strip_trimmed x s : or_empty_strip x = inr s -> Py.strip s = s.
Proof.
  unfold or_empty_strip. destruct (json_truthy x); [|by intros [= <-]].
  destruct x; try discriminate. intros [= <-]. apply strip_idem.
Qed.


Lemma chat_fields_trimmed data to_username txt :
  chat_fields data to_username txt ->
  Py.strip to_username = to_username /\ Py.strip txt = txt.
Proof.
  intros (ty & to_raw & text_raw & _ & _ & _ & H4 & _ & H6).
  eauto using or_empty_strip_trimmed.
Qed.

(** The part of C6 that holds: frames that are objects whose [to] and
    [text] are strings, absent or falsy.  Such a frame, when rejected (a
    type other than [chat], an empty trimmed [to] or [text], an unknown
    recipient name, a recipient who is not a friend), is answered by one
    system notice on the sender's connection and nothing else: the store
    and the registry are as before, no chat frame is sent, and the
    handler returns to the loop, which goes on with what follows. *)
Lemma frame_rejection_one_notice env me ws data w msg :
  frame_rejected w me data msg ->
  exists w',
    chat_ws_frame env me ws data w = (w', inr tt)
    /\ trace w' = trace w ++ [Sent ws (SystemFrame msg)]
    /\ db w' = db w
    /\ active_connections w' = active_connections w
    /\ forall rest, chat_ws_loop me ws (Receives env data :: rest) w
                    = chat_ws_loop me ws rest w'.
Proof.
  intros Hrej. exists (with_notice w ws msg).
  assert (chat_ws_frame env me ws data w = (with_notice w ws msg, inr tt)) as Heq.
  { destruct Hrej as [ty H1 H2|to_ txt Hf Hempty|to_ txt Hf Hto Htxt Hnone
                      |to_ txt target Hf Hto Htxt Htarget Hnot].
    - by apply (frame_unsupported _ _ _ _ _ ty).
    - by apply (frame_empty_field _ _ _ _ _ to_ txt).
    - by apply (frame_unknown_user _ _ _ _ _ to_ txt).
    - by apply (frame_not_friends _ _ _ _ _ to_ txt target). }
  split_and!; try done.
  intros rest. simpl. unfold bind at 1. by rewrite Heq.
Qed.

Lemma scenario_chat_fields to_ txt :
  chat_fields (Scenario.chat_frame to_ txt) (Py.strip to_) (Py.strip txt)
  \/ to_ = "" \/ txt = "".
Proof.
  destruct to_ as [|c to_]; [auto|]. destruct txt as [|c' txt]; [auto|].
  left. by exists (JStr "chat"), (JStr (String c to_)), (JStr (String c' txt)).
Qed.

Lemma frame_rejection_one_notice_example :
  frame_rejected Scenario.world_bob_offline Scenario.alice
    (Scenario.chat_frame "carol" "hello") "You are not friends with 'carol'."
  /\ chat_ws_frame Scenario.env_ok Scenario.alice Scenario.ws_alice
       (Scenario.chat_frame "carol" "hello") Scenario.world_bob_offline
     = (with_notice Scenario.world_bob_offline Scenario.ws_alice
          "You are not friends with 'carol'.", inr tt).
Proof.
  assert (frame_rejected Scenario.world_bob_offline Scenario.alice
            (Scenario.chat_frame "carol" "hello")
            "You are not friends with 'carol'.") as Hrej.
  { apply (rejected_not_friends _ _ _ "carol" "hello" (mkUser 3 "carol" "sha256:pw3"));
      try done.
    by exists (JStr "chat"), (JStr "carol"), (JStr "hello"). }
  split; [exact Hrej|].
  destruct (frame_rejection_one_notice Scenario.env_ok Scenario.alice
              Scenario.ws_alice _ _ _ Hrej) as (w' & -> & Htrace & Hdb & Hac & _).
  f_equal. destruct w' as [d ac tr]. simpl in *. by subst.
Defined.

(** C6, at inputs where the code departs from it.  alice is connected.
    Her frame has type [chat], an empty [to] and the number 5 as [text]:
    line 361 calls [strip] on the number before line 363 tests for
    emptiness, AttributeError is raised, and no notice is sent.  The same
    happens for an unknown recipient with a list as [text], and for a
    frame that is an array and so has no [get], hence no type [chat].
    The exception is not a WebSocketDisconnect: it leaves the loop, the
    frame that follows is never handled, the [finally] clause removes
    alice's entry and the handler ends with the exception, which closes
    the connection.  The same frame with the text "5" as a string gets
    the notice. *)
Theorem frame_rejection_raises_on_non_string :
  let empty_to := JObject [("type", JStr "chat"); ("to", JStr ""); ("text", JInt 5)] in
  let unknown_to :=
    JObject [("type", JStr "chat"); ("to", JStr "nobody"); ("text", JArray [JStr "x"])] in
  let not_object := JArray [JStr "chat"] in
  let w := Scenario.world_both_online in
  let run := chat_ws Scenario.ws_alice (Some "tok-alice")
               [Receives Scenario.env_ok empty_to;
                Receives Scenario.env_ok (Scenario.chat_frame "bob" "hi")]
               (mkWorld Scenario.db_accepted ∅ []) in
  chat_ws_frame Scenario.env_ok Scenario.alice Scenario.ws_alice empty_to w
  = (w, inl AttributeError)
  /\ chat_ws_frame Scenario.env_ok Scenario.alice Scenario.ws_alice unknown_to w
     = (w, inl AttributeError)
  /\ chat_ws_frame Scenario.env_ok Scenario.alice Scenario.ws_alice not_object w
     = (w, inl AttributeError)
  /\ chat_ws_loop Scenario.alice Scenario.ws_alice
       [Receives Scenario.env_ok empty_to;
        Receives Scenario.env_ok (Scenario.chat_frame "bob" "hi")] w
     = (w, inl AttributeError)
  /\ trace (fst run)
     = [Accepted Scenario.ws_alice;
        Sent Scenario.ws_alice (SystemFrame "Connected as alice")]
  /\ lookup_connection "alice" (active_connections (fst run)) = None
  /\ snd run = inl AttributeError
  /\ chat_ws_frame Scenario.env_ok Scenario.alice Scenario.ws_alice
       (Scenario.chat_frame "" "5") w
     = (with_notice w Scenario.ws_alice "Both 'to' and 'text' fields are required.",
        inr tt).
Proof. split_and!; vm_compute; reflexivity. Qed.

(** C7.  A [chat] frame for a friend whose name has a connection in the
    registry, when the store takes the insert: one row is appended to
    the messages table, and after it two frames are sent, the chat frame
    with the sender's name and the trimmed text on the recipient's
    registered connection and then the same frame on the sender's own
    connection; the handler returns to the loop. *)
Theorem chat_frame_online_delivery env me ws data w to_username txt target target_ws :
  chat_fields data to_username txt ->
  to_username <> "" -> txt <> "" ->
  get_user_by_username (db w) to_username = Some target ->
  are_friends (db w) (me_id me) (u_id target) = true ->
  lookup_connection to_username (active_connections w) = Some target_ws ->
  is_Some (user_by_id (db w) (me_id me)) ->
  store_ok env = true ->
  let payload := ChatFrame (me_username me) txt in
  let m := new_text_message (db w) env me target txt in
  exists w',
    chat_ws_frame env me ws data w = (w', inr tt)
    /\ messages (db w') = messages (db w) ++ [m]
    /\ trace w' = trace w ++ [Appended m; Sent target_ws payload; Sent ws payload]
    /\ lookup_connection (u_username target) (active_connections w') = Some target_ws.
Proof.
  intros Hf Hto Htxt Htarget Hfriends Hon Hme Hok payload m.
  pose proof (frame_online env me ws data w _ _ _ _ Hf Hto Htxt Htarget Hfriends Hon Hme)
    as Heq.
  simpl in Heq. rewrite Hok in Heq. eexists. split; [exact Heq|]. simpl.
  split_and!; try done.
  by destruct (get_user_by_username_some _ _ _ Htarget) as [-> _].
Qed.

Lemma chat_frame_online_delivery_witness :
  chat_ws_frame Scenario.env_ok Scenario.alice Scenario.ws_alice
    (Scenario.chat_frame "bob" "hi") Scenario.world_both_online
  = (mkWorld
       (with_messages Scenario.db_accepted
          [mkMessage 1 1 2 text "hi" None "2024-05-01 09:10:00"])
       (active_connections Scenario.world_both_online)
       [Appended (mkMessage 1 1 2 text "hi" None "2024-05-01 09:10:00");
        Sent Scenario.ws_bob (ChatFrame "alice" "hi");
        Sent Scenario.ws_alice (ChatFrame "alice" "hi")],
     inr tt).
Proof.
  assert (chat_fields (Scenario.chat_frame "bob" "hi") "bob" "hi") as Hf.
  { by exists (JStr "chat"), (JStr "bob"), (JStr "hi"). }
  destruct (chat_frame_online_delivery Scenario.env_ok Scenario.alice Scenario.ws_alice
              (Scenario.chat_frame "bob" "hi") Scenario.world_both_online
              "bob" "hi" (mkUser 2 "bob" "sha256:pw2") Scenario.ws_bob
              Hf ltac:(discriminate) ltac:(discriminate) eq_refl eq_refl eq_refl
              (ex_intro _ (mkUser 1 "alice" "sha256:pw1") eq_refl) eq_refl)
    as (w' & Heq & _).
  assert (w' = fst (chat_ws_frame Scenario.env_ok Scenario.alice Scenario.ws_alice
                      (Scenario.chat_frame "bob" "hi") Scenario.world_both_online))
    as Hw' by (by rewrite Heq).
  rewrite Heq, Hw'. reflexivity.
Defined.

(** C2, at an input where the code departs from it.  alice writes to
    her friend bob, who has no connection: the offline notice is sent
    first and the row is appended after it; and when the store refuses
    the insert, the notice has already gone out. *)
Theorem chat_frame_offline_notice_precedes_append :
  chat_ws_frame Scenario.env_ok Scenario.alice Scenario.ws_alice
    (Scenario.chat_frame "bob" "hi") Scenario.world_bob_offline
  = (mkWorld
       (with_messages Scenario.db_accepted
          [mkMessage 1 1 2 text "hi" None "2024-05-01 09:10:00"])
       (active_connections Scenario.world_bob_offline)
       [Sent Scenario.ws_alice (SystemFrame "User 'bob' is currently offline.");
        Appended (mkMessage 1 1 2 text "hi" None "2024-05-01 09:10:00")],
     inr tt)
  /\ chat_ws_frame Scenario.env_store_down Scenario.alice Scenario.ws_alice
       (Scenario.chat_frame "bob" "hi") Scenario.world_bob_offline
     = (mkWorld Scenario.db_accepted
          (active_connections Scenario.world_bob_offline)
          [Sent Scenario.ws_alice (SystemFrame "User 'bob' is currently offline.")],
        inl OperationalError).
Proof. split; reflexivity. Qed.

Lemma frame_new_message env me ws data w m :
  In m (messages (db (fst (chat_ws_frame env me ws data w)))) ->
  ~ In m (messages (db w)) ->
  relayed_text w me m.
Proof.
  intros Hin Hnew.
  destruct (frame_effect env me ws data w) as (_ & _ & _ & [Hsame|Hadd]).
  { by rewrite Hsame in Hin. }
  destruct Hadd as (to_ & txt & target & Hf & Hto & Htxt & Htarget & Hfriends & Hm).
  rewrite Hm in Hin. apply in_app_or in Hin as [Hin | [<- | []]]; [done|].
  destruct (chat_fields_trimmed _ _ _ Hf) as [Hto' Htxt'].
  unfold relayed_text. simpl. split_and!; try done. by exists to_, target.
Qed.

Lemma relayed_text_same_tables w w' me m :
  users (db w') = users (db w) ->
  friend_requests (db w') = friend_requests (db w) ->
  relayed_text w' me m -> relayed_text w me m.
Proof.
  unfold relayed_text, get_user_by_username, are_friends. by intros -> ->.
Qed.

(** Over a whole run of the loop of one connection: every row added is
    such a text. *)
Lemma loop_new_messages me ws inbound : forall w m,
  In m (messages (db (fst (chat_ws_loop me ws (frames inbound) w)))) ->
  ~ In m (messages (db w)) ->
  relayed_text w me m.
Proof.
  induction inbound as [|[env data] rest IH]; intros w m Hin Hnew; [done|].
  simpl in Hin. unfold bind in Hin.
  pose proof (frame_effect env me ws data w) as (Hu & Hr & _ & _).
  pose proof (frame_new_message env me ws data w m) as Hframe.
  destruct (chat_ws_frame env me ws data w) as [w1 [e|[]]]; simpl in *; [auto|].
  destruct (In_dec (fun x y => decide (x = y)) m (messages (db w1))) as [Hold|Hfresh];
    [auto|].
  apply (relayed_text_same_tables w w1); auto.
Qed.



End relay_claims.

Section registry_claims.

(** C8.  Registering is an upsert and unregistering is conditional.
    After [c1] and then [c2] are registered under one name, with [c1]
    and [c2] two connections, the lookup gives [c2]; unregistering with
    [c1] changes nothing and leaves [c2]; unregistering with [c2] removes
    the entry; the three steps register [c1], register [c2], unregister
    [c1] leave the registry that registering [c2] alone leaves; and no
    name has two entries. *)
Theorem registry_newest_wins (ac : gmap string conn) (n : string) (c1 c2 : conn) :
  c1 <> c2 ->
  lookup_connection n (register_connection n c1 ac) = Some c1
  /\ lookup_connection n (register_connection n c2 (register_connection n c1 ac))
     = Some c2
  /\ unregister_connection n c1 (register_connection n c2 (register_connection n c1 ac))
     = register_connection n c2 (register_connection n c1 ac)
  /\ lookup_connection n
       (unregister_connection n c1
          (register_connection n c2 (register_connection n c1 ac)))
     = Some c2
  /\ lookup_connection n
       (unregister_connection n c2
          (register_connection n c2 (register_connection n c1 ac)))
     = None
  /\ unregister_connection n c1 (register_connection n c2 (register_connection n c1 ac))
     = register_connection n c2 ac
  /\ NoDup (map fst (map_to_list
                       (register_connection n c2 (register_connection n c1 ac)))).
Proof.
  intros Hne.
  assert (unregister_connection n c1
            (register_connection n c2 (register_connection n c1 ac))
          = register_connection n c2 (register_connection n c1 ac)) as Hstale.
  { apply (unregister_stale _ _ _ c2); [apply register_lookup | done]. }
  split_and!.
  - apply register_lookup.
  - apply register_lookup.
  - exact Hstale.
  - rewrite Hstale. apply register_lookup.
  - apply unregister_current, register_lookup.
  - rewrite Hstale. apply register_twice.
  - apply NoDup_fst_map_to_list.
Qed.

Lemma registry_newest_wins_witness :
  Scenario.ws_alice <> Scenario.ws_bob
  /\ lookup_connection "alice"
       (unregister_connection "alice" Scenario.ws_alice
          (register_connection "alice" Scenario.ws_bob
             (register_connection "alice" Scenario.ws_alice ∅)))
     = Some Scenario.ws_bob.
Proof.
  assert (Scenario.ws_alice <> Scenario.ws_bob) as Hne by discriminate.
  split; [exact Hne|].
  apply (registry_newest_wins ∅ "alice" Scenario.ws_alice Scenario.ws_bob Hne).
Defined.

End registry_claims.

Section upload_claims.

(** C10.  When [upload_file] returns, the [filename] of the notification
    and the body of the one row it appended, a row of kind [file], are
    both [original_name filename]: the basename of the name the upload
    carries, or of "file.bin" when it carries none; that basename itself
    when it has at most 100 characters and its last 100 characters
    otherwise; never more than 100 characters. *)
Theorem upload_file_stored_name env uuid_hex write_error token to_username filename
    w w' payload :
  upload_file env uuid_hex write_error token to_username filename w = (w', inr payload) ->
  (exists from url m,
     payload = FileFrame from (original_name filename) url
     /\ messages (db w') = messages (db w) ++ [m]
     /\ m_kind m = file
     /\ m_text m = original_name filename
     /\ m_url m = Some url)
  /\ String.length (original_name filename) <= 100
  /\ (String.length (Py.basename (or_file_bin filename)) <= 100 ->
      original_name filename = Py.basename (or_file_bin filename))
  /\ (100 < String.length (Py.basename (or_file_bin filename)) ->
      exists pre, Py.basename (or_file_bin filename)
                  = (pre ++ original_name filename)%string
                  /\ String.length (original_name filename) = 100)
  /\ (filename = None \/ filename = Some "" -> original_name filename = "file.bin").
Proof.
  intros H. split_and!.
  - unfold upload_file, get_current_user in H. run.
    destruct (get_user_by_token (db w) token) as [u|]; run; [|discriminate].
    destruct (get_user_by_username (db w) (Py.strip to_username)) as [target|];
      run; [|discriminate].
    destruct (negb (are_friends _ _ _)); run; [discriminate|].
    destruct write_error; run; [discriminate|].
    unfold call_db in H.
    pose proof (save_message_tables (store_ok env) (now env) (u_id u) (u_id target)
                  file (original_name filename)
                  (Some ("/files/" ++ uuid_hex ++ "_" ++ original_name filename)%string)
                  (db w)) as (_ & _ & Hm).
    destruct (save_message _ _ _ _ _ _ _ _) as [d' [e|row]] eqn:Hs; simpl in *;
      [discriminate|].
    destruct (store_ok env); [|discriminate].
    unfold send_json, log in H. run.
    destruct (lookup_connection (u_username target) (active_connections w)); run;
      destruct (lookup_connection (u_username u) (active_connections w)); run;
      injection H as <- <-; simpl; eexists _, _, _; (split_and!; [done | exact Hm | done..]).
  - apply original_name_length.
  - intros Hle. unfold original_name.
    apply Nat.ltb_ge in Hle. by rewrite Hle.
  - intros Hlt. unfold original_name.
    pose proof Hlt as Hlt'. apply Nat.ltb_lt in Hlt'. rewrite Hlt'.
    apply slice_last_suffix. lia.
  - apply original_name_default.
Qed.

Lemma upload_file_stored_name_witness :
  upload_file Scenario.env_ok "0123abcd" None "tok-alice" "bob"
    (Some "docs/notes.pdf") Scenario.world_both_online
  = (mkWorld
       (with_messages Scenario.db_accepted
          [mkMessage 1 1 2 file "notes.pdf" (Some "/files/0123abcd_notes.pdf")
             "2024-05-01 09:10:00"])
       (active_connections Scenario.world_both_online)
       [Appended (mkMessage 1 1 2 file "notes.pdf" (Some "/files/0123abcd_notes.pdf")
                    "2024-05-01 09:10:00");
        Sent Scenario.ws_bob (FileFrame "alice" "notes.pdf" "/files/0123abcd_notes.pdf");
        Sent Scenario.ws_alice (FileFrame "alice" "notes.pdf" "/files/0123abcd_notes.pdf")],
     inr (FileFrame "alice" "notes.pdf" "/files/0123abcd_notes.pdf"))
  /\ String.length (original_name (Some "docs/notes.pdf")) <= 100.
Proof.
  split; [reflexivity|].
  apply (upload_file_stored_name Scenario.env_ok "0123abcd" None "tok-alice" "bob"
           (Some "docs/notes.pdf") Scenario.world_both_online _ _ eq_refl).
Defined.

End upload_claims.

(** ** The parts of the history contract that the code keeps, and runs
    of the whole system *)

Section end_to_end.

(** [get_history] reads only: the world is left as it was, and for a
    limit that is not negative the answer has at most that many items. *)
Lemma get_history_reads token friend_username limit w w' items :
  get_history token friend_username limit w = (w', inr items) ->
  w' = w /\ ((0 <= limit)%Z -> length items <= Z.to_nat limit).
Proof.
  unfold get_history, get_current_user. run.
  destruct (get_user_by_token (db w) token) as [u|]; run; [|discriminate].
  destruct (get_user_by_username (db w) (Py.strip friend_username)) as [f|];
    run; [|discriminate].
  destruct (negb (are_friends _ _ _)); run; [discriminate|].
  unfold pure.
  destruct (get_conversation _ _ _ _) as [e|rows] eqn:Hrows; [discriminate|].
  intros [= <- <-]. split; [done|]. intros Hlimit.
  rewrite length_map, (get_conversation_length _ _ _ _ _ Hrows).
  by apply get_conversation_msgs_length.
Qed.

(** A negative limit is no limit: the whole conversation comes back. *)
Lemma get_history_negative_limit :
  snd (get_history "tok-alice" "bob" (-1) (mkWorld Scenario.db_chat ∅ []))
  = inr [mkMessageItem "alice" "bob" text "one" None "2024-05-01 09:03:00";
         mkMessageItem "bob" "alice" text "two" None "2024-05-01 09:04:00";
         mkMessageItem "alice" "bob" text "three" None "2024-05-01 09:05:00"].
Proof. vm_compute. reflexivity. Qed.

(** A [chat] frame whose [text] is a number: [strip] does not exist on
    it, the handler raises, and nothing is sent or stored. *)
Lemma frame_field_not_string :
  chat_ws_frame Scenario.env_ok Scenario.alice Scenario.ws_alice
    (JObject [("type", JStr "chat"); ("to", JStr "bob"); ("text", JInt 5)])
    Scenario.world_both_online
  = (Scenario.world_both_online, inl AttributeError).
Proof. reflexivity. Qed.

(** alice and bob are friends and both connected; alice sends "hi" to
    bob.  Both connections get the same chat frame, and the history of
    the pair then holds that one text. *)
Lemma scenario_chat_then_history :
  let w := fst (chat_ws_frame Scenario.env_ok Scenario.alice Scenario.ws_alice
                  (Scenario.chat_frame "bob" "hi") Scenario.world_both_online) in
  trace w = [Appended (mkMessage 1 1 2 text "hi" None "2024-05-01 09:10:00");
             Sent Scenario.ws_bob (ChatFrame "alice" "hi");
             Sent Scenario.ws_alice (ChatFrame "alice" "hi")]
  /\ snd (get_history "tok-bob" "alice" 100 w)
     = inr [mkMessageItem "alice" "bob" text "hi" None "2024-05-01 09:10:00"].
Proof. split; vm_compute; reflexivity. Qed.

(** A connection without a token is closed with 4401 before anything is
    registered. *)
Lemma chat_ws_no_token websocket inbound w :
  chat_ws websocket None inbound w
  = (mkWorld (db w) (active_connections w)
       (trace w ++ [Accepted websocket; Closed websocket 4401]), inr tt).
Proof.
  unfold chat_ws, log. run. by rewrite <- app_assoc.
Qed.

(** A whole connection of alice while bob is away: she is registered,
    greeted, told that bob is offline, her text is stored, and when she
    leaves her entry is removed. *)
Lemma scenario_connection :
  let w := fst (chat_ws Scenario.ws_alice (Some "tok-alice")
                  [Receives Scenario.env_ok (Scenario.chat_frame "bob" "hi")]
                  (mkWorld Scenario.db_accepted ∅ [])) in
  trace w = [Accepted Scenario.ws_alice;
             Sent Scenario.ws_alice (SystemFrame "Connected as alice");
             Sent Scenario.ws_alice (SystemFrame "User 'bob' is currently offline.");
             Appended (mkMessage 1 1 2 text "hi" None "2024-05-01 09:10:00")]
  /\ lookup_connection "alice" (active_connections w) = None.
Proof. split; vm_compute; reflexivity. Qed.

End end_to_end.

(** * Further properties of the store *)

Section step_effects.
Implicit Types (d : DB).

Lemma find_snoc {A} (f : A -> bool) (l : list A) (x : A) :
  find f (l ++ [x])
  = match find f l with
    | Some y => Some y
    | None => if f x then Some x else None
    end.
Proof.
  induction l as [|y l IH]; simpl; [done|]. by destruct (f y).
Qed.

Lemma create_user_taken sha username password d u0 :
  get_user_by_username d username = Some u0 ->
  create_user sha username password d = (d, inl (ValueError "Username already taken")).
Proof. intros H. unfold create_user. run. by rewrite H. Qed.

Lemma create_user_free sha username password d :
  get_user_by_username d username = None ->
  let u := mkUser (next_id (map u_id (users d))) username (sha password) in
  create_user sha username password d = (with_users d (users d ++ [u]), inr u).
Proof.
  intros H u. unfold create_user. run. rewrite H. run. fold u.
  unfold user_by_id. simpl. rewrite (find_app_fresh _ _ u); [done | | apply Z.eqb_refl].
  intros y Hy. apply Z.eqb_neq.
  pose proof (next_id_gt (map u_id (users d)) (u_id y) (in_map _ _ _ Hy)).
  simpl. lia.
Qed.

Lemma create_user_effect sha username password d :
  fst (create_user sha username password d) = d
  \/ (get_user_by_username d username = None
      /\ fst (create_user sha username password d)
         = with_users d (users d ++ [mkUser (next_id (map u_id (users d)))
                                       username (sha password)])).
Proof.
  destruct (get_user_by_username d username) as [u0|] eqn:H.
  - left. by rewrite (create_user_taken _ _ _ _ u0).
  - right. by rewrite create_user_free.
Qed.

Lemma create_session_effect now token uid d :
  fst (create_session now token uid d) = d
  \/ (existsb (fun s => String.eqb (s_token s) token) (sessions d) = false
      /\ fst (create_session now token uid d)
         = with_sessions d (sessions d ++ [mkSession token uid now])).
Proof.
  unfold create_session. run.
  destruct (existsb _ (sessions d)); [by left | by right].
Qed.

Lemma create_friend_request_effect now a bname d :
  fst (create_friend_request now a bname d) = d
  \/ exists b,
       get_user_by_username d bname = Some b /\ u_id b <> a
       /\ find (between a (u_id b)) (friend_requests d) = None
       /\ fst (create_friend_request now a bname d)
          = with_friend_requests d
              (friend_requests d
               ++ [mkFriendRequest (next_id (map fr_id (friend_requests d))) a (u_id b)
                     pending now None]).
Proof.
  unfold create_friend_request. run.
  destruct (get_user_by_username d bname) as [b|] eqn:Hb; [|by left].
  destruct (u_id b =? a)%Z eqn:Hne; [by left|].
  destruct (find (between a (u_id b)) (friend_requests d)) eqn:Hfind; [by left|].
  destruct (existsb _ _); [by left|].
  right. exists b. apply Z.eqb_neq in Hne. split_and!; try done. run.
  by destruct (select_request_row _ _).
Qed.

Lemma respond_effect now rid uid acc d :
  fst (respond_to_friend_request now rid uid acc d) = d
  \/ exists r,
       request_by_id d rid = Some r /\ fr_to_user_id r = uid /\ fr_status r = pending
       /\ fst (respond_to_friend_request now rid uid acc d)
          = with_friend_requests d
              (update_status now (new_status acc) rid (friend_requests d)).
Proof.
  destruct (fits_int64 rid) eqn:Hfit.
  2: { left. by rewrite respond_overflow. }
  destruct (request_by_id d rid) as [r|] eqn:Hr.
  2: { left. by rewrite respond_not_found. }
  destruct (decide (fr_to_user_id r = uid)) as [Hto|Hto].
  2: { left. by rewrite (respond_forbidden _ _ _ _ _ r). }
  destruct (decide (fr_status r = pending)) as [Hst|Hst].
  2: { left. by rewrite (respond_not_pending _ _ _ _ _ r). }
  right. exists r. split_and!; try done.
  by destruct (respond_pending now rid uid acc d r Hfit Hr Hto Hst) as [_ ->].
Qed.

Lemma save_message_effect ok now a b k txt url d :
  fst (save_message ok now a b k txt url d) = d
  \/ fst (save_message ok now a b k txt url d)
     = with_messages d
         (messages d ++ [mkMessage (next_id (map m_id (messages d))) a b k txt url now]).
Proof.
  unfold save_message. destruct ok; [|by left]. right. run.
  repeat case_match; done.
Qed.

Lemma reachable_step d d' : reachable d -> db_step d d' -> reachable d'.
Proof. intros Hd Hstep. destruct Hstep; by constructor. Qed.

(** A property of the fresh store that every step keeps holds of every
    reachable store. *)
Lemma reachable_ind_step (P : DB -> Prop) :
  P init_db -> (forall d d', P d -> db_step d d' -> P d') ->
  forall d, reachable d -> P d.
Proof.
  intros Hinit Hstep d Hd. induction Hd; [done|..];
    (eapply Hstep; [eassumption | constructor]).
Qed.

End step_effects.

Section store_invariants.
Implicit Types (d : DB) (r : friend_request).

Lemma NoDup_map_snoc {A B} (f : A -> B) (l : list A) (x : A) :
  NoDup (map f l) -> ~ In (f x) (map f l) -> NoDup (map f (l ++ [x])).
Proof.
  intros Hl Hx. rewrite map_app. apply NoDup_app. split_and!; [done | |].
  - intros y Hy [<- | []]%list_elem_of_In. by apply list_elem_of_In in Hy.
  - apply NoDup_singleton.
Qed.

Lemma next_id_fresh (ids : list Z) : ~ In (next_id ids) ids.
Proof. intros H%next_id_gt. lia. Qed.

Lemma update_status_ids now st rid rs :
  map fr_id (update_status now st rid rs) = map fr_id rs.
Proof.
  unfold update_status. rewrite map_map. apply map_ext.
  intros r. by destruct (fr_id r =? rid)%Z.
Qed.

Lemma username_free d name :
  get_user_by_username d name = None -> ~ In name (map u_username (users d)).
Proof.
  intros Hnone (u & <- & Hu)%in_map_iff.
  pose proof (find_none _ _ Hnone u Hu) as Hf. simpl in Hf.
  by rewrite String.eqb_refl in Hf.
Qed.

Lemma token_free d token :
  existsb (fun s => String.eqb (s_token s) token) (sessions d) = false ->
  ~ In token (map s_token (sessions d)).
Proof.
  intros Hnone (s & <- & Hs)%in_map_iff.
  assert (existsb (fun s0 => String.eqb (s_token s0) (s_token s)) (sessions d) = true)
    as Hex by (apply existsb_exists; exists s; by rewrite String.eqb_refl).
  congruence.
Qed.

Lemma keys_unique_step d d' : keys_unique d -> db_step d d' -> keys_unique d'.
Proof.
  intros (Hu & Hn & Hr & Hm & Hs) Hstep. unfold keys_unique.
  destruct Hstep as [d sha name pw|d now tok uid|d now a bname|d now rid uid acc
                     |d ok now a b k txt url].
  - destruct (create_user_effect sha name pw d) as [-> | [Hfree ->]]; [done|].
    simpl. split_and!; try done.
    + apply NoDup_map_snoc; [done | apply next_id_fresh].
    + apply NoDup_map_snoc; [done | by apply username_free].
  - destruct (create_session_effect now tok uid d) as [-> | [Hfree ->]]; [done|].
    simpl. split_and!; try done.
    apply NoDup_map_snoc; [done | by apply token_free].
  - destruct (create_friend_request_effect now a bname d)
      as [-> | (b & _ & _ & _ & ->)]; [done|].
    simpl. split_and!; try done.
    apply NoDup_map_snoc; [done | apply next_id_fresh].
  - destruct (respond_effect now rid uid acc d) as [-> | (r & _ & _ & _ & ->)]; [done|].
    simpl. split_and!; try done. by rewrite update_status_ids.
  - destruct (save_message_effect ok now a b k txt url d) as [-> | ->]; [done|].
    simpl. split_and!; try done.
    apply NoDup_map_snoc; [done | apply next_id_fresh].
Qed.

Lemma keys_unique_init : keys_unique init_db.
Proof. unfold keys_unique. simpl. split_and!; apply NoDup_nil_2. Qed.

Lemma reachable_keys d : reachable d -> keys_unique d.
Proof.
  induction 1; [apply keys_unique_init|..];
    (eapply keys_unique_step; [eassumption | constructor]).
Qed.

(** X2.  In every store reachable from a fresh database, user ids, user
    names, request ids, message ids and session tokens are each without
    repetition. *)
Theorem reachable_keys_unique d : reachable d -> keys_unique d.
Proof.
  apply reachable_ind_step.
  - apply keys_unique_init.
  - apply keys_unique_step.
Qed.

Lemma reachable_keys_unique_witness : keys_unique Scenario.db_pending.
Proof. exact (reachable_keys_unique _ scenario_pending_reachable). Defined.

Lemma well_formed_step d d' :
  (forall r, In r (friend_requests d) -> request_well_formed r) ->
  db_step d d' ->
  forall r, In r (friend_requests d') -> request_well_formed r.
Proof.
  intros Hwf Hstep.
  destruct Hstep as [d sha name pw|d now tok uid|d now a bname|d now rid uid acc
                     |d ok now a b k txt url].
  - by rewrite create_user_table.
  - by rewrite create_session_table.
  - destruct (create_friend_request_effect now a bname d)
      as [-> | (b & _ & Hne & _ & ->)]; [done|].
    simpl. intros r [Hr | [<- | []]]%in_app_or; [auto|].
    unfold request_well_formed. simpl. split; [congruence | done].
  - destruct (respond_effect now rid uid acc d) as [-> | (r0 & _ & _ & _ & ->)]; [done|].
    simpl. unfold update_status. intros r (x & <- & Hx)%in_map_iff.
    destruct (Hwf x Hx) as [Hne Hiff].
    destruct (fr_id x =? rid)%Z; [|done].
    unfold request_well_formed. simpl. split; [done|].
    by destruct acc.
  - by rewrite save_message_table.
Qed.

(** X7.  In every reachable store each friend request joins two
    different users, and it has a responded time exactly when it is no
    longer pending. *)
Theorem reachable_requests_well_formed d r :
  reachable d -> In r (friend_requests d) -> request_well_formed r.
Proof.
  intros Hd. revert r. revert d Hd. apply (reachable_ind_step
    (fun d => forall r, In r (friend_requests d) -> request_well_formed r)).
  - intros r [].
  - apply well_formed_step.
Qed.

Lemma reachable_requests_well_formed_witness :
  request_well_formed (mkFriendRequest 1 1 2 pending "2024-05-01 09:01:00" None).
Proof.
  apply (reachable_requests_well_formed Scenario.db_pending _
           scenario_pending_reachable).
  left. reflexivity.
Defined.

End store_invariants.

Section accounts.
Implicit Types (d : DB).

(** X1.  [create_user] on a name that is taken raises "Username already
    taken" and writes nothing; on a free name it appends one user with a
    fresh id and the hash of the password, after which the name and the
    id both resolve to that user and every name that resolved before
    resolves to the same user as before. *)
Theorem create_user_then_lookup sha username password d :
  (forall u0, get_user_by_username d username = Some u0 ->
     create_user sha username password d
     = (d, inl (ValueError "Username already taken")))
  /\ (get_user_by_username d username = None ->
      exists u,
        create_user sha username password d
        = (with_users d (users d ++ [u]), inr u)
        /\ u_username u = username
        /\ u_password_hash u = sha password
        /\ ~ In (u_id u) (map u_id (users d))
        /\ get_user_by_username (with_users d (users d ++ [u])) username = Some u
        /\ user_by_id (with_users d (users d ++ [u])) (u_id u) = Some u
        /\ forall n u1, get_user_by_username d n = Some u1 ->
             get_user_by_username (with_users d (users d ++ [u])) n = Some u1).
Proof.
  split; [intros u0; apply create_user_taken|].
  intros Hfree.
  exists (mkUser (next_id (map u_id (users d))) username (sha password)).
  split_and!; try done.
  - by apply create_user_free.
  - apply next_id_fresh.
  - unfold get_user_by_username in *. simpl. rewrite find_snoc, Hfree. simpl.
    by rewrite String.eqb_refl.
  - unfold user_by_id. simpl. rewrite find_snoc.
    destruct (find _ (users d)) as [y|] eqn:Hy; [|simpl; by rewrite Z.eqb_refl].
    apply find_some in Hy as [Hin Hid]. apply Z.eqb_eq in Hid.
    destruct (next_id_fresh (map u_id (users d))). rewrite <- Hid. by apply in_map.
  - intros n u1 Hn. unfold get_user_by_username in *. simpl.
    by rewrite find_snoc, Hn.
Qed.

Lemma create_user_then_lookup_witness :
  get_user_by_username Scenario.db_users "dave" = None
  /\ (exists u, snd (create_user Scenario.sha "dave" "pw4" Scenario.db_users) = inr u
                 /\ u_username u = "dave"
                 /\ get_user_by_username
                      (fst (create_user Scenario.sha "dave" "pw4" Scenario.db_users))
                      "dave" = Some u)
  /\ snd (create_user Scenario.sha "bob" "other" Scenario.db_users)
     = inl (ValueError "Username already taken").
Proof.
  destruct (create_user_then_lookup Scenario.sha "dave" "pw4" Scenario.db_users)
    as [_ Hfree].
  destruct (create_user_then_lookup Scenario.sha "bob" "other" Scenario.db_users)
    as [Htaken _].
  destruct (Hfree eq_refl) as (u & Hcall & Hname & _ & _ & Hlookup & _).
  split_and!; [reflexivity | exists u; by rewrite Hcall |].
  by rewrite (Htaken (mkUser 2 "bob" "sha256:pw2") eq_refl).
Defined.

Lemma token_known d token :
  existsb (fun s => String.eqb (s_token s) token) (sessions d) = true
  <-> In token (map s_token (sessions d)).
Proof.
  rewrite existsb_exists, in_map_iff. split.
  - intros (s & Hs & <-%String.eqb_eq). eauto.
  - intros (s & <- & Hs). exists s. by rewrite String.eqb_refl.
Qed.

(** X3.  [create_session] with a token the table already holds raises
    and writes nothing; with a fresh token it returns the token, after
    which the token resolves to the user of the given id and every other
    token resolves as before. *)
Theorem create_session_then_token now token uid d :
  (In token (map s_token (sessions d)) ->
   create_session now token uid d = (d, inl IntegrityError))
  /\ (~ In token (map s_token (sessions d)) ->
      exists d',
        create_session now token uid d = (d', inr token)
        /\ get_user_by_token d' token = user_by_id d uid
        /\ forall t, t <> token -> get_user_by_token d' t = get_user_by_token d t).
Proof.
  split.
  - intros Hin%token_known. unfold create_session. run. by rewrite Hin.
  - intros Hfresh.
    assert (existsb (fun s => String.eqb (s_token s) token) (sessions d) = false)
      as Hex.
    { apply not_true_is_false. by rewrite token_known. }
    exists (with_sessions d (sessions d ++ [mkSession token uid now])).
    split_and!.
    + unfold create_session. run. by rewrite Hex.
    + unfold get_user_by_token. simpl. rewrite find_snoc.
      destruct (find _ (sessions d)) as [s|] eqn:Hs.
      * apply find_some in Hs as [Hin Heq]. simpl in Heq.
        apply String.eqb_eq in Heq. destruct Hfresh. rewrite <- Heq. by apply in_map.
      * simpl. by rewrite String.eqb_refl.
    + intros t Hne. unfold get_user_by_token. simpl. rewrite find_snoc.
      destruct (find _ (sessions d)) as [s|]; [done|]. simpl.
      apply String.eqb_neq in Hne. rewrite String.eqb_sym in Hne. by rewrite Hne.
Qed.

Lemma create_session_then_token_witness :
  create_session "2024-05-01 09:20:00" "tok-alice" 2 Scenario.db_users
  = (Scenario.db_users, inl IntegrityError)
  /\ get_user_by_token
       (fst (create_session "2024-05-01 09:20:00" "tok-new" 2 Scenario.db_users))
       "tok-new"
     = Some (mkUser 2 "bob" "sha256:pw2").
Proof.
  destruct (create_session_then_token "2024-05-01 09:20:00" "tok-alice" 2
              Scenario.db_users) as [Hdup _].
  destruct (create_session_then_token "2024-05-01 09:20:00" "tok-new" 2
              Scenario.db_users) as [_ Hfresh].
  split.
  - apply Hdup. left. reflexivity.
  - destruct Hfresh as (d' & Hcall & Htok & _).
    + simpl. intros [H|[H|[H|[]]]]; discriminate H.
    + rewrite Hcall. simpl. rewrite Htok. reflexivity.
Defined.

End accounts.

Section permanence.
Implicit Types (d : DB) (r : friend_request).

Lemma NoDup_map_inj {A B} (f : A -> B) (l : list A) x y :
  NoDup (map f l) -> In x l -> In y l -> f x = f y -> x = y.
Proof.
  induction l as [|z l IH]; simpl; [done|].
  intros [Hz Hl]%NoDup_cons [-> | Hx] [-> | Hy] Heq; try done.
  - destruct Hz. rewrite Heq. apply list_elem_of_In. by apply in_map.
  - destruct Hz. rewrite <- Heq. apply list_elem_of_In. by apply in_map.
  - by apply IH.
Qed.

Lemma resolved_kept d d' r :
  keys_unique d -> db_step d d' ->
  In r (friend_requests d) -> fr_status r <> pending ->
  In r (friend_requests d').
Proof.
  intros (_ & _ & Hids & _) Hstep Hin Hst.
  destruct Hstep as [d sha name pw|d now tok uid|d now a bname|d now rid uid acc
                     |d ok now a b k txt url].
  - by rewrite create_user_table.
  - by rewrite create_session_table.
  - destruct (create_friend_request_effect now a bname d)
      as [-> | (b & _ & _ & _ & ->)]; [done|].
    simpl. apply in_or_app. by left.
  - destruct (respond_effect now rid uid acc d)
      as [-> | (r0 & Hr0 & _ & Hpending & ->)]; [done|].
    simpl. unfold update_status. apply in_map_iff. exists r. split; [|done].
    destruct (fr_id r =? rid)%Z eqn:Hid; [|done].
    apply Z.eqb_eq in Hid. apply find_some in Hr0 as [Hin0 Hid0].
    apply Z.eqb_eq in Hid0.
    assert (r = r0) as -> by (apply (NoDup_map_inj fr_id _ _ _ Hids); congruence).
    done.
  - by rewrite save_message_table.
Qed.

Lemma reachable_steps d d' : reachable d -> rtc db_step d d' -> reachable d'.
Proof. intros Hd Hsteps. induction Hsteps; eauto using reachable_step. Qed.

(** X8.  Whatever calls follow, on a reachable store a request that has
    been accepted or rejected stays in the table exactly as it is, and
    two users who are friends stay friends. *)
Theorem resolved_requests_are_final d d' :
  reachable d -> rtc db_step d d' ->
  (forall r, In r (friend_requests d) -> fr_status r <> pending ->
             In r (friend_requests d'))
  /\ (forall a b, are_friends d a b = true -> are_friends d' a b = true).
Proof.
  intros Hd Hsteps.
  assert (forall r, In r (friend_requests d) -> fr_status r <> pending ->
                    In r (friend_requests d')) as Hkept.
  { induction Hsteps as [d|d d1 d2 Hstep Hsteps IH]; [done|].
    intros r Hin Hst. apply IH; [by eapply reachable_step|..]; [|done].
    apply (resolved_kept d d1); auto using reachable_keys. }
  split; [done|].
  intros a b (r & Hin & Hst & Hdir)%are_friends_spec.
  apply are_friends_spec. exists r. split_and!; try done.
  apply Hkept; [done | congruence].
Qed.

End permanence.

Section append_only.
Implicit Types (d : DB) (r : friend_request).

Lemma resolved_requests_are_final_witness :
  In (mkFriendRequest 1 1 2 accepted "2024-05-01 09:01:00" (Some "2024-05-01 09:02:00"))
    (friend_requests Scenario.db_chat)
  /\ are_friends Scenario.db_chat 2 1 = true.
Proof.
  assert (reachable Scenario.db_accepted) as Hreach.
  { exact (reach_respond _ "2024-05-01 09:02:00" 1 2 true scenario_pending_reachable). }
  assert (rtc db_step Scenario.db_accepted Scenario.db_chat) as Hsteps.
  { eapply rtc_l;
      [exact (step_save_message _ true "2024-05-01 09:03:00" 1 2 text "one" None)|].
    eapply rtc_l;
      [exact (step_save_message _ true "2024-05-01 09:04:00" 2 1 text "two" None)|].
    exact (rtc_once _ _
             (step_save_message _ true "2024-05-01 09:05:00" 1 2 text "three" None)). }
  destruct (resolved_requests_are_final _ _ Hreach Hsteps) as [Hkept Hfriends].
  split.
  - apply Hkept; [left; reflexivity | discriminate].
  - apply Hfriends. reflexivity.
Defined.

Lemma append_only_refl d :
  users d `prefix_of` users d /\ sessions d `prefix_of` sessions d
  /\ messages d `prefix_of` messages d
  /\ forall i r, friend_requests d !! i = Some r ->
       exists r', friend_requests d !! i = Some r' /\ same_request r r'.
Proof. split_and!; try done. intros i r Hi. by exists r. Qed.

Lemma append_only_step d d' :
  db_step d d' ->
  users d `prefix_of` users d' /\ sessions d `prefix_of` sessions d'
  /\ messages d `prefix_of` messages d'
  /\ forall i r, friend_requests d !! i = Some r ->
       exists r', friend_requests d' !! i = Some r' /\ same_request r r'.
Proof.
  intros Hstep. pose proof (append_only_refl d) as (Hu & Hs & Hm & Hr).
  destruct Hstep as [d sha name pw|d now tok uid|d now a bname|d now rid uid acc
                     |d ok now a b k txt url].
  - destruct (create_user_effect sha name pw d) as [-> | [_ ->]];
      [by apply append_only_refl|].
    simpl. split_and!; try done. by apply prefix_app_r.
  - destruct (create_session_effect now tok uid d) as [-> | [_ ->]];
      [by apply append_only_refl|].
    simpl. split_and!; try done. by apply prefix_app_r.
  - destruct (create_friend_request_effect now a bname d)
      as [-> | (b & _ & _ & _ & ->)]; [by apply append_only_refl|].
    simpl. split_and!; try done. intros i r Hi. exists r. split; [|done].
    by apply lookup_app_l_Some.
  - destruct (respond_effect now rid uid acc d) as [-> | (r0 & _ & _ & _ & ->)];
      [by apply append_only_refl|].
    simpl. split_and!; try done. intros i r Hi. unfold update_status.
    rewrite list_lookup_fmap, Hi. simpl. eexists. split; [done|].
    by destruct (fr_id r =? rid)%Z.
  - destruct (save_message_effect ok now a b k txt url d) as [-> | ->];
      [by apply append_only_refl|].
    simpl. split_and!; try done. by apply prefix_app_r.
Qed.

(** X10.  Across any sequence of calls the users, sessions and messages
    tables only grow at the end: what they held is still there, in
    place and unchanged; and every request keeps its position, its id,
    its two users and its creation time. *)
Theorem store_is_append_only d d' :
  rtc db_step d d' ->
  users d `prefix_of` users d' /\ sessions d `prefix_of` sessions d'
  /\ messages d `prefix_of` messages d'
  /\ forall i r, friend_requests d !! i = Some r ->
       exists r', friend_requests d' !! i = Some r' /\ same_request r r'.
Proof.
  induction 1 as [d|d d1 d2 Hstep _ (IHu & IHs & IHm & IHr)].
  - apply append_only_refl.
  - destruct (append_only_step _ _ Hstep) as (Hu & Hs & Hm & Hr).
    split_and!; try (by etrans).
    intros i r Hi. destruct (Hr i r Hi) as (r1 & Hi1 & Hsame1).
    destruct (IHr i r1 Hi1) as (r2 & Hi2 & Hsame2).
    exists r2. split; [done|]. unfold same_request in *. intuition congruence.
Qed.

Lemma store_is_append_only_witness :
  messages Scenario.db_accepted `prefix_of` messages Scenario.db_chat
  /\ users Scenario.db_pending `prefix_of` users Scenario.db_accepted.
Proof.
  split.
  - apply (store_is_append_only Scenario.db_accepted Scenario.db_chat).
    eapply rtc_l;
      [exact (step_save_message _ true "2024-05-01 09:03:00" 1 2 text "one" None)|].
    eapply rtc_l;
      [exact (step_save_message _ true "2024-05-01 09:04:00" 2 1 text "two" None)|].
    exact (rtc_once _ _
             (step_save_message _ true "2024-05-01 09:05:00" 1 2 text "three" None)).
  - apply (store_is_append_only Scenario.db_pending Scenario.db_accepted).
    exact (rtc_once _ _ (step_respond _ "2024-05-01 09:02:00" 1 2 true)).
Defined.

End append_only.

Section new_requests.
Implicit Types (d : DB) (r : friend_request).

Lemma find_none_all {A} (f : A -> bool) (l : list A) :
  (forall x, In x l -> f x = false) -> find f l = None.
Proof.
  induction l as [|y l IH]; simpl; [done|].
  intros H. rewrite (H y) by auto. apply IH. auto.
Qed.

(** With distinct ids, the user a name resolves to is the user its id
    resolves to. *)
Lemma user_by_id_of_name d name u :
  keys_unique d -> get_user_by_username d name = Some u ->
  user_by_id d (u_id u) = Some u.
Proof.
  intros (Hids & _) Hname. apply find_some in Hname as [Hin _].
  destruct (find_is_Some (fun x => (u_id x =? u_id u)%Z) _ u Hin (Z.eqb_refl _))
    as [y Hy].
  unfold user_by_id. rewrite Hy. f_equal.
  apply find_some in Hy as [Hiny Hid]. apply Z.eqb_eq in Hid.
  by apply (NoDup_map_inj u_id (users d)).
Qed.

Lemma user_by_id_id d id u : user_by_id d id = Some u -> u_id u = id.
Proof. intros [_ H]%find_some. by apply Z.eqb_eq. Qed.

(** The path of [create_friend_request] that inserts. *)
Lemma create_friend_request_insert now a bname d b :
  get_user_by_username d bname = Some b -> u_id b <> a ->
  (forall r, In r (friend_requests d) -> between a (u_id b) r = false) ->
  let row := mkFriendRequest (next_id (map fr_id (friend_requests d))) a (u_id b)
               pending now None in
  let d' := with_friend_requests d (friend_requests d ++ [row]) in
  request_by_id d' (fr_id row) = Some row
  /\ create_friend_request now a bname d
     = (d', match user_by_id d a, user_by_id d (u_id b) with
            | Some u_from, Some u_to =>
                inr (mkRequestRow (fr_id row) pending (u_username u_from)
                       (u_username u_to))
            | _, _ => inl TypeError
            end).
Proof.
  intros Hb Hne Hnone row d'.
  assert (request_by_id d' (fr_id row) = Some row) as Hrow.
  { unfold request_by_id. simpl. apply find_app_fresh; [|apply Z.eqb_refl].
    intros y Hy. apply Z.eqb_neq.
    pose proof (next_id_gt (map fr_id (friend_requests d)) (fr_id y) (in_map _ _ _ Hy)).
    simpl. lia. }
  split; [done|].
  unfold create_friend_request. run. rewrite Hb.
  apply Z.eqb_neq in Hne. rewrite Hne, (find_none_all _ _ Hnone).
  assert (existsb (fun r => (fr_from_user_id r =? a)%Z && (fr_to_user_id r =? u_id b)%Z)
            (friend_requests d) = false) as ->.
  { apply not_true_is_false. intros (r & Hr & Hpair)%existsb_exists.
    specialize (Hnone r Hr). unfold between in Hnone. by rewrite Hpair in Hnone. }
  run. fold row. fold d'. unfold select_request_row. rewrite Hrow. simpl.
  change (user_by_id d' ?x) with (user_by_id d x).
  by destruct (user_by_id d a), (user_by_id d (u_id b)).
Qed.

(** What a call that returned a row has done. *)
Lemma create_friend_request_success_inv now a bname d d' out :
  create_friend_request now a bname d = (d', inr out) ->
  exists b u_from u_to,
    get_user_by_username d bname = Some b /\ u_id b <> a
    /\ (forall r, In r (friend_requests d) -> between a (u_id b) r = false)
    /\ user_by_id d a = Some u_from /\ user_by_id d (u_id b) = Some u_to
    /\ d' = with_friend_requests d
              (friend_requests d
               ++ [mkFriendRequest (next_id (map fr_id (friend_requests d))) a (u_id b)
                     pending now None])
    /\ out = mkRequestRow (next_id (map fr_id (friend_requests d))) pending
               (u_username u_from) (u_username u_to).
Proof.
  intros H.
  destruct (get_user_by_username d bname) as [b|] eqn:Hb.
  2: { unfold create_friend_request in H. run. by rewrite Hb in H. }
  destruct (decide (u_id b = a)) as [Heq|Hne].
  { unfold create_friend_request in H. run. rewrite Hb in H.
    apply Z.eqb_eq in Heq. by rewrite Heq in H. }
  destruct (find (between a (u_id b)) (friend_requests d)) as [r0|] eqn:Hfind.
  { by rewrite (create_friend_request_existing _ _ _ _ b r0) in H. }
  pose proof (find_none _ _ Hfind) as Hnone.
  destruct (create_friend_request_insert now a bname d b Hb Hne Hnone) as [_ Hcall].
  rewrite Hcall in H.
  destruct (user_by_id d a) as [u_from|] eqn:Hfrom; [|congruence].
  destruct (user_by_id d (u_id b)) as [u_to|] eqn:Hto; [|congruence].
  injection H as <- <-. by exists b, u_from, u_to.
Qed.

(** X6.  [create_friend_request] raises "Target user does not exist"
    for a name no user has and "Cannot add yourself as a friend" when
    the name is the caller's own, writing nothing in both cases.  On a
    reachable store, for a caller who is a user, a target who is another
    user and no request between the two, it appends one pending request
    with a fresh id and no responded time, returns it with the two
    names, and leaves the two users not yet friends. *)
Theorem create_friend_request_new d now a bname :
  (get_user_by_username d bname = None ->
   create_friend_request now a bname d
   = (d, inl (ValueError "Target user does not exist")))
  /\ (forall b, get_user_by_username d bname = Some b -> u_id b = a ->
      create_friend_request now a bname d
      = (d, inl (ValueError "Cannot add yourself as a friend")))
  /\ (forall b ua,
        reachable d ->
        get_user_by_username d bname = Some b -> u_id b <> a ->
        user_by_id d a = Some ua ->
        (forall r, In r (friend_requests d) -> between a (u_id b) r = false) ->
        exists rid d',
          create_friend_request now a bname d
          = (d', inr (mkRequestRow rid pending (u_username ua) bname))
          /\ ~ In rid (map fr_id (friend_requests d))
          /\ friend_requests d'
             = friend_requests d ++ [mkFriendRequest rid a (u_id b) pending now None]
          /\ users d' = users d /\ messages d' = messages d
          /\ request_by_id d' rid = Some (mkFriendRequest rid a (u_id b) pending now None)
          /\ are_friends d' a (u_id b) = false).
Proof.
  split_and!.
  - intros Hb. unfold create_friend_request. run. by rewrite Hb.
  - intros b Hb Heq. unfold create_friend_request. run. rewrite Hb.
    apply Z.eqb_eq in Heq. by rewrite Heq.
  - intros b ua Hreach Hb Hne Hua Hnone.
    destruct (create_friend_request_insert now a bname d b Hb Hne Hnone) as [Hrow Hcall].
    rewrite Hua, (user_by_id_of_name d bname b) in Hcall
      by auto using reachable_keys.
    destruct (get_user_by_username_some _ _ _ Hb) as [Hname _]. rewrite Hname in Hcall.
    eexists _, _. split; [exact Hcall|]. split_and!; try done.
    + apply next_id_fresh.
    + apply are_friends_not_accepted. simpl.
      intros r [Hr | [<- | []]]%in_app_or Hbetween; [|by left].
      by rewrite (Hnone r Hr) in Hbetween.
Qed.

Lemma create_friend_request_new_witness :
  (exists rid d',
     create_friend_request "2024-05-01 09:30:00" 1 "carol" Scenario.db_accepted
     = (d', inr (mkRequestRow rid pending "alice" "carol"))
     /\ are_friends d' 1 3 = false)
  /\ create_friend_request "2024-05-01 09:30:00" 1 "alice" Scenario.db_accepted
     = (Scenario.db_accepted, inl (ValueError "Cannot add yourself as a friend"))
  /\ create_friend_request "2024-05-01 09:30:00" 1 "zoe" Scenario.db_accepted
     = (Scenario.db_accepted, inl (ValueError "Target user does not exist")).
Proof.
  destruct (create_friend_request_new Scenario.db_accepted "2024-05-01 09:30:00" 1 "carol")
    as (_ & _ & Hnew).
  destruct (create_friend_request_new Scenario.db_accepted "2024-05-01 09:30:00" 1 "alice")
    as (_ & Hself & _).
  destruct (create_friend_request_new Scenario.db_accepted "2024-05-01 09:30:00" 1 "zoe")
    as (Hmissing & _ & _).
  assert (reachable Scenario.db_accepted) as Hreach.
  { exact (reach_respond _ "2024-05-01 09:02:00" 1 2 true scenario_pending_reachable). }
  assert (forall r, In r (friend_requests Scenario.db_accepted) -> between 1 3 r = false)
    as Hnone.
  { intros r [<- | []]. reflexivity. }
  split_and!.
  - destruct (Hnew (mkUser 3 "carol" "sha256:pw3") (mkUser 1 "alice" "sha256:pw1")
                Hreach eq_refl ltac:(discriminate) eq_refl Hnone)
      as (rid & d' & Hcall & _ & _ & _ & _ & _ & Hnot).
    exists rid, d'. split; [exact Hcall | exact Hnot].
  - exact (Hself (mkUser 1 "alice" "sha256:pw1") eq_refl eq_refl).
  - exact (Hmissing eq_refl).
Defined.

End new_requests.

Section summaries.
Implicit Types (d : DB) (r : friend_request).

Lemma In_omap {A B} (f : A -> option B) (l : list A) (y : B) :
  In y (omap f l) <-> exists x, In x l /\ f x = Some y.
Proof.
  rewrite <- list_elem_of_In, list_elem_of_omap.
  by setoid_rewrite list_elem_of_In.
Qed.

(** X11.  What [get_friend_summary] lists for a user: as friends, the
    users with whom [are_friends] holds and whose row exists; as incoming
    requests, the pending requests addressed to the user; as outgoing
    requests, the pending requests the user sent. *)
Theorem friend_summary_lists d uid :
  (forall x,
     (exists item, In item (friends (get_friend_summary d uid)) /\ fi_id item = x)
     <-> are_friends d uid x = true /\ is_Some (user_by_id d x))
  /\ (forall rid,
        (exists item, In item (incoming_requests (get_friend_summary d uid))
                      /\ in_request_id item = rid)
        <-> exists r, In r (friend_requests d) /\ fr_id r = rid
                      /\ fr_to_user_id r = uid /\ fr_status r = pending
                      /\ is_Some (user_by_id d (fr_from_user_id r)))
  /\ (forall rid,
        (exists item, In item (outgoing_requests (get_friend_summary d uid))
                      /\ out_request_id item = rid)
        <-> exists r, In r (friend_requests d) /\ fr_id r = rid
                      /\ fr_from_user_id r = uid /\ fr_status r = pending
                      /\ is_Some (user_by_id d (fr_to_user_id r))).
Proof.
  split_and!.
  - intros x. split.
    + intros (item & (r & Hr & Hrow)%In_omap & <-).
      unfold friend_row in Hrow.
      destruct (_ && _) eqn:Hcond; [|done].
      apply andb_true_iff in Hcond as [Hparty Hst%status_eqb_spec].
      destruct (user_by_id d (other_party uid r)) as [u|] eqn:Hu; [|done].
      injection Hrow as <-. simpl.
      rewrite (user_by_id_id _ _ _ Hu). split; [|by exists u].
      apply are_friends_spec. exists r. split_and!; try done.
      unfold other_party. apply orb_true_iff in Hparty.
      destruct (fr_from_user_id r =? uid)%Z eqn:Hfrom.
      * apply Z.eqb_eq in Hfrom. by left.
      * destruct Hparty as [?|Hto%Z.eqb_eq]; [done|]. by right.
    + intros [(r & Hr & Hst & Hdir)%are_friends_spec [u Hu]].
      exists (mkFriendItem (u_id u) (u_username u)). split.
      * apply In_omap. exists r. split; [done|]. unfold friend_row.
        assert (other_party uid r = x) as ->.
        { unfold other_party. destruct (fr_from_user_id r =? uid)%Z eqn:Hfrom.
          - apply Z.eqb_eq in Hfrom. destruct Hdir as [[_ ?]|[? ?]]; congruence.
          - apply Z.eqb_neq in Hfrom. destruct Hdir as [[? _]|[? _]]; congruence. }
        rewrite Hu, Hst. simpl.
        destruct Hdir as [[-> _]|[_ ->]]; rewrite Z.eqb_refl; by rewrite ?orb_true_r.
      * simpl. by apply (user_by_id_id d).
  - intros rid. split.
    + intros (item & (r & Hr & Hrow)%In_omap & <-). unfold incoming_row in Hrow.
      destruct (_ && _) eqn:Hcond; [|done].
      apply andb_true_iff in Hcond as [Hto%Z.eqb_eq Hst%status_eqb_spec].
      destruct (user_by_id d (fr_from_user_id r)) as [u|] eqn:Hu; [|done].
      injection Hrow as <-. exists r. split_and!; try done; by exists u.
    + intros (r & Hr & <- & Hto & Hst & [u Hu]).
      exists (mkIncomingItem (fr_id r) (u_username u)). split; [|done].
      apply In_omap. exists r. split; [done|]. unfold incoming_row.
      apply Z.eqb_eq in Hto. by rewrite Hto, Hst, Hu.
  - intros rid. split.
    + intros (item & (r & Hr & Hrow)%In_omap & <-). unfold outgoing_row in Hrow.
      destruct (_ && _) eqn:Hcond; [|done].
      apply andb_true_iff in Hcond as [Hfrom%Z.eqb_eq Hst%status_eqb_spec].
      destruct (user_by_id d (fr_to_user_id r)) as [u|] eqn:Hu; [|done].
      injection Hrow as <-. exists r. split_and!; try done; by exists u.
    + intros (r & Hr & <- & Hfrom & Hst & [u Hu]).
      exists (mkOutgoingItem (fr_id r) (u_username u) (fr_status r)). split; [|done].
      apply In_omap. exists r. split; [done|]. unfold outgoing_row.
      apply Z.eqb_eq in Hfrom. by rewrite Hfrom, Hst, Hu.
Qed.

Lemma friend_summary_lists_witness :
  (exists item, In item (friends (get_friend_summary Scenario.db_accepted 2))
                /\ fi_id item = 1%Z)
  /\ ~ (exists item, In item (friends (get_friend_summary Scenario.db_pending 2))
                     /\ fi_id item = 1%Z).
Proof.
  split.
  - apply (friend_summary_lists Scenario.db_accepted 2). split; [reflexivity|].
    by exists (mkUser 1 "alice" "sha256:pw1").
  - intros [Hfriends _]%(friend_summary_lists Scenario.db_pending 2). discriminate.
Defined.

End summaries.

Section summaries_after_calls.
Implicit Types (d : DB) (r : friend_request).

Lemma reachable_well_formed d :
  reachable d -> forall r, In r (friend_requests d) -> request_well_formed r.
Proof.
  induction 1; [intros r []|..];
    (eapply well_formed_step; [eassumption | constructor]).
Qed.

(** X12.  On a reachable store, a request that [create_friend_request]
    has just returned is listed, under its id, among the incoming
    requests of its target with the sender's name and among the outgoing
    requests of its sender with the target's name and status pending. *)
Theorem new_request_is_listed d now a bname d' out :
  reachable d ->
  create_friend_request now a bname d = (d', inr out) ->
  exists b,
    get_user_by_username d bname = Some b
    /\ In (mkIncomingItem (rr_id out) (rr_from_username out))
         (incoming_requests (get_friend_summary d' (u_id b)))
    /\ In (mkOutgoingItem (rr_id out) bname pending)
         (outgoing_requests (get_friend_summary d' a)).
Proof.
  intros Hreach (b & u_from & u_to & Hb & Hne & Hnone & Hfrom & Hto & -> & ->)
    %create_friend_request_success_inv.
  exists b. split; [done|].
  set (row := mkFriendRequest _ a (u_id b) pending now None).
  assert (In row (friend_requests d ++ [row])) as Hin
    by (apply in_or_app; right; by left).
  rewrite (user_by_id_of_name d bname b) in Hto by auto using reachable_keys.
  injection Hto as <-.
  destruct (get_user_by_username_some _ _ _ Hb) as [Hname _].
  split; apply In_omap; exists row; (split; [exact Hin|]).
  - unfold incoming_row. simpl. rewrite Z.eqb_refl. simpl.
    change (user_by_id (with_friend_requests d ?l) a) with (user_by_id d a).
    by rewrite Hfrom.
  - unfold outgoing_row. simpl. rewrite Z.eqb_refl. simpl.
    change (user_by_id (with_friend_requests d ?l) (u_id b))
      with (user_by_id d (u_id b)).
    rewrite (user_by_id_of_name d bname b) by auto using reachable_keys.
    by rewrite Hname.
Qed.

Lemma new_request_is_listed_witness :
  In (mkIncomingItem 1 "alice")
    (incoming_requests (get_friend_summary Scenario.db_pending 2))
  /\ In (mkOutgoingItem 1 "bob" pending)
       (outgoing_requests (get_friend_summary Scenario.db_pending 1)).
Proof.
  assert (reachable Scenario.db_users) as Hreach.
  { exact (reach_create_session _ "2024-05-01 09:00:02" "tok-carol" 3
            (reach_create_session _ "2024-05-01 09:00:01" "tok-bob" 2
              (reach_create_session _ "2024-05-01 09:00:00" "tok-alice" 1
                (reach_create_user _ Scenario.sha "carol" "pw3"
                  (reach_create_user _ Scenario.sha "bob" "pw2"
                    (reach_create_user _ Scenario.sha "alice" "pw1" reach_init)))))). }
  destruct (new_request_is_listed Scenario.db_users "2024-05-01 09:01:00" 1 "bob"
              Scenario.db_pending (mkRequestRow 1 pending "alice" "bob") Hreach eq_refl)
    as (b & Hb & Hin & Hout).
  injection Hb as <-. split; [exact Hin | exact Hout].
Defined.

(** X13.  On a reachable store, once [respond_to_friend_request] has
    returned, the request is in neither its target's incoming list nor
    its sender's outgoing list; and when the answer was an acceptance
    each of the two users is in the other's list of friends. *)
Theorem answered_request_is_listed d now rid uid acc d' out :
  reachable d ->
  respond_to_friend_request now rid uid acc d = (d', inr out) ->
  exists r u_from u_to,
    request_by_id d rid = Some r
    /\ user_by_id d (fr_from_user_id r) = Some u_from
    /\ user_by_id d uid = Some u_to
    /\ (forall item, In item (incoming_requests (get_friend_summary d' uid)) ->
                     in_request_id item <> rid)
    /\ (forall item,
          In item (outgoing_requests (get_friend_summary d' (fr_from_user_id r))) ->
          out_request_id item <> rid)
    /\ (acc = true ->
        In (mkFriendItem (fr_from_user_id r) (u_username u_from))
          (friends (get_friend_summary d' uid))
        /\ In (mkFriendItem uid (u_username u_to))
             (friends (get_friend_summary d' (fr_from_user_id r)))).
Proof.
  intros Hreach (r & _ & Hr & Hto & Hst & -> & Hsel)%respond_success_inv.
  pose proof (update_status_find now (new_status acc) rid _ r Hr) as Hr'.
  set (d' := with_friend_requests d _) in *.
  assert (exists u_from u_to, user_by_id d (fr_from_user_id r) = Some u_from
                              /\ user_by_id d uid = Some u_to) as (u_from & u_to & Hf & Ht).
  { unfold select_request_row in Hsel. unfold request_by_id in Hsel at 1.
    simpl in Hsel. rewrite Hr' in Hsel. simpl in Hsel.
    change (user_by_id d' ?x) with (user_by_id d x) in Hsel. rewrite Hto in Hsel.
    destruct (user_by_id d (fr_from_user_id r)) as [uf|]; [|done].
    destruct (user_by_id d uid) as [ut|]; [|done]. by exists uf, ut. }
  assert (forall x, In x (friend_requests d') -> fr_id x = rid -> fr_status x <> pending)
    as Hanswered.
  { intros x (y & <- & Hy)%in_map_iff Hid.
    destruct (fr_id y =? rid)%Z eqn:E; [by destruct acc|].
    apply Z.eqb_neq in E. done. }
  exists r, u_from, u_to. split_and!; try done.
  - intros item (x & Hx & Hrow)%In_omap Hid. unfold incoming_row in Hrow.
    destruct (_ && _) eqn:Hcond; [|done].
    apply andb_true_iff in Hcond as [_ Hpending%status_eqb_spec].
    destruct (user_by_id d' _); [|done]. injection Hrow as <-.
    by apply (Hanswered x).
  - intros item (x & Hx & Hrow)%In_omap Hid. unfold outgoing_row in Hrow.
    destruct (_ && _) eqn:Hcond; [|done].
    apply andb_true_iff in Hcond as [_ Hpending%status_eqb_spec].
    destruct (user_by_id d' _); [|done]. injection Hrow as <-.
    by apply (Hanswered x).
  - intros ->.
    pose proof (find_some _ _ Hr') as [Hin' _].
    destruct (reachable_well_formed d Hreach r) as [Hne _].
    { by apply find_some in Hr as [? _]. }
    split; apply In_omap; exists (responded now accepted r); (split; [exact Hin'|]);
      unfold friend_row, other_party; simpl.
    + rewrite Hto, Z.eqb_refl, orb_true_r. simpl.
      assert ((fr_from_user_id r =? uid)%Z = false) as -> by (apply Z.eqb_neq; congruence).
      change (user_by_id d' ?x) with (user_by_id d x). rewrite Hf.
      by rewrite (user_by_id_id _ _ _ Hf).
    + rewrite Z.eqb_refl. simpl.
      change (user_by_id d' ?x) with (user_by_id d x). rewrite Hto, Ht.
      by rewrite (user_by_id_id _ _ _ Ht).
Qed.

Lemma answered_request_is_listed_witness :
  In (mkFriendItem 1 "alice") (friends (get_friend_summary Scenario.db_accepted 2))
  /\ In (mkFriendItem 2 "bob") (friends (get_friend_summary Scenario.db_accepted 1))
  /\ incoming_requests (get_friend_summary Scenario.db_accepted 2) = [].
Proof.
  destruct (answered_request_is_listed Scenario.db_pending "2024-05-01 09:02:00" 1 2 true
              Scenario.db_accepted (mkRequestRow 1 accepted "alice" "bob")
              scenario_pending_reachable eq_refl)
    as (r & uf & ut & Hr & Hf & Ht & _ & _ & Hfriends).
  injection Hr as <-. injection Hf as <-. injection Ht as <-.
  destruct (Hfriends eq_refl) as [H1 H2].
  split_and!; [exact H1 | exact H2 | reflexivity].
Defined.

End summaries_after_calls.

(** * Further properties of the handlers *)

Section http_accounts.
Implicit Types (w : World).

Lemma world_eta w : mkWorld (db w) (active_connections w) (trace w) = w.
Proof. by destruct w. Qed.

(** A call into the store that adds no message leaves the trace alone. *)
Lemma call_db_quiet {A} (c : M DB A) w :
  messages (fst (c (db w))) = messages (db w) ->
  call_db c w = (mkWorld (fst (c (db w))) (active_connections w) (trace w),
                 snd (c (db w))).
Proof.
  intros Hm. unfold call_db. destruct (c (db w)) as [d' r]. simpl in *.
  by rewrite Hm, drop_all, app_nil_r.
Qed.

Lemma create_user_messages sha username password d :
  messages (fst (create_user sha username password d)) = messages d.
Proof. by destruct (create_user_effect sha username password d) as [-> | [_ ->]]. Qed.

Lemma create_session_messages now token uid d :
  messages (fst (create_session now token uid d)) = messages d.
Proof. by destruct (create_session_effect now token uid d) as [-> | [_ ->]]. Qed.

Lemma create_friend_request_messages now a bname d :
  messages (fst (create_friend_request now a bname d)) = messages d.
Proof.
  by destruct (create_friend_request_effect now a bname d) as [-> | (b & _ & _ & _ & ->)].
Qed.

Lemma respond_messages now rid uid acc d :
  messages (fst (respond_to_friend_request now rid uid acc d)) = messages d.
Proof.
  by destruct (respond_effect now rid uid acc d) as [-> | (r & _ & _ & _ & ->)].
Qed.

Lemma create_user_free_lookup (sha : string -> string) username password d :
  get_user_by_username d username = None ->
  get_user_by_username
    (with_users d (users d ++ [mkUser (next_id (map u_id (users d))) username
                                 (sha password)]))
    username
  = Some (mkUser (next_id (map u_id (users d))) username (sha password)).
Proof.
  intros Hfree. unfold get_user_by_username in *. simpl.
  rewrite find_snoc, Hfree. simpl. by rewrite String.eqb_refl.
Qed.

(** X4.  [register] refuses an empty username or an empty password with
    status 400 before it looks at the store; it refuses a name that,
    once trimmed, is taken, with status 400 and "Username already
    taken"; otherwise it creates the user under the trimmed name, with
    the hash of the password, and returns its id and that name.  In the
    two refusals the world is left as it was, and no case sends a frame
    or touches the registry. *)
Theorem register_outcomes sha username password w :
  (username = "" \/ password = "" ->
   register sha username password w
   = (w, inl (HTTPException 400 "Username and password are required")))
  /\ (username <> "" -> password <> "" ->
      forall u0, get_user_by_username (db w) (Py.strip username) = Some u0 ->
      register sha username password w
      = (w, inl (HTTPException 400 "Username already taken")))
  /\ (username <> "" -> password <> "" ->
      get_user_by_username (db w) (Py.strip username) = None ->
      exists w' u,
        register sha username password w
        = (w', inr (mkMe (u_id u) (Py.strip username)))
        /\ get_user_by_username (db w') (Py.strip username) = Some u
        /\ u_password_hash u = sha password
        /\ trace w' = trace w
        /\ active_connections w' = active_connections w).
Proof.
  split_and!.
  - intros Hempty. unfold register.
    assert (negb (Py.truthy username) || negb (Py.truthy password) = true) as ->.
    { destruct Hempty as [-> | ->]; [done | apply orb_true_r]. }
    done.
  - intros Hu Hp u0 Htaken. unfold register.
    rewrite (both_truthy _ _ Hu Hp). unfold bind, except_ValueError.
    rewrite call_db_quiet by apply create_user_messages.
    rewrite (create_user_taken _ _ _ _ u0) by done. simpl. by rewrite world_eta.
  - intros Hu Hp Hfree. unfold register.
    rewrite (both_truthy _ _ Hu Hp). unfold bind, except_ValueError.
    rewrite call_db_quiet by apply create_user_messages.
    rewrite create_user_free by done. simpl.
    eexists _, (mkUser (next_id (map u_id (users (db w)))) (Py.strip username)
                  (sha password)).
    split; [reflexivity|]. simpl. split_and!; try done.
    by apply create_user_free_lookup.
Qed.

Lemma register_outcomes_witness :
  (exists w' u,
     register Scenario.sha "  dave " "pw4" (mkWorld Scenario.db_users ∅ [])
     = (w', inr (mkMe (u_id u) "dave"))
     /\ get_user_by_username (db w') "dave" = Some u)
  /\ register Scenario.sha " bob" "x" (mkWorld Scenario.db_users ∅ [])
     = (mkWorld Scenario.db_users ∅ [], inl (HTTPException 400 "Username already taken"))
  /\ register Scenario.sha "eve" "" (mkWorld Scenario.db_users ∅ [])
     = (mkWorld Scenario.db_users ∅ [],
        inl (HTTPException 400 "Username and password are required")).
Proof.
  split_and!.
  - destruct (register_outcomes Scenario.sha "  dave " "pw4"
                (mkWorld Scenario.db_users ∅ [])) as (_ & _ & Hnew).
    destruct (Hnew ltac:(discriminate) ltac:(discriminate) eq_refl)
      as (w' & u & Hcall & Hlookup & _).
    by exists w', u.
  - destruct (register_outcomes Scenario.sha " bob" "x"
                (mkWorld Scenario.db_users ∅ [])) as (_ & Htaken & _).
    exact (Htaken ltac:(discriminate) ltac:(discriminate)
             (mkUser 2 "bob" "sha256:pw2") eq_refl).
  - destruct (register_outcomes Scenario.sha "eve" ""
                (mkWorld Scenario.db_users ∅ [])) as (Hempty & _ & _).
    apply Hempty. by right.
Defined.

End http_accounts.

Section http_login.
Implicit Types (w : World) (d : DB).

Lemma get_current_user_ok token w user :
  get_user_by_token (db w) token = Some user ->
  get_current_user token w = (w, inr (mkMe (u_id user) (u_username user))).
Proof. intros H. unfold get_current_user. run. by rewrite H. Qed.

Lemma get_current_user_invalid token w :
  get_user_by_token (db w) token = None ->
  get_current_user token w = (w, inl (HTTPException 401 "Invalid or expired token")).
Proof. intros H. unfold get_current_user. run. by rewrite H. Qed.

Lemma fresh_session_lookup now token uid d :
  ~ In token (map s_token (sessions d)) ->
  create_session now token uid d
  = (with_sessions d (sessions d ++ [mkSession token uid now]), inr token)
  /\ get_user_by_token (with_sessions d (sessions d ++ [mkSession token uid now])) token
     = user_by_id d uid.
Proof.
  intros Hfresh.
  assert (existsb (fun s => String.eqb (s_token s) token) (sessions d) = false) as Hex.
  { apply not_true_is_false. by rewrite token_known. }
  split.
  - unfold create_session. run. by rewrite Hex.
  - unfold get_user_by_token. simpl. rewrite find_snoc.
    destruct (find _ (sessions d)) as [s|] eqn:Hs.
    + apply find_some in Hs as [Hin Heq]. simpl in Heq.
      apply String.eqb_eq in Heq. destruct Hfresh. rewrite <- Heq. by apply in_map.
    + simpl. by rewrite String.eqb_refl.
Qed.

(** X5.  [login] answers 401 with one and the same message when no user
    has the trimmed name and when the hash of the password is not the
    stored one, and opens no session in either case.  With the right
    password, on a reachable store and with a token not yet in use, it
    returns the token and the user's name, and from then on [me] with
    that token answers with that user. *)
Theorem login_then_me sha env token username password w :
  (get_user_by_username (db w) (Py.strip username) = None ->
   login sha env token username password w
   = (w, inl (HTTPException 401 "Invalid username or password")))
  /\ (forall user,
        get_user_by_username (db w) (Py.strip username) = Some user ->
        sha password <> u_password_hash user ->
        login sha env token username password w
        = (w, inl (HTTPException 401 "Invalid username or password")))
  /\ (forall user,
        reachable (db w) ->
        get_user_by_username (db w) (Py.strip username) = Some user ->
        sha password = u_password_hash user ->
        ~ In token (map s_token (sessions (db w))) ->
        exists w',
          login sha env token username password w
          = (w', inr (mkAuth token (u_username user)))
          /\ me token w' = (w', inr (mkMe (u_id user) (u_username user)))
          /\ users (db w') = users (db w)
          /\ trace w' = trace w).
Proof.
  split_and!.
  - intros Hnone. unfold login. run. by rewrite Hnone.
  - intros user Huser Hbad. unfold login. run. rewrite Huser.
    apply String.eqb_neq in Hbad. by rewrite Hbad.
  - intros user Hreach Huser Hgood Hfresh. unfold login. run. rewrite Huser.
    apply String.eqb_eq in Hgood. rewrite Hgood. simpl.
    rewrite call_db_quiet by apply create_session_messages.
    destruct (fresh_session_lookup (now env) token (u_id user) (db w) Hfresh)
      as [Hcall Htoken].
    rewrite Hcall. simpl. eexists. split; [reflexivity|].
    split_and!; try done.
    unfold me. apply get_current_user_ok. simpl. rewrite Htoken.
    apply (user_by_id_of_name _ (Py.strip username)); auto using reachable_keys.
Qed.

Lemma login_then_me_witness :
  (exists w',
     login Scenario.sha Scenario.env_ok "tok-second" " alice " "pw1"
       (mkWorld Scenario.db_pending ∅ [])
     = (w', inr (mkAuth "tok-second" "alice"))
     /\ me "tok-second" w' = (w', inr (mkMe 1 "alice")))
  /\ login Scenario.sha Scenario.env_ok "tok-second" "alice" "guess"
       (mkWorld Scenario.db_pending ∅ [])
     = (mkWorld Scenario.db_pending ∅ [],
        inl (HTTPException 401 "Invalid username or password")).
Proof.
  split.
  - destruct (login_then_me Scenario.sha Scenario.env_ok "tok-second" " alice " "pw1"
                (mkWorld Scenario.db_pending ∅ [])) as (_ & _ & Hok).
    destruct (Hok (mkUser 1 "alice" "sha256:pw1") scenario_pending_reachable
                eq_refl eq_refl) as (w' & Hlogin & Hme & _).
    + simpl. intros [H|[H|[H|[]]]]; discriminate H.
    + by exists w'.
  - destruct (login_then_me Scenario.sha Scenario.env_ok "tok-second" "alice" "guess"
                (mkWorld Scenario.db_pending ∅ [])) as (_ & Hbad & _).
    apply (Hbad (mkUser 1 "alice" "sha256:pw1")); [reflexivity | discriminate].
Defined.

(** X14.  With a token that no session holds, every endpoint that takes
    a token answers 401 "Invalid or expired token" and leaves the world
    as it was; the WebSocket endpoint accepts the handshake, closes with
    code 4401 and registers nothing. *)
Theorem invalid_token_is_refused w token :
  get_user_by_token (db w) token = None ->
  me token w = (w, refused)
  /\ (forall env name, send_friend_request env token name w = (w, refused))
  /\ (forall env rid acc, respond_friend_request env token rid acc w = (w, refused))
  /\ list_friends token w = (w, refused)
  /\ (forall name limit, get_history token name limit w = (w, refused))
  /\ (forall env uuid_hex write_error name filename,
        upload_file env uuid_hex write_error token name filename w = (w, refused))
  /\ (forall ws inbound,
        chat_ws ws (Some token) inbound w
        = (mkWorld (db w) (active_connections w)
             (trace w ++ [Accepted ws; Closed ws 4401]), inr tt)).
Proof.
  intros Hnone. pose proof (get_current_user_invalid token w Hnone) as Hbad.
  unfold refused.
  split_and!.
  - exact Hbad.
  - intros env name. unfold send_friend_request, bind. by rewrite Hbad.
  - intros env rid acc. unfold respond_friend_request, bind. by rewrite Hbad.
  - unfold list_friends, bind. by rewrite Hbad.
  - intros name limit. unfold get_history, bind. by rewrite Hbad.
  - intros env uuid_hex write_error name filename. unfold upload_file, bind.
    by rewrite Hbad.
  - intros ws inbound. unfold chat_ws, log. run.
    destruct (negb (Py.truthy token)); simpl.
    + by rewrite <- app_assoc.
    + unfold get_current_user. run. rewrite Hnone. simpl. by rewrite <- app_assoc.
Qed.

Lemma invalid_token_is_refused_witness :
  list_friends "tok-nobody" Scenario.world_both_online
  = (Scenario.world_both_online, inl (HTTPException 401 "Invalid or expired token")).
Proof.
  apply (invalid_token_is_refused Scenario.world_both_online "tok-nobody" eq_refl).
Defined.

End http_login.

Section http_history.
Implicit Types (w : World) (d : DB).

(** X15.  The friend endpoints and [register] never let a ValueError of
    the store through: whatever they are given, what they raise is
    something else (an HTTPException with status 400 in its place). *)
Theorem endpoints_hide_ValueError w msg :
  (forall sha username password,
     snd (register sha username password w) <> inl (ValueError msg))
  /\ (forall env token name,
        snd (send_friend_request env token name w) <> inl (ValueError msg))
  /\ (forall env token rid acc,
        snd (respond_friend_request env token rid acc w) <> inl (ValueError msg)).
Proof.
  assert (forall A (c : M World A) detail w0,
            snd (except_ValueError c detail w0) <> inl (ValueError msg)) as Hexcept.
  { intros A c detail w0. unfold except_ValueError.
    destruct (c w0) as [w1 [[]|a]]; simpl; congruence. }
  split_and!.
  - intros sha username password. unfold register.
    destruct (_ || _); [simpl; congruence|]. unfold bind.
    specialize (Hexcept _ (call_db (create_user sha (Py.strip username) password))
                  (fun _ => "Username already taken") w).
    destruct (except_ValueError _ _ w) as [w1 [e|u]]; simpl in *; congruence.
  - intros env token name. unfold send_friend_request, bind, get_current_user. run.
    destruct (get_user_by_token (db w) token); simpl; [|congruence].
    apply Hexcept.
  - intros env token rid acc. unfold respond_friend_request, bind, get_current_user. run.
    destruct (get_user_by_token (db w) token); simpl; [|congruence].
    apply Hexcept.
Qed.

Lemma exchanged_sym a b m : exchanged a b m = exchanged b a m.
Proof. unfold exchanged. apply orb_comm. Qed.

Lemma select_columns_attributed d u1 u2 m :
  user_by_id d (u_id u1) = Some u1 -> user_by_id d (u_id u2) = Some u2 ->
  exchanged (u_id u1) (u_id u2) m = true ->
  exists row,
    select_columns d m = Some row
    /\ mkMessageItem (cr_from_username row) (cr_to_username row)
         (cr_kind row) (cr_text row) (cr_url row) (cr_created_at row)
       = attributed u1 u2 m.
Proof.
  intros H1 H2 Hex. unfold select_columns, join_users, attributed.
  unfold exchanged in Hex. apply orb_true_iff in Hex.
  destruct Hex as [[Hf Ht]%andb_true_iff | [Hf Ht]%andb_true_iff];
    apply Z.eqb_eq in Hf, Ht; rewrite Hf, Ht, H1, H2; eexists; (split; [done|]);
      simpl; rewrite !Z.eqb_refl;
      (destruct (u_id u2 =? u_id u1)%Z eqn:E; [|done]);
      apply Z.eqb_eq in E; rewrite E, H1 in H2; by injection H2 as ->.
Qed.

Lemma history_items d u1 u2 (msgs : list message) :
  user_by_id d (u_id u1) = Some u1 -> user_by_id d (u_id u2) = Some u2 ->
  (forall m, In m msgs -> exchanged (u_id u1) (u_id u2) m = true) ->
  map (fun row => mkMessageItem (cr_from_username row) (cr_to_username row)
                    (cr_kind row) (cr_text row) (cr_url row) (cr_created_at row))
    (omap (select_columns d) msgs)
  = map (attributed u1 u2) msgs.
Proof.
  intros H1 H2. induction msgs as [|m msgs IH]; intros Hex; [done|].
  destruct (select_columns_attributed d u1 u2 m H1 H2 (Hex m ltac:(by left)))
    as (row & Hrow & Hitem).
  cbn [omap list_omap]. rewrite Hrow. cbn [map]. rewrite Hitem. f_equal.
  apply IH. intros m' Hm'. apply Hex. by right.
Qed.

(** X16.  [get_history] for a valid token never writes.  It answers 400
    "Friend not found" when the trimmed name is no user's and 400 "You
    are not friends with this user" when the two are not friends.
    Between friends, on a reachable store whose ids fit SQLite's 64-bit
    INTEGER, a limit within signed 64 bits gives one item per selected
    message, in the order of the selection, carrying the message's kind,
    text, url and time, and naming its sender and its recipient after
    the two users; a limit outside that range makes the binding raise
    OverflowError, which the endpoint lets through. *)
Theorem get_history_outcomes token friend_username limit w me_user :
  get_user_by_token (db w) token = Some me_user ->
  (get_user_by_username (db w) (Py.strip friend_username) = None ->
   get_history token friend_username limit w
   = (w, inl (HTTPException 400 "Friend not found")))
  /\ (forall f, get_user_by_username (db w) (Py.strip friend_username) = Some f ->
        are_friends (db w) (u_id me_user) (u_id f) = false ->
        get_history token friend_username limit w
        = (w, inl (HTTPException 400 "You are not friends with this user")))
  /\ (forall f, reachable (db w) ->
        get_user_by_username (db w) (Py.strip friend_username) = Some f ->
        are_friends (db w) (u_id me_user) (u_id f) = true ->
        fits_int64 (u_id me_user) = true -> fits_int64 (u_id f) = true ->
        fits_int64 limit = true ->
        get_history token friend_username limit w
        = (w, inr (map (attributed me_user f)
                     (get_conversation_msgs (db w) (u_id me_user) (u_id f) limit))))
  /\ (forall f,
        get_user_by_username (db w) (Py.strip friend_username) = Some f ->
        are_friends (db w) (u_id me_user) (u_id f) = true ->
        fits_int64 limit = false ->
        get_history token friend_username limit w = (w, inl OverflowError)).
Proof.
  intros Htoken. pose proof (get_current_user_ok token w me_user Htoken) as Hme.
  split_and!.
  - intros Hnone. unfold get_history, bind. rewrite Hme. run. by rewrite Hnone.
  - intros f Hf Hnot. unfold get_history, bind. rewrite Hme. run. by rewrite Hf, Hnot.
  - intros f Hreach Hf Hfriends Hfit1 Hfit2 Hfit3.
    unfold get_history, bind. rewrite Hme. run.
    rewrite Hf, Hfriends. simpl. unfold pure.
    rewrite get_conversation_bound by done. do 2 f_equal.
    apply history_items.
    + unfold get_user_by_token in Htoken.
      destruct (find _ (sessions (db w))) as [s|]; [|done].
      by rewrite (user_by_id_id _ _ _ Htoken).
    + apply (user_by_id_of_name _ (Py.strip friend_username)); auto using reachable_keys.
    + intros m Hm. by apply get_conversation_msgs_exchanged in Hm as (_ & Hex & _).
  - intros f Hf Hfriends Hfit. unfold get_history, bind. rewrite Hme. run.
    rewrite Hf, Hfriends. simpl. unfold pure.
    rewrite get_conversation_overflow; [done|].
    rewrite Hfit. apply andb_false_r.
Qed.

End http_history.

Section http_history_witness.

Lemma scenario_chat_reachable : reachable Scenario.db_chat.
Proof.
  exact (reach_save_message _ true "2024-05-01 09:05:00" 1 2 text "three" None
          (reach_save_message _ true "2024-05-01 09:04:00" 2 1 text "two" None
            (reach_save_message _ true "2024-05-01 09:03:00" 1 2 text "one" None
              (reach_respond _ "2024-05-01 09:02:00" 1 2 true
                 scenario_pending_reachable)))).
Qed.

Lemma get_history_outcomes_witness :
  get_history "tok-bob" " alice" 2 (mkWorld Scenario.db_chat ∅ [])
  = (mkWorld Scenario.db_chat ∅ [],
     inr [mkMessageItem "alice" "bob" text "one" None "2024-05-01 09:03:00";
          mkMessageItem "bob" "alice" text "two" None "2024-05-01 09:04:00"])
  /\ get_history "tok-carol" "alice" 5 (mkWorld Scenario.db_chat ∅ [])
     = (mkWorld Scenario.db_chat ∅ [],
        inl (HTTPException 400 "You are not friends with this user"))
  /\ get_history "tok-bob" "nobody" 5 (mkWorld Scenario.db_chat ∅ [])
     = (mkWorld Scenario.db_chat ∅ [], inl (HTTPException 400 "Friend not found"))
  /\ get_history "tok-bob" "alice" (2 ^ 63) (mkWorld Scenario.db_chat ∅ [])
     = (mkWorld Scenario.db_chat ∅ [], inl OverflowError).
Proof.
  split_and!.
  - destruct (get_history_outcomes "tok-bob" " alice" 2 (mkWorld Scenario.db_chat ∅ [])
                (mkUser 2 "bob" "sha256:pw2") eq_refl) as (_ & _ & Hok & _).
    exact (Hok (mkUser 1 "alice" "sha256:pw1") scenario_chat_reachable
             eq_refl eq_refl eq_refl eq_refl eq_refl).
  - destruct (get_history_outcomes "tok-carol" "alice" 5 (mkWorld Scenario.db_chat ∅ [])
                (mkUser 3 "carol" "sha256:pw3") eq_refl) as (_ & Hnot & _).
    exact (Hnot (mkUser 1 "alice" "sha256:pw1") eq_refl eq_refl).
  - destruct (get_history_outcomes "tok-bob" "nobody" 5 (mkWorld Scenario.db_chat ∅ [])
                (mkUser 2 "bob" "sha256:pw2") eq_refl) as (Hnone & _).
    exact (Hnone eq_refl).
  - destruct (get_history_outcomes "tok-bob" "alice" (2 ^ 63)
                (mkWorld Scenario.db_chat ∅ [])
                (mkUser 2 "bob" "sha256:pw2") eq_refl) as (_ & _ & _ & Hbig).
    exact (Hbig (mkUser 1 "alice" "sha256:pw1") eq_refl eq_refl eq_refl).
Defined.

End http_history_witness.

(** * Further properties of conversations *)

Section conversation_order.
Implicit Types (d : DB) (m : message).
#[local] Existing Instances order_key_le_total order_key_le_trans.

Lemma StronglySorted_filter {A} (R : relation A) (P : A -> Prop)
    `{!forall x, Decision (P x)} (l : list A) :
  StronglySorted R l -> StronglySorted R (filter P l).
Proof.
  induction 1 as [|x l Hl IH Hx]; [constructor|].
  rewrite filter_cons. destruct (decide (P x)); [|done].
  constructor; [done|]. rewrite Forall_forall in *.
  intros y [_ Hy]%list_elem_of_filter. auto.
Qed.

Lemma StronglySorted_both {A} (R1 R2 R : relation A) (l : list A) :
  (forall x y, R1 x y -> R2 x y -> R x y) ->
  StronglySorted R1 l -> StronglySorted R2 l -> StronglySorted R l.
Proof.
  intros HR H1. induction H1 as [|x l Hl IH Hx]; intros H2; [constructor|].
  apply StronglySorted_cons in H2 as [Hx2 Hl2]. constructor; [auto|].
  rewrite Forall_forall in *. auto.
Qed.

Lemma ids_increase_step d d' :
  StronglySorted (fun m1 m2 => (m_id m1 < m_id m2)%Z) (messages d) ->
  db_step d d' ->
  StronglySorted (fun m1 m2 => (m_id m1 < m_id m2)%Z) (messages d').
Proof.
  intros Hs Hstep.
  destruct Hstep as [d sha name pw|d now tok uid|d now a bname|d now rid uid acc
                     |d ok now a b k txt url].
  - by rewrite create_user_messages.
  - by rewrite create_session_messages.
  - by rewrite create_friend_request_messages.
  - by rewrite respond_messages.
  - destruct (save_message_effect ok now a b k txt url d) as [-> | ->]; [done|].
    simpl. apply StronglySorted_app. split_and!; [|done|repeat constructor].
    intros x1 x2 Hx1 [<- | []]%list_elem_of_In. simpl.
    apply next_id_gt, in_map. by apply list_elem_of_In.
Qed.

(** Message ids grow with the position in the table. *)
Lemma reachable_ids_increase d :
  reachable d -> StronglySorted (fun m1 m2 => (m_id m1 < m_id m2)%Z) (messages d).
Proof.
  induction 1; [constructor|..];
    (eapply ids_increase_step; [eassumption | constructor]).
Qed.

(** X17.  On a reachable store whose clock did not go back, the ORDER BY
    of [get_conversation] changes nothing.  For two user ids and a limit
    that fit signed 64 bits, the rows returned are those of the first
    [limit] messages the two users exchanged, in the order in which they
    were inserted (all of them for a negative limit); when the limit
    does not fit, the call raises OverflowError. *)
Theorem history_in_insertion_order d a b limit :
  reachable d -> clock_monotone d ->
  fits_int64 a = true -> fits_int64 b = true ->
  (fits_int64 limit = true ->
   get_conversation d a b limit
   = inr (omap (select_columns d) (sql_limit limit (conversation_rows d a b))))
  /\ (fits_int64 limit = false -> get_conversation d a b limit = inl OverflowError).
Proof.
  intros Hreach Hclock Ha Hb. split.
  2: { intros Hl. apply get_conversation_overflow. rewrite Hl. apply andb_false_r. }
  intros Hl. rewrite get_conversation_bound by done. do 2 f_equal.
  unfold get_conversation_msgs. f_equal.
  assert (StronglySorted order_key_le (messages d)) as Hsorted.
  { eapply StronglySorted_both;
      [|exact Hclock | exact (reachable_ids_increase d Hreach)].
    intros x y Ht Hid. unfold order_key_le. simpl in *.
    destruct (String.compare (m_created_at x) (m_created_at y)); [lia | done | done]. }
  apply (StronglySorted_unique_strong order_key_le).
  - intros x1 x2 Hx1 Hx2 H12 H21.
    rewrite merge_sort_Permutation in Hx1.
    apply list_elem_of_filter in Hx1 as [_ Hx1], Hx2 as [_ Hx2].
    apply list_elem_of_In in Hx1, Hx2.
    destruct (reachable_keys d Hreach) as (_ & _ & _ & Hids & _).
    apply (NoDup_map_inj m_id (messages d)); try done.
    unfold order_key_le in *.
    rewrite (String.compare_antisym (m_created_at x2) (m_created_at x1)) in H21.
    destruct (String.compare (m_created_at x1) (m_created_at x2)); simpl in *;
      try done. lia.
  - apply StronglySorted_merge_sort; apply _.
  - by apply StronglySorted_filter.
  - apply merge_sort_Permutation.
Qed.

End conversation_order.

Section conversation_round_trip.
Implicit Types (d : DB) (m : message).

Lemma history_in_insertion_order_witness :
  get_conversation Scenario.db_chat 2 1 2
  = inr [mkConversationRow "alice" "bob" text "one" None "2024-05-01 09:03:00";
         mkConversationRow "bob" "alice" text "two" None "2024-05-01 09:04:00"]
  /\ get_conversation Scenario.db_chat 2 1 (- 2 ^ 63 - 1) = inl OverflowError.
Proof.
  assert (clock_monotone Scenario.db_chat) as Hclock.
  { unfold clock_monotone. simpl. repeat constructor; discriminate. }
  split.
  - exact (proj1 (history_in_insertion_order Scenario.db_chat 2 1 2
                    scenario_chat_reachable Hclock eq_refl eq_refl) eq_refl).
  - exact (proj2 (history_in_insertion_order Scenario.db_chat 2 1 (- 2 ^ 63 - 1)
                    scenario_chat_reachable Hclock eq_refl eq_refl) eq_refl).
Defined.

Lemma conversation_rows_sym d a b : conversation_rows d a b = conversation_rows d b a.
Proof.
  unfold conversation_rows. apply list_filter_iff.
  intros m. by rewrite (exchanged_sym a b).
Qed.

(** X18.  [get_conversation] does not depend on which of the two users
    asks: both get the same rows in the same order. *)
Theorem get_conversation_either_side d a b limit :
  get_conversation d a b limit = get_conversation d b a limit.
Proof.
  unfold get_conversation, get_conversation_msgs.
  rewrite (conversation_rows_sym d a b).
  by rewrite (andb_comm (fits_int64 a) (fits_int64 b)).
Qed.

(** What a call of [save_message] that returned a row has done. *)
Lemma save_message_success_inv ok now a b k txt url d d' row :
  save_message ok now a b k txt url d = (d', inr row) ->
  let m := mkMessage (next_id (map m_id (messages d))) a b k txt url now in
  ok = true /\ d' = with_messages d (messages d ++ [m])
  /\ is_Some (join_users d' m)
  /\ mr_id row = m_id m /\ mr_text row = txt /\ mr_kind row = k /\ mr_url row = url
  /\ mr_created_at row = now.
Proof.
  intros H m. destruct ok; [|discriminate].
  unfold save_message in H. run. fold m in H.
  rewrite (find_app_fresh _ _ m) in H.
  - destruct (join_users _ m) as [r|] eqn:Hj; [|discriminate].
    injection H as <- <-. split_and!; try done.
    all: unfold join_users in Hj; repeat case_match; try discriminate;
      by injection Hj as <-.
  - intros y Hy. apply Z.eqb_neq.
    pose proof (next_id_gt (map m_id (messages d)) (m_id y) (in_map _ _ _ Hy)).
    simpl. lia.
  - apply Z.eqb_refl.
Qed.

(** The row returned is the join of the message inserted. *)
Lemma save_message_success_join ok now a b k txt url d d' row :
  save_message ok now a b k txt url d = (d', inr row) ->
  join_users d' (mkMessage (next_id (map m_id (messages d))) a b k txt url now)
  = Some row.
Proof.
  intros H. destruct ok; [|discriminate].
  unfold save_message in H. run.
  set (m := mkMessage _ a b k txt url now) in *.
  rewrite (find_app_fresh _ _ m) in H.
  - destruct (join_users _ m) as [r|] eqn:Hj; [|discriminate].
    injection H as <- <-. done.
  - intros y Hy. apply Z.eqb_neq.
    pose proof (next_id_gt (map m_id (messages d)) (m_id y) (in_map _ _ _ Hy)).
    simpl. lia.
  - apply Z.eqb_refl.
Qed.

Lemma sql_limit_all {A} (limit : Z) (rows : list A) :
  (limit < 0)%Z \/ (Z.of_nat (length rows) <= limit)%Z -> sql_limit limit rows = rows.
Proof.
  unfold sql_limit. intros [H|H].
  - apply Z.ltb_lt in H. by rewrite H.
  - destruct (limit <? 0)%Z; [done|]. apply take_ge. lia.
Qed.

Lemma get_conversation_msgs_all d a b limit :
  (limit < 0)%Z \/ (Z.of_nat (length (conversation_rows d a b)) <= limit)%Z ->
  get_conversation_msgs d a b limit ≡ₚ conversation_rows d a b.
Proof.
  intros Hlimit. unfold get_conversation_msgs. rewrite sql_limit_all.
  - apply merge_sort_Permutation.
  - destruct Hlimit as [?|Hlen]; [by left | right].
    by rewrite merge_sort_Permutation.
Qed.

(** X19.  A message that [save_message] has stored is part of the
    conversation of its sender and its recipient, whichever of the two
    asks: for ids and a limit that fit signed 64 bits, as soon as the
    limit is negative or at least the number of messages they exchanged,
    [get_conversation] returns, and its rows hold one with the two names
    of the row [save_message] returned and the text, kind and url
    given. *)
Theorem saved_message_is_in_history ok now a b k txt url d d' row limit :
  save_message ok now a b k txt url d = (d', inr row) ->
  fits_int64 a = true -> fits_int64 b = true -> fits_int64 limit = true ->
  (limit < 0)%Z \/ (Z.of_nat (length (conversation_rows d' a b)) <= limit)%Z ->
  exists rows,
    get_conversation d' a b limit = inr rows
    /\ get_conversation d' b a limit = inr rows
    /\ In (mkConversationRow (mr_from_username row) (mr_to_username row) k txt url now)
         rows.
Proof.
  intros Hsave Ha Hb Hl Hlimit.
  pose proof (save_message_success_join _ _ _ _ _ _ _ _ _ _ Hsave) as Hjoin.
  apply save_message_success_inv in Hsave
    as (_ & -> & _ & Hid & Htxt & Hk & Hurl & Hnow).
  set (m := mkMessage _ a b k txt url now) in *.
  set (d' := with_messages d (messages d ++ [m])) in *.
  assert (m ∈ conversation_rows d' a b) as Hm.
  { apply list_elem_of_filter. split.
    - split; [|by rewrite Hjoin]. unfold exchanged. simpl. by rewrite !Z.eqb_refl.
    - simpl. apply elem_of_app. right. by left. }
  exists (omap (select_columns d') (get_conversation_msgs d' a b limit)).
  split_and!.
  - by apply get_conversation_bound.
  - rewrite get_conversation_bound by done. unfold get_conversation_msgs.
    by rewrite (conversation_rows_sym d' b a).
  - apply list_elem_of_In, list_elem_of_omap. exists m. split.
    + by rewrite get_conversation_msgs_all.
    + unfold select_columns. rewrite Hjoin. by rewrite Htxt, Hk, Hurl, Hnow.
Qed.

Lemma saved_message_is_in_history_witness :
  exists rows,
    get_conversation
      (fst (save_message true "2024-05-01 09:06:00" 2 1 text "later" None
              Scenario.db_chat)) 1 2 (-1) = inr rows
    /\ In (mkConversationRow "bob" "alice" text "later" None "2024-05-01 09:06:00") rows.
Proof.
  destruct (saved_message_is_in_history true "2024-05-01 09:06:00" 2 1 text "later" None
              Scenario.db_chat _ _ (-1) eq_refl eq_refl eq_refl eq_refl)
    as (rows & _ & Hrows & Hin).
  - left. lia.
  - exists rows. split; [exact Hrows | exact Hin].
Defined.

End conversation_round_trip.

(** * Further properties of file sharing *)

Section upload_more.
Implicit Types (w : World) (d : DB).


Lemma occurs_substring c s : forall n m,
  Py.occurs c s = false -> Py.occurs c (substring n m s) = false.
Proof.
  induction s as [|a s IH]; intros [|n] [|m]; simpl; try done.
  - intros [Ha Hs]%orb_false_iff. rewrite Ha. simpl. by apply IH.
  - intros [_ Hs]%orb_false_iff. by apply (IH n 0).
  - intros [_ Hs]%orb_false_iff. by apply (IH n (S m)).
Qed.

Lemma occurs_append c s1 s2 :
  Py.occurs c (s1 ++ s2)%string = Py.occurs c s1 || Py.occurs c s2.
Proof.
  induction s1 as [|a s1 IH]; [done|].
  change (Py.occurs c (String a (s1 ++ s2)%string)
          = Py.occurs c (String a s1) || Py.occurs c s2).
  simpl. by rewrite IH, orb_assoc.
Qed.

(** X20.  The name kept for an upload holds no slash, whatever name the
    client sent; so, for a uuid part without one, neither does the name
    of the stored file, which therefore lies directly in the upload
    directory. *)
Theorem original_name_no_slash filename :
  Py.occurs "/" (original_name filename) = false
  /\ forall uuid_hex, Py.occurs "/" uuid_hex = false ->
       Py.occurs "/" (uuid_hex ++ "_" ++ original_name filename)%string = false.
Proof.
  assert (Py.occurs "/" (original_name filename) = false) as Hname.
  { assert (Py.occurs "/" (Py.basename (or_file_bin filename)) = false) as Hb.
    { destruct (basename_spec (or_file_bin filename)) as [[Hno Heq] | [_ Hno]];
        [by rewrite Heq | done]. }
    unfold original_name. destruct (_ <? _)%nat; [|done].
    unfold Py.slice_last. by apply occurs_substring. }
  split; [done|]. intros uuid_hex Huuid.
  by rewrite !occurs_append, Huuid, Hname.
Qed.



End upload_more.

Section upload_delivery.
Implicit Types (w : World) (d : DB).



End upload_delivery.

(** * Further properties of the relay *)

Section relay_more.
Implicit Types (w : World) (me : MeResponse) (ws : conn) (data : json).

Lemma call_db_save_events ok now a b k txt url w :
  let out := call_db (save_message ok now a b k txt url) w in
  active_connections (fst out) = active_connections w
  /\ (trace (fst out) = trace w
      \/ (ok = true
          /\ trace (fst out)
             = trace w ++ [Appended (mkMessage (next_id (map m_id (messages (db w))))
                                       a b k txt url now)])).
Proof.
  unfold call_db.
  pose proof (save_message_tables ok now a b k txt url (db w)) as (_ & _ & Hm).
  destruct (save_message ok now a b k txt url (db w)) as [d' r]. simpl in *.
  split; [done|]. rewrite Hm. destruct ok.
  - right. split; [done|]. by rewrite drop_app_length.
  - left. by rewrite drop_all, app_nil_r.
Qed.

(** The decoding of the frame, as far as it goes. *)
Lemma frame_not_object_any env me ws data w e :
  dict_get data "type" = inl e ->
  chat_ws_frame env me ws data w = (w, inl e).
Proof. intros H. unfold chat_ws_frame. run. by rewrite H. Qed.

Lemma frame_raises env me ws data w e :
  (match dict_get data "type" with
   | inl e1 => inl e1
   | inr ty =>
       if json_ne_str ty "chat" then inr None
       else match dict_get data "to" with
            | inl e2 => inl e2
            | inr to_raw =>
                match or_empty_strip to_raw with
                | inl e3 => inl e3
                | inr to_username =>
                    match dict_get data "text" with
                    | inl e4 => inl e4
                    | inr text_raw =>
                        match or_empty_strip text_raw with
                        | inl e5 => inl e5
                        | inr txt => inr (Some (to_username, txt))
                        end
                    end
                end
            end
   end = inl e) ->
  chat_ws_frame env me ws data w = (w, inl e).
Proof.
  intros H. unfold chat_ws_frame. run.
  destruct (dict_get data "type") as [e1|ty]; run; [congruence|].
  destruct (json_ne_str ty "chat"); [done|].
  destruct (dict_get data "to") as [e2|to_raw]; run; [congruence|].
  destruct (or_empty_strip to_raw) as [e3|to_username]; run; [congruence|].
  destruct (dict_get data "text") as [e4|text_raw]; run; [congruence|].
  destruct (or_empty_strip text_raw) as [e5|txt]; run; [congruence|done].
Qed.

Lemma may_notice w me ws data msg : turn_may w me ws data (Sent ws (SystemFrame msg)).
Proof. done. Qed.

Lemma may_store w me ws data id to_id txt now :
  turn_may w me ws data (Appended (mkMessage id (me_id me) to_id Db.text txt None now)).
Proof. done. Qed.

Lemma may_chat w me ws data to_username txt target c :
  chat_fields data to_username txt ->
  get_user_by_username (db w) to_username = Some target ->
  are_friends (db w) (me_id me) (u_id target) = true ->
  c = ws \/ lookup_connection to_username (active_connections w) = Some c ->
  turn_may w me ws data (Sent c (ChatFrame (me_username me) txt)).
Proof. intros Hf Ht Hfr Hc. split; [done|]. by exists to_username, target. Qed.

Lemma frame_events env me ws data w :
  exists evs,
    trace (fst (chat_ws_frame env me ws data w)) = trace w ++ evs
    /\ Forall (turn_may w me ws data) evs.
Proof.
  assert (exists evs, trace w = trace w ++ evs /\ Forall (turn_may w me ws data) evs)
    as Hnone by (exists []; by rewrite app_nil_r).
  assert (forall msg, exists evs,
            trace (with_notice w ws msg) = trace w ++ evs
            /\ Forall (turn_may w me ws data) evs) as Hnotice.
  { intros msg. exists [Sent ws (SystemFrame msg)]. split; [done|].
    apply Forall_cons_2; [apply may_notice | apply Forall_nil_2]. }
  destruct (dict_get data "type") as [e|ty] eqn:H1.
  { rewrite (frame_not_object_any env me ws data w e) by done. exact Hnone. }
  destruct (json_ne_str ty "chat") eqn:H2.
  { rewrite (frame_unsupported _ _ _ _ _ ty) by done. apply Hnotice. }
  destruct (dict_get data "to") as [e|to_raw] eqn:H3.
  { rewrite (frame_raises env me ws data w e) by (rewrite H1, H2, H3; done). exact Hnone. }
  destruct (or_empty_strip to_raw) as [e|to_username] eqn:H4.
  { rewrite (frame_raises env me ws data w e) by (rewrite H1, H2, H3, H4; done).
    exact Hnone. }
  destruct (dict_get data "text") as [e|text_raw] eqn:H5.
  { rewrite (frame_raises env me ws data w e) by (rewrite H1, H2, H3, H4, H5; done).
    exact Hnone. }
  destruct (or_empty_strip text_raw) as [e|txt] eqn:H6.
  { rewrite (frame_raises env me ws data w e)
      by (rewrite H1, H2, H3, H4, H5, H6; done).
    exact Hnone. }
  assert (chat_fields data to_username txt) as Hf.
  { by exists ty, to_raw, text_raw. }
  destruct (decide (to_username = "")) as [Hto|Hto].
  { rewrite (frame_empty_field _ _ _ _ _ _ _ Hf) by auto. apply Hnotice. }
  destruct (decide (txt = "")) as [Htxt|Htxt].
  { rewrite (frame_empty_field _ _ _ _ _ _ _ Hf) by auto. apply Hnotice. }
  destruct (get_user_by_username (db w) to_username) as [target|] eqn:Htarget.
  2: { rewrite (frame_unknown_user _ _ _ _ _ _ _ Hf) by done. apply Hnotice. }
  destruct (are_friends (db w) (me_id me) (u_id target)) eqn:Hfriends.
  2: { rewrite (frame_not_friends _ _ _ _ _ _ _ _ Hf) by done. apply Hnotice. }
  rewrite (frame_accepted _ _ _ _ _ _ _ _ Hf Hto Htxt Htarget Hfriends).
  destruct (lookup_connection to_username (active_connections w)) as [target_ws|] eqn:Hl.
  - pose proof (call_db_save_events (store_ok env) (now env) (me_id me) (u_id target)
                  Db.text txt None w) as [_ Htr].
    unfold send_json, log, bind, modify.
    destruct (call_db _ w) as [w1 [e|row]]; cbn [fst snd trace] in *.
    + destruct Htr as [-> | [_ ->]]; [exact Hnone|]. eexists. split; [reflexivity|].
      apply Forall_cons_2; [apply may_store | apply Forall_nil_2].
    + destruct Htr as [-> | [_ ->]].
      * eexists. split; [by rewrite <- app_assoc|].
        repeat apply Forall_cons_2; try apply Forall_nil_2;
          apply (may_chat _ _ _ _ to_username _ target); auto.
      * eexists. split; [by rewrite <- !app_assoc|].
        repeat apply Forall_cons_2; try apply Forall_nil_2;
          [apply may_store
          |apply (may_chat _ _ _ _ to_username _ target); auto
          |apply (may_chat _ _ _ _ to_username _ target); auto].
  - unfold _send_system, send_json, log, bind, modify.
    pose proof (call_db_save_events (store_ok env) (now env) (me_id me) (u_id target)
                  Db.text txt None
                  (mkWorld (db w) (active_connections w)
                     (trace w ++ [Sent ws (SystemFrame
                        ("User '" ++ to_username ++ "' is currently offline.")%string)])))
      as [_ Htr].
    destruct (call_db _ _) as [w1 [e|row]]; cbn [fst snd trace ret] in *;
      (destruct Htr as [-> | [_ ->]];
       [eexists; split; [reflexivity|];
        apply Forall_cons_2; [apply may_notice | apply Forall_nil_2]
       |eexists; split; [by rewrite <- app_assoc|];
        repeat apply Forall_cons_2; try apply Forall_nil_2;
          [apply may_notice | apply may_store]]).
Qed.

(** X23.  Whatever frame arrives, one turn of the loop only adds to the
    trace, and what it adds is within these bounds: system notices go to
    the sender's own connection; a chat frame carries the sender's own
    name and the trimmed text of the frame, and goes to the sender or to
    the connection registered under the recipient's name, the recipient
    being a friend; a stored row is a text from the sender; no file frame
    is sent and no connection is accepted or closed. *)
Theorem relay_turn_bounds env me ws data w :
  exists evs,
    trace (fst (chat_ws_frame env me ws data w)) = trace w ++ evs
    /\ forall e, In e evs -> turn_may w me ws data e.
Proof.
  destruct (frame_events env me ws data w) as (evs & Htrace & Hall).
  exists evs. split; [exact Htrace|].
  intros e He. rewrite Forall_forall in Hall. apply Hall. by apply list_elem_of_In.
Qed.

End relay_more.

Section connection_lifecycle.
Implicit Types (w : World) (me : MeResponse) (ws : conn).






End connection_lifecycle.

Section registry_more.
Implicit Types (ac : gmap string conn) (n : string) (c : conn).

(** X9.  Registering and unregistering under one name leave every other
    name's entry as it was; unregistering removes the entry only when it
    holds the connection presented, and doing it twice is the same as
    doing it once. *)
Theorem registry_changes_one_name ac n c :
  (forall n', n' <> n ->
     lookup_connection n' (register_connection n c ac) = lookup_connection n' ac
     /\ lookup_connection n' (unregister_connection n c ac) = lookup_connection n' ac)
  /\ (forall c', lookup_connection n ac = Some c' -> c' <> c ->
        lookup_connection n (unregister_connection n c ac) = Some c')
  /\ (lookup_connection n ac = Some c ->
      lookup_connection n (unregister_connection n c ac) = None)
  /\ unregister_connection n c (unregister_connection n c ac)
     = unregister_connection n c ac.
Proof.
  split_and!.
  - intros n' Hne. split.
    + by apply register_other.
    + unfold unregister_connection, lookup_connection.
      case_decide; [by rewrite lookup_delete_ne | done].
  - intros c' Hc' Hne. rewrite (unregister_stale ac n c c'); auto.
  - apply unregister_current.
  - apply unregister_twice.
Qed.

Lemma registry_changes_one_name_witness :
  lookup_connection "alice"
    (unregister_connection "bob" Scenario.ws_bob
       (active_connections Scenario.world_both_online))
  = Some Scenario.ws_alice.
Proof.
  destruct (registry_changes_one_name (active_connections Scenario.world_both_online)
              "bob" Scenario.ws_bob) as (Hother & _).
  destruct (Hother "alice" ltac:(discriminate)) as [_ ->]. reflexivity.
Defined.

Lemma endpoints_hide_ValueError_witness :
  snd (send_friend_request Scenario.env_ok "tok-bob" "alice"
         (mkWorld Scenario.db_pending ∅ []))
  = inl (HTTPException 400 "A pending friend request already exists")
  /\ snd (send_friend_request Scenario.env_ok "tok-bob" "alice"
            (mkWorld Scenario.db_pending ∅ []))
     <> inl (ValueError "A pending friend request already exists").
Proof.
  split; [reflexivity|].
  apply (endpoints_hide_ValueError (mkWorld Scenario.db_pending ∅ [])).
Defined.

Lemma original_name_no_slash_witness :
  original_name (Some "../../etc/passwd") = "passwd"
  /\ Py.occurs "/" ("0123abcd" ++ "_" ++ original_name (Some "../../etc/passwd"))%string
     = false.
Proof.
  split; [reflexivity|].
  apply (original_name_no_slash (Some "../../etc/passwd")). reflexivity.
Defined.

Lemma relay_turn_bounds_witness :
  exists evs,
    trace (fst (chat_ws_frame Scenario.env_ok Scenario.alice Scenario.ws_alice
                  (Scenario.chat_frame "bob" "hi") Scenario.world_both_online))
    = evs
    /\ forall c f, In (Sent c f) evs -> c = Scenario.ws_alice \/ c = Scenario.ws_bob.
Proof.
  destruct (relay_turn_bounds Scenario.env_ok Scenario.alice Scenario.ws_alice
              (Scenario.chat_frame "bob" "hi") Scenario.world_both_online)
    as (evs & Htrace & Hbounds).
  exists evs. split; [exact Htrace|].
  intros c f Hin. specialize (Hbounds _ Hin). destruct f as [msg|from txt|from fn url].
  - left. exact Hbounds.
  - destruct Hbounds as (_ & to_ & target & Hf & _ & _ & [-> | Hl]); [by left|].
    right.
    destruct Hf as (ty & to_raw & text_raw & _ & _ & Hto & Hstrip & _).
    injection Hto as <-. injection Hstrip as <-.
    vm_compute in Hl. by injection Hl as <-.
  - destruct Hbounds.
Defined.

End registry_more.
